(** * folder_copy.py: folder/file analysis and STL copy engine

    A shallow embedding of the non-UI core of [src/folder_copy.py]:
    the filename classification done inline by the analysis and copy
    loops, [get_recursive_folder_details], [get_file_details],
    [copy_items], [is_valid_foldername] and [format_size].

    Conventions of the embedding.
    - Python [str] is [string]; names are taken to be ASCII, where
      [str.lower], [str.upper] and [str.strip] are the maps below.
    - Python [int] is [Z] (file sizes and counters are unbounded).
    - The file system appears in two roles.  What a walk or a stat
      reads is a [source_env]; what the copy writes is a mutable state
      behind the [CopyTarget] interface.  [copy_items] walks the
      selected folders twice, once to count and once to copy: it takes
      one [source_env] for each pass, so the tree may differ between
      them.
    - Streamlit calls ([st.error], progress bars, placeholders) are not
      file-system effects; only the final status they display is kept. *)

From Stdlib Require Import ZArith Lia Ascii String List Bool.
From stdpp Require Import gmap strings list.

Local Open Scope Z_scope.

(* ===================================================================== *)
(** * Python string operations used by the program *)
(* ===================================================================== *)

Module PyStr.

Definition code (c : ascii) : Z := Z.of_N (N_of_ascii c).

Definition in_range (lo hi : Z) (c : ascii) : bool :=
  (lo <=? code c) && (code c <=? hi).

(** [str.lower] and [str.upper] on ASCII text, character by character.
    On other text Python folds more letters and [str.upper] can change
    the length of a string; such names are outside the embedding, and
    no law special to these two maps is used where a statement speaks
    of a search term or a file name. *)
Definition lower_char (c : ascii) : ascii :=
  if in_range 65 90 c then ascii_of_N (N_of_ascii c + 32) else c.

Definition upper_char (c : ascii) : ascii :=
  if in_range 97 122 c then ascii_of_N (N_of_ascii c - 32) else c.

Fixpoint lower (s : string) : string :=
  match s with
  | EmptyString => EmptyString
  | String c r => String (lower_char c) (lower r)
  end.

Fixpoint upper (s : string) : string :=
  match s with
  | EmptyString => EmptyString
  | String c r => String (upper_char c) (upper r)
  end.

(** [s.startswith(p)] *)
Fixpoint startswith (s p : string) : bool :=
  match p, s with
  | EmptyString, _ => true
  | String _ _, EmptyString => false
  | String a p', String b s' => Ascii.eqb a b && startswith s' p'
  end.

(** [k in s] on strings: substring test. *)
Fixpoint contains (s k : string) : bool :=
  startswith s k ||
  match s with
  | EmptyString => false
  | String _ s' => contains s' k
  end.

(** [s.endswith(p)] *)
Fixpoint endswith (s p : string) : bool :=
  String.eqb s p ||
  match s with
  | EmptyString => false
  | String _ s' => endswith s' p
  end.

(** [any(k in s for k in ks)] *)
Definition contains_any (s : string) (ks : list string) : bool :=
  existsb (contains s) ks.

(** [any(c == d for d in cs)] on characters. *)
Definition char_in (c : ascii) (cs : list ascii) : bool :=
  existsb (Ascii.eqb c) cs.

(** [s.split(sep)[0]]: everything before the first separator. *)
Fixpoint split_head (sep : ascii) (s : string) : string :=
  match s with
  | EmptyString => EmptyString
  | String c r => if Ascii.eqb c sep then EmptyString
                  else String c (split_head sep r)
  end.

(** [str.isspace] on the ASCII range: TAB, LF, VT, FF, CR, FS, GS, RS,
    US and space. *)
Definition isspace (c : ascii) : bool :=
  in_range 9 13 c || in_range 28 32 c.

Fixpoint lstrip (s : string) : string :=
  match s with
  | EmptyString => EmptyString
  | String c r => if isspace c then lstrip r else s
  end.

Fixpoint rstrip (s : string) : string :=
  match s with
  | EmptyString => EmptyString
  | String c r =>
      match rstrip r with
      | EmptyString => if isspace c then EmptyString
                       else String c EmptyString
      | r' => String c r'
      end
  end.

(** [s.strip()] *)
Definition strip (s : string) : string := rstrip (lstrip s).

(** Last character, if any. *)
Fixpoint last_char (s : string) : option ascii :=
  match s with
  | EmptyString => None
  | String c EmptyString => Some c
  | String _ r => last_char r
  end.

(** Windows path separators. *)
Definition is_sep (c : ascii) : bool :=
  Ascii.eqb c "\"%char || Ascii.eqb c "/"%char.

(** [os.path.join(d, name)] for a relative [name] without drive: the
    separator is added unless [d] is empty or already ends in one. *)
Definition path_join (d name : string) : string :=
  match last_char d with
  | None => name
  | Some c => if is_sep c then d +:+ name else d +:+ "\" +:+ name
  end.

(** [os.path.basename(p)]: what follows the last separator. *)
Fixpoint basename (p : string) : string :=
  match p with
  | EmptyString => EmptyString
  | String c r =>
      if existsb is_sep (list_ascii_of_string r) then basename r
      else if is_sep c then r else p
  end.

End PyStr.

(* ===================================================================== *)
(** * Configuration constants *)
(* ===================================================================== *)

Definition PATH_MODEL_MATERIAL : string :=
  "\\Skdla-sa-nas01\skdla-sa\3Shape Design Output\Model Material".
Definition EXOCAD_SOURCE_PATH : string :=
  "\\Skdla-sa-nas01\skdla-sa\CAD-Data -- Exocad".
Definition INHOUSE_PRINTING_PATH : string :=
  "\\KDC-LABSERVER\CadCam\! INHOUSE PRINTING !".
Definition MODEL_BASE_PATH : string :=
  "\\KDC-LABSERVER\CadCam\! INHOUSE PRINTING !\.MODELS".
Definition TISSUE_BASE_PATH : string :=
  "\\KDC-LABSERVER\CadCam\! INHOUSE PRINTING !\TISSUE".

Definition EXOCAD_ALLOWED_KEYWORDS : list string :=
  ["modelbase"; "model"; "tissue"; "gingiva"].
Definition EXOCAD_TISSUE_KEYWORDS : list string :=
  ["modelgingiva"; "tissue"; "gingiva"].
Definition MODEL_DISPLAY_SIZE_KEYWORDS : list string :=
  ["model"; "antag"; "tooth"; "teeth"; "die"; "modelbase"].

(** The two copy-structure settings of the session state. *)
Definition DIRECT_MODE : string := "Directly into Base".
Definition SUBFOLDER_MODE : string := "Into a New Subfolder".

(* ===================================================================== *)
(** * [is_valid_foldername] *)
(* ===================================================================== *)

Module FolderName.
Import PyStr.

(** The character class of the pattern: the nine punctuation
    characters (034 is the double quote) and the range x00-x1F. *)
Definition special_chars : list ascii :=
  ["<"; ">"; ":"; "034"; "/"; "\"; "|"; "?"; "*"]%char.

Definition pattern_char (c : ascii) : bool :=
  char_in c special_chars || in_range 0 31 c.

(** [re.search(pattern, s)] for a one-character class. *)
Definition re_search (s : string) : bool :=
  existsb pattern_char (list_ascii_of_string s).

Definition reserved : list string :=
  ["CON"; "PRN"; "AUX"; "NUL";
   "COM1"; "COM2"; "COM3"; "COM4"; "COM5"; "COM6"; "COM7"; "COM8"; "COM9";
   "LPT1"; "LPT2"; "LPT3"; "LPT4"; "LPT5"; "LPT6"; "LPT7"; "LPT8"; "LPT9"].

Definition is_valid_foldername (foldername : string) : bool :=
  if String.eqb foldername EmptyString then false
  else if re_search foldername then false
  else if existsb (String.eqb (split_head "." (upper foldername))) reserved
       then false
  else if endswith foldername "." || endswith foldername " " then false
  else true.

(** The names the interface description says are rejected: empty, a
    control character (code x00 to x1F) or one of the nine special
    characters, a reserved device name before the first period
    (compared in upper case), a final period or space. *)
Definition rejected (name : string) : Prop :=
  name = EmptyString
  \/ (exists c, In c (list_ascii_of_string name)
                /\ (code c <= 31 \/ In c special_chars))
  \/ In (split_head "." (upper name)) reserved
  \/ endswith name "." = true
  \/ endswith name " " = true.

End FolderName.

(* ===================================================================== *)
(** * [format_size] *)
(* ===================================================================== *)

(** Exceptions that escape the modelled functions. *)
Inductive py_exn := IndexError | OverflowError.

Inductive result (A : Type) :=
| Ok (a : A)
| Raise (e : py_exn).
Arguments Ok {A} a.
Arguments Raise {A} e.

Module FormatSize.

(** [t[i]] on a tuple, negative indices counting from the end. *)
Definition tuple_get {A : Type} (t : list A) (i : Z) : option A :=
  let len := Z.of_nat (length t) in
  if (0 <=? i) && (i <? len) then t !! Z.to_nat i
  else if (- len <=? i) && (i <? 0) then t !! Z.to_nat (i + len)
  else None.

Definition size_name : list string := ["B"; "KB"; "MB"; "GB"; "TB"].

(** Nearest integer to [num / den] for [den > 0], ties to even: what
    [round] does on the exact value of a float. *)
Definition round_half_even (num den : Z) : Z :=
  let q := num / den in
  let r := num mod den in
  if 2 * r <? den then q
  else if den <? 2 * r then q + 1
  else if Z.even q then q else q + 1.

Definition digit (d : Z) : string :=
  String (ascii_of_N (48 + Z.to_N d)) EmptyString.

(** Decimal digits of a natural number, most significant first. *)
Fixpoint digits_fuel (fuel : nat) (n : Z) (acc : string) : string :=
  match fuel with
  | O => acc
  | S fuel' =>
      let acc' := digit (n mod 10) +:+ acc in
      if n <? 10 then acc' else digits_fuel fuel' (n / 10) acc'
  end.

Definition digits (n : Z) : string :=
  digits_fuel (S (Z.to_nat (Z.log2 n))) n EmptyString.

(** [repr] of the float equal to [h / 100], in positional notation
    (the one [repr] uses below 1e16): at least one fractional digit,
    no trailing zero beyond it. *)
Definition repr_hundredths (h : Z) : string :=
  let a := Z.abs h in
  let f := a mod 100 in
  (if h <? 0 then "-" else EmptyString) +:+ digits (a / 100) +:+ "." +:+
  (if f mod 10 =? 0 then digit (f / 10)
   else digit (f / 10) +:+ digit (f mod 10)).

(** [round(size_bytes / p, 2)] with [p = 1024 ** i], in hundredths.
    For [|size_bytes| < 2^53] the float quotient by a power of two is
    exact, so the rounding acts on the exact rational. *)
Definition rounded_hundredths (size_bytes i : Z) : Z :=
  if 0 <=? i then round_half_even (100 * size_bytes) (1024 ^ i)
  else 100 * size_bytes * 1024 ^ (- i).

(** The integers that convert to a float: those that round below
    [2^1024]. *)
Definition float_limit : Z := 2 ^ 1024 - 2 ^ 970.

Definition fits_float (n : Z) : bool := Z.abs n <? float_limit.

Section WithLog.
(** [int(math.floor(math.log(n, 1024)))] for [n > 0].  The quotient
    of two binary64 logarithms is left to the platform: the model is
    parametric in it. *)
Variable log_floor : Z -> Z.

(** The text is the one Python prints for [|size_bytes| < 2^53] and a
    unit index from 0 to 4; beyond, the model only tells a string from
    an exception. *)
Definition format_size (size_bytes : Z) : result string :=
  if size_bytes =? 0 then Ok "0 B"
  else
    let i := if 0 <? size_bytes then log_floor size_bytes else 0 in
    (* math.pow(1024, i) overflows from 2^1030 on *)
    if 103 <=? i then Raise OverflowError
    (* size_bytes / p converts size_bytes to a float *)
    else if negb (fits_float size_bytes) then Raise OverflowError
    else
      let s := rounded_hundredths size_bytes i in
      match tuple_get size_name i with
      | None => Raise IndexError
      | Some unit => Ok (repr_hundredths s +:+ " " +:+ unit)
      end.
End WithLog.

(** The mathematically exact unit index, [floor (log_1024 n)]. *)
Definition exact_log_floor (n : Z) : Z := Z.log2 n / 10.

End FormatSize.

(* ===================================================================== *)
(** * The file system as the analysis reads it *)
(* ===================================================================== *)

(** One step of [os.walk]: [(root, dirs, files)]. *)
Definition walk_triple : Type := string * list string * list string.

(** What the program reads.  [env_walk top] is [os.walk(top)] run to its
    end: with the default [onerror=None] a directory that cannot be
    listed contributes no triple and no exception, so the walk is a
    total function and the [except OSError] handlers around the walks
    are never entered.  [env_getsize] is [os.path.getsize], [None]
    standing for [OSError]. *)
Record source_env := {
  env_isdir : string -> bool;
  env_walk : string -> list walk_triple;
  env_getsize : string -> option Z
}.

(** [origin_label == "Exocad" and EXOCAD_SOURCE_PATH and
    folder_path.startswith(EXOCAD_SOURCE_PATH)] *)
Definition is_exocad_origin (origin_label folder_path : string) : bool :=
  String.eqb origin_label "Exocad"
  && negb (String.eqb EXOCAD_SOURCE_PATH EmptyString)
  && PyStr.startswith folder_path EXOCAD_SOURCE_PATH.

(** [is_tissue_file] as both engines compute it. *)
Definition is_tissue_name (is_exocad : bool) (file_lower : string) : bool :=
  if is_exocad && PyStr.contains_any file_lower EXOCAD_TISSUE_KEYWORDS
  then true
  else if negb is_exocad &&
          (PyStr.contains file_lower "tissue"
           || PyStr.contains file_lower "gingiva")
  then true
  else false.

(* ===================================================================== *)
(** * Analysis engine *)
(* ===================================================================== *)

Module Analysis.
Import PyStr.

(** The accumulators of the analysis loops. *)
Record analysis := {
  total_copy_size_bytes : Z;
  display_model_size_bytes : Z;
  non_stl_found : bool;
  tissue_files_present : bool;
  empty_folders_encountered : list string
}.

Definition initial : analysis :=
  {| total_copy_size_bytes := 0; display_model_size_bytes := 0;
     non_stl_found := false; tissue_files_present := false;
     empty_folders_encountered := [] |}.

Definition add_total (n : Z) (a : analysis) : analysis :=
  {| total_copy_size_bytes := total_copy_size_bytes a + n;
     display_model_size_bytes := display_model_size_bytes a;
     non_stl_found := non_stl_found a;
     tissue_files_present := tissue_files_present a;
     empty_folders_encountered := empty_folders_encountered a |}.

Definition add_display (n : Z) (a : analysis) : analysis :=
  {| total_copy_size_bytes := total_copy_size_bytes a;
     display_model_size_bytes := display_model_size_bytes a + n;
     non_stl_found := non_stl_found a;
     tissue_files_present := tissue_files_present a;
     empty_folders_encountered := empty_folders_encountered a |}.

Definition set_non_stl (a : analysis) : analysis :=
  {| total_copy_size_bytes := total_copy_size_bytes a;
     display_model_size_bytes := display_model_size_bytes a;
     non_stl_found := true;
     tissue_files_present := tissue_files_present a;
     empty_folders_encountered := empty_folders_encountered a |}.

Definition set_tissue (a : analysis) : analysis :=
  {| total_copy_size_bytes := total_copy_size_bytes a;
     display_model_size_bytes := display_model_size_bytes a;
     non_stl_found := non_stl_found a;
     tissue_files_present := true;
     empty_folders_encountered := empty_folders_encountered a |}.

Definition add_empty (p : string) (a : analysis) : analysis :=
  {| total_copy_size_bytes := total_copy_size_bytes a;
     display_model_size_bytes := display_model_size_bytes a;
     non_stl_found := non_stl_found a;
     tissue_files_present := tissue_files_present a;
     empty_folders_encountered := empty_folders_encountered a ++ [p] |}.

Section WithEnv.
Variable env : source_env.

(** Body of [for file in files] in [get_recursive_folder_details]. *)
Definition folder_file_body (is_exocad_origin : bool) (root : string)
    (a : analysis) (file : string) : analysis :=
  let file_path := path_join root file in
  let file_lower := lower file in
  match env_getsize env file_path with
  | None => a
  | Some current_file_size =>
      let is_stl := endswith file_lower ".stl" in
      if negb is_stl then set_non_stl a
      else
        let should_process_stl :=
          if is_exocad_origin
          then contains_any file_lower EXOCAD_ALLOWED_KEYWORDS
          else true in
        if should_process_stl then
          let a1 := add_total current_file_size a in
          if is_tissue_name is_exocad_origin file_lower
          then set_tissue a1
          else if contains_any file_lower MODEL_DISPLAY_SIZE_KEYWORDS
               then add_display current_file_size a1
               else a1
        else a
  end.

(** Body of [for root, dirs, files in os.walk(folder_path)]; the
    second component is [items_in_this_folder]. *)
Definition walk_body (is_exocad_origin : bool)
    (st : analysis * Z) (t : walk_triple) : analysis * Z :=
  let '(root, dirs, files) := t in
  let items := snd st + (Z.of_nat (length dirs) + Z.of_nat (length files)) in
  (foldl (folder_file_body is_exocad_origin root) (fst st) files, items).

(** Body of [for folder_path, origin_label in folder_paths_dict.items()]. *)
Definition folder_body (a : analysis) (item : string * string) : analysis :=
  let '(folder_path, origin_label) := item in
  let is_exo := is_exocad_origin origin_label folder_path in
  if negb (env_isdir env folder_path) then add_empty folder_path a
  else
    let st := foldl (walk_body is_exo) (a, 0) (env_walk env folder_path) in
    if (snd st =? 0) && env_isdir env folder_path
    then add_empty folder_path (fst st)
    else fst st.

(** The dictionary is given as its items in insertion order.  The
    result is the returned tuple, the five accumulators packed in a
    record; [list(set(...))] is [remove_dups] (its order is
    unspecified in Python). *)
Definition get_recursive_folder_details
    (folder_paths_dict : list (string * string)) : list string * analysis :=
  let a := foldl folder_body initial folder_paths_dict in
  (map fst folder_paths_dict,
   {| total_copy_size_bytes := total_copy_size_bytes a;
      display_model_size_bytes := display_model_size_bytes a;
      non_stl_found := non_stl_found a;
      tissue_files_present := tissue_files_present a;
      empty_folders_encountered :=
        remove_dups (empty_folders_encountered a) |}).

(** Body of [for file_path in file_paths] in [get_file_details]. *)
Definition file_body (a : analysis) (file_path : string) : analysis :=
  let file_lower := lower (basename file_path) in
  match env_getsize env file_path with
  | None => a
  | Some current_file_size =>
      let a1 := add_total current_file_size a in
      if negb (endswith file_lower ".stl") then set_non_stl a1
      else
        let a2 :=
          if contains_any file_lower MODEL_DISPLAY_SIZE_KEYWORDS
          then add_display current_file_size a1 else a1 in
        if contains file_lower "tissue" || contains file_lower "gingiva"
        then set_tissue a2 else a2
  end.

Definition get_file_details (file_paths : list string)
    : list string * analysis :=
  (file_paths, foldl file_body initial file_paths).

(** ** The specification's reading of "copyable"

    These follow the wording of the specification (the Path
    Classifier), not the loops above. *)

Definition isStlFile (name : string) : bool :=
  endswith (lower name) ".stl".

Definition isAllowedForOrigin (restricted : bool) (name : string) : bool :=
  if restricted
  then existsb (fun k => contains (lower name) k) EXOCAD_ALLOWED_KEYWORDS
  else true.

(** The files one walk step lists, each with the restriction of
    its folder's origin and its full path. *)
Definition step_files (restricted : bool) (t : walk_triple)
    : list (bool * string * string) :=
  map (fun file => (restricted, path_join t.1.1 file, file)) t.2.

(** Every file of a selected subtree. *)
Definition files_of_folder (item : string * string)
    : list (bool * string * string) :=
  if env_isdir env item.1 then
    concat (map (step_files (is_exocad_origin item.2 item.1))
                (env_walk env item.1))
  else [].

Definition files_of_selection (sel : list (string * string))
    : list (bool * string * string) :=
  concat (map files_of_folder sel).

Definition size_of (path : string) : Z :=
  default 0 (env_getsize env path).

Definition sum_sizes (l : list (bool * string * string)) : Z :=
  foldr (fun f acc => size_of f.1.2 + acc) 0
    (filter (fun f => isStlFile f.2 && isAllowedForOrigin f.1.1 f.2 = true) l).

(** What one file adds to that sum. *)
Definition share (f : bool * string * string) : Z :=
  if isStlFile f.2 && isAllowedForOrigin f.1.1 f.2
  then size_of f.1.2 else 0.

(** A file whose size can be read and whose name does not end in
    [.stl]. *)
Definition stat_ok (path : string) : bool :=
  match env_getsize env path with Some _ => true | None => false end.

Definition visible_non_stl (f : bool * string * string) : bool :=
  stat_ok f.1.2 && negb (isStlFile f.2).

(** A walk that lists neither a directory nor a file. *)
Definition lists_nothing (ts : list walk_triple) : Prop :=
  forall t, In t ts -> t.1.2 = [] /\ t.2 = [].

End WithEnv.
End Analysis.

(* ===================================================================== *)
(** * Copy engine *)
(* ===================================================================== *)

Module Copy.
Import PyStr FolderName.

(** File-system calls that can change the destination. *)
Inductive fs_op :=
| OpMakedirs (target_dir : string)
| OpCopy2 (src dst : string).

(** The destination side of the file system.  [makedirs] is
    [os.makedirs(_, exist_ok=True)] and [copy2] is [shutil.copy2]; each
    returns the state it leaves behind and whether it completed
    ([false]: it raised, possibly after a partial effect). *)
Class CopyTarget (fs : Type) := {
  isdir : fs -> string -> bool;
  makedirs : string -> fs -> fs * bool;
  copy2 : string -> string -> fs -> fs * bool
}.

(** The session-state entries [copy_items] reads, after defaulting. *)
Record settings := {
  model_copy_mode : string;
  model_new_folder_name : string;
  tissue_copy_mode : string;
  tissue_new_folder_name : string;
  tissue_files_found_in_selection : bool
}.

(** [items_to_process] together with [search_mode]: a dictionary
    [{folder_path: origin_label}] for ['folder'], a list of paths for
    ['file']. *)
Inductive items :=
| FolderItems (source_folders_dict : list (string * string))
| FileItems (source_file_paths : list string).

(** One pass through the per-file [try] block. *)
Record attempt := {
  at_src : string;
  at_dst : string;
  at_ok : bool
}.

(** One planned copy: the directory to create, the source and the
    destination path. *)
Record job := {
  job_dir : string;
  job_src : string;
  job_dst : string
}.

Record progress (fs : Type) := {
  p_fs : fs;
  p_trace : list fs_op;
  p_attempts : list attempt;
  current_copied_count : Z;
  error_count : Z;
  final_destination_paths_used : gset string
}.
Arguments p_fs {fs} _.
Arguments p_trace {fs} _.
Arguments p_attempts {fs} _.
Arguments current_copied_count {fs} _.
Arguments error_count {fs} _.
Arguments final_destination_paths_used {fs} _.

Inductive config_error :=
| ModelBaseInvalid
| TissueBaseInvalid
| ModelSubfolderInvalid
| TissueSubfolderInvalid
| InhouseBaseInvalid
| SubfolderInvalid.

(** The single final message. *)
Inductive final_status :=
| CopiedOk (copied : Z)
| CopiedWithErrors (copied errors : Z)
| CopyFailed (errors : Z)
| NothingTransferred
| NoStatus.

(** How a call of [copy_items] ends. *)
Inductive outcome :=
| NothingSelected
| Rejected (e : config_error)
| NoStlFound
| NoFilesFound
| DestinationNotCreated
| Completed (total_stl_to_copy : Z) (status : final_status)
            (opened : list string).

Definition final_message (copied errors total : Z) : final_status :=
  if 0 <? copied then
    if 0 <? errors then CopiedWithErrors copied errors else CopiedOk copied
  else if 0 <? errors then CopyFailed errors
  else if 0 <? total then NothingTransferred
  else NoStatus.

(** Folders handed to [open_folder_in_explorer]. *)
Definition opened_folders (open_destination : bool) (copied errors : Z)
    (used : gset string) : list string :=
  if open_destination && (0 <? copied) && (errors =? 0)
  then elements used else [].

Section WithTarget.
Context {fs : Type} {target : CopyTarget fs}.
(** [env] is the source tree as the pre-scan walks it, [env_copy] the
    tree as the copy pass walks it afterwards: each pass calls
    [os.walk] anew. *)
Variable env env_copy : source_env.
Variable cfg : settings.

Definition start (s : fs) : progress fs :=
  {| p_fs := s; p_trace := []; p_attempts := [];
     current_copied_count := 0; error_count := 0;
     final_destination_paths_used := ∅ |}.

(** Pre-scan: body of [for file in files]. *)
Definition scan_file_body (is_exocad_origin_scan : bool)
    (total_stl_to_copy : Z) (file : string) : Z :=
  let file_lower := lower file in
  if endswith file_lower ".stl" then
    if is_exocad_origin_scan then
      if contains_any file_lower EXOCAD_ALLOWED_KEYWORDS
      then total_stl_to_copy + 1 else total_stl_to_copy
    else total_stl_to_copy + 1
  else total_stl_to_copy.

Definition scan_folder_body (total_stl_to_copy : Z)
    (item : string * string) : Z :=
  let '(folder_path, origin_label) := item in
  let is_exo := is_exocad_origin origin_label folder_path in
  foldl (fun n (t : walk_triple) => foldl (scan_file_body is_exo) n t.2)
        total_stl_to_copy (env_walk env folder_path).

(** The [try]/[except] block of the folder-mode copy pass. *)
Definition try_copy_into (target_dir src dst : string)
    (p : progress fs) : progress fs :=
  let m := makedirs target_dir (p_fs p) in
  if m.2 then
    let c := copy2 src dst m.1 in
    {| p_fs := c.1;
       p_trace := p_trace p ++ [OpMakedirs target_dir; OpCopy2 src dst];
       p_attempts := p_attempts p ++ [Build_attempt src dst c.2];
       current_copied_count :=
         if c.2 then current_copied_count p + 1 else current_copied_count p;
       error_count := if c.2 then error_count p else error_count p + 1;
       final_destination_paths_used :=
         {[target_dir]} ∪ final_destination_paths_used p |}
  else
    {| p_fs := m.1;
       p_trace := p_trace p ++ [OpMakedirs target_dir];
       p_attempts := p_attempts p ++ [Build_attempt src dst false];
       current_copied_count := current_copied_count p;
       error_count := error_count p + 1;
       final_destination_paths_used := final_destination_paths_used p |}.

(** Where a file of the folder-mode copy pass goes. *)
Definition target_dir_for (is_tissue_file : bool) : string :=
  let current_base_path :=
    if is_tissue_file then TISSUE_BASE_PATH else MODEL_BASE_PATH in
  let current_copy_mode :=
    if is_tissue_file then tissue_copy_mode cfg else model_copy_mode cfg in
  let current_subfolder_name :=
    if is_tissue_file then strip (tissue_new_folder_name cfg)
    else strip (model_new_folder_name cfg) in
  if String.eqb current_copy_mode SUBFOLDER_MODE
  then path_join current_base_path current_subfolder_name
  else current_base_path.

(** Copy pass: body of [for file in files]. *)
Definition copy_file_body (is_exocad_origin : bool) (root : string)
    (p : progress fs) (file : string) : progress fs :=
  let file_lower := lower file in
  if endswith file_lower ".stl" then
    let should_copy_this_stl :=
      negb (is_exocad_origin
            && negb (contains_any file_lower EXOCAD_ALLOWED_KEYWORDS)) in
    if negb should_copy_this_stl then p
    else
      let source_file_path := path_join root file in
      let is_tissue_file := is_tissue_name is_exocad_origin file_lower in
      let target_dir := target_dir_for is_tissue_file in
      let destination_file_path := path_join target_dir file in
      try_copy_into target_dir source_file_path destination_file_path p
  else p.

Definition copy_folder_body (p : progress fs) (item : string * string)
    : progress fs :=
  let '(folder_path, origin_label) := item in
  let is_exo := is_exocad_origin origin_label folder_path in
  foldl (fun q (t : walk_triple) => foldl (copy_file_body is_exo t.1.1) q t.2)
        p (env_walk env_copy folder_path).

(** File mode: body of [for i, source_file_path in enumerate(...)]. *)
Definition copy_listed_body (target_dir : string) (p : progress fs)
    (source_file_path : string) : progress fs :=
  let file := basename source_file_path in
  let destination_file_path := path_join target_dir file in
  let c := copy2 source_file_path destination_file_path (p_fs p) in
  {| p_fs := c.1;
     p_trace := p_trace p ++ [OpCopy2 source_file_path destination_file_path];
     p_attempts := p_attempts p
                   ++ [Build_attempt source_file_path destination_file_path c.2];
     current_copied_count :=
       if c.2 then current_copied_count p + 1 else current_copied_count p;
     error_count := if c.2 then error_count p else error_count p + 1;
     final_destination_paths_used := final_destination_paths_used p |}.

Definition finish (open_destination : bool) (total : Z) (p : progress fs)
    : outcome * progress fs :=
  (Completed total
     (final_message (current_copied_count p) (error_count p) total)
     (opened_folders open_destination (current_copied_count p)
        (error_count p) (final_destination_paths_used p)),
   p).

Definition copy_folders (source_folders_dict : list (string * string))
    (open_destination : bool) (s : fs) : outcome * progress fs :=
  let model_subfolder_name := strip (model_new_folder_name cfg) in
  let tissue_subfolder_name := strip (tissue_new_folder_name cfg) in
  let tissue_files_found_in_analysis := tissue_files_found_in_selection cfg in
  let model_base_valid := isdir s MODEL_BASE_PATH in
  let tissue_base_valid :=
    if tissue_files_found_in_analysis then isdir s TISSUE_BASE_PATH
    else true in
  if negb model_base_valid then (Rejected ModelBaseInvalid, start s)
  else if negb tissue_base_valid && tissue_files_found_in_analysis
  then (Rejected TissueBaseInvalid, start s)
  else if String.eqb (model_copy_mode cfg) SUBFOLDER_MODE
          && negb (is_valid_foldername model_subfolder_name)
  then (Rejected ModelSubfolderInvalid, start s)
  else if tissue_files_found_in_analysis
          && String.eqb (tissue_copy_mode cfg) SUBFOLDER_MODE
          && negb (is_valid_foldername tissue_subfolder_name)
  then (Rejected TissueSubfolderInvalid, start s)
  else
    let total_stl_to_copy := foldl scan_folder_body 0 source_folders_dict in
    if total_stl_to_copy =? 0 then (NoStlFound, start s)
    else
      finish open_destination total_stl_to_copy
        (foldl copy_folder_body (start s) source_folders_dict).

Definition copy_files (source_file_paths : list string)
    (open_destination : bool) (s : fs) : outcome * progress fs :=
  let copy_mode := model_copy_mode cfg in
  let subfolder_name := strip (model_new_folder_name cfg) in
  let inhouse_base_valid :=
    if String.eqb INHOUSE_PRINTING_PATH EmptyString then false
    else isdir s INHOUSE_PRINTING_PATH in
  if negb inhouse_base_valid then (Rejected InhouseBaseInvalid, start s)
  else if String.eqb copy_mode SUBFOLDER_MODE
          && negb (is_valid_foldername subfolder_name)
  then (Rejected SubfolderInvalid, start s)
  else
    let total_stl_to_copy := Z.of_nat (length source_file_paths) in
    if total_stl_to_copy =? 0 then (NoFilesFound, start s)
    else
      let target_dir :=
        if String.eqb copy_mode SUBFOLDER_MODE
        then path_join INHOUSE_PRINTING_PATH subfolder_name
        else INHOUSE_PRINTING_PATH in
      let m := makedirs target_dir s in
      let p0 :=
        {| p_fs := m.1; p_trace := [OpMakedirs target_dir];
           p_attempts := []; current_copied_count := 0; error_count := 0;
           final_destination_paths_used :=
             if m.2 then {[target_dir]} else ∅ |} in
      if negb m.2 then (DestinationNotCreated, p0)
      else
        finish open_destination total_stl_to_copy
          (foldl (copy_listed_body target_dir) p0 source_file_paths).

(** [copy_items(items_to_process, search_mode, open_destination)]
    from the destination state [s]. *)
Definition copy_items (items_to_process : items)
    (open_destination : bool) (s : fs) : outcome * progress fs :=
  match items_to_process with
  | FolderItems [] | FileItems [] => (NothingSelected, start s)
  | FolderItems source_folders_dict =>
      copy_folders source_folders_dict open_destination s
  | FileItems source_file_paths =>
      copy_files source_file_paths open_destination s
  end.

(** The copies the folder-mode pass is to attempt, from the walks
    alone: one job for every [.stl] file that passes the origin
    filter, in walk order. *)
Definition planned_of_file (is_exo : bool) (root file : string)
    : list job :=
  let file_lower := lower file in
  if endswith file_lower ".stl"
     && negb (is_exo && negb (contains_any file_lower EXOCAD_ALLOWED_KEYWORDS))
  then
    let target_dir := target_dir_for (is_tissue_name is_exo file_lower) in
    [{| job_dir := target_dir; job_src := path_join root file;
        job_dst := path_join target_dir file |}]
  else [].

Definition planned_of_step (is_exo : bool) (t : walk_triple) : list job :=
  concat (map (planned_of_file is_exo t.1.1) t.2).

Definition planned_of_folder (item : string * string) : list job :=
  concat (map (planned_of_step (is_exocad_origin item.2 item.1))
              (env_walk env item.1)).

Definition planned_folder_copies (d : list (string * string)) : list job :=
  concat (map planned_of_folder d).

(** The copies of the file-mode loop. *)
Definition file_mode_target_dir : string :=
  if String.eqb (model_copy_mode cfg) SUBFOLDER_MODE
  then path_join INHOUSE_PRINTING_PATH (strip (model_new_folder_name cfg))
  else INHOUSE_PRINTING_PATH.

Definition planned_of_listed (target_dir source_file_path : string) : job :=
  {| job_dir := target_dir; job_src := source_file_path;
     job_dst := path_join target_dir (basename source_file_path) |}.

Definition planned_copies (its : items) : list job :=
  match its with
  | FolderItems d => planned_folder_copies d
  | FileItems l => map (planned_of_listed file_mode_target_dir) l
  end.

(** The per-file [try] block on a planned copy. *)
Definition attempt_job (p : progress fs) (j : job) : progress fs :=
  try_copy_into (job_dir j) (job_src j) (job_dst j) p.

(** The configuration errors [copy_items] tests for, on a non-empty
    source set. *)
Definition detects_config_error (its : items) (s : fs) : Prop :=
  match its with
  | FolderItems d =>
      d <> []
      /\ (isdir s MODEL_BASE_PATH = false
          \/ (tissue_files_found_in_selection cfg = true
              /\ isdir s TISSUE_BASE_PATH = false)
          \/ (model_copy_mode cfg = SUBFOLDER_MODE
              /\ is_valid_foldername (strip (model_new_folder_name cfg))
                 = false)
          \/ (tissue_files_found_in_selection cfg = true
              /\ tissue_copy_mode cfg = SUBFOLDER_MODE
              /\ is_valid_foldername (strip (tissue_new_folder_name cfg))
                 = false))
  | FileItems l =>
      l <> []
      /\ (isdir s INHOUSE_PRINTING_PATH = false
          \/ (model_copy_mode cfg = SUBFOLDER_MODE
              /\ is_valid_foldername (strip (model_new_folder_name cfg))
                 = false))
  end.

(** ** One file's copy, as the specification reads it

    These follow the wording of the specification (a per-file copy
    that succeeds or fails, the next file being tried whatever
    happened), not the loops above.  In folder mode the copy of a file
    is [os.makedirs] of its target directory followed by
    [shutil.copy2]; in file mode, where the directory is made once
    before the loop, it is [shutil.copy2] alone.  The copy fails when
    a call raises. *)
Definition copy_one (with_makedirs : bool) (j : job) (s : fs) : fs * bool :=
  if with_makedirs then
    let m := makedirs (job_dir j) s in
    if m.2 then copy2 (job_src j) (job_dst j) m.1 else (m.1, false)
  else copy2 (job_src j) (job_dst j) s.

(** Every copy in turn, each on the state the one before left: the
    final state and, copy by copy, whether it succeeded. *)
Fixpoint copy_each (with_makedirs : bool) (jobs : list job) (s : fs)
    : fs * list bool :=
  match jobs with
  | [] => (s, [])
  | j :: rest =>
      let r := copy_one with_makedirs j s in
      let r' := copy_each with_makedirs rest r.1 in
      (r'.1, r.2 :: r'.2)
  end.

End WithTarget.

(** The copies of a run that reaches its copy loop, from the state
    [copy_items] is called in; [env] is the tree as the copy pass walks
    it. *)
Definition copies_of_run {fs : Type} {target : CopyTarget fs}
    (env : source_env) (cfg : settings) (its : items) (s : fs)
    : fs * list bool :=
  match its with
  | FolderItems _ => copy_each true (planned_copies env cfg its) s
  | FileItems _ =>
      copy_each false (planned_copies env cfg its)
                (makedirs (file_mode_target_dir cfg) s).1
  end.

(** Source and destination of an attempt, of a job. *)
Definition attempt_key (a : attempt) : string * string :=
  (at_src a, at_dst a).

Definition job_key (j : job) : string * string := (job_src j, job_dst j).

Definition failed (a : attempt) : bool := negb (at_ok a).

Definition count_failed (l : list attempt) : Z :=
  Z.of_nat (length (List.filter failed l)).

Definition count_ok (l : list attempt) : Z :=
  Z.of_nat (length (List.filter at_ok l)).

(** The counters agree with the record of attempts. *)
Definition counted {fs : Type} (p : progress fs) : Prop :=
  error_count p = count_failed (p_attempts p)
  /\ current_copied_count p = count_ok (p_attempts p).


End Copy.

(* ===================================================================== *)
(** * The restricted origin, as the specification reads it *)
(* ===================================================================== *)

Module OriginRules.
Import PyStr Copy.

(** These follow the wording of the specification (a folder is of the
    restricted origin when its label is Exocad and its path starts
    with the Exocad source path; the allow-list and the tissue keywords
    of that origin; the generic rules otherwise), not the loops of the
    two engines. *)
Definition restricted_origin (origin_label folder_path : string) : bool :=
  String.eqb origin_label "Exocad"
  && startswith folder_path EXOCAD_SOURCE_PATH.

Definition copyable_under (restricted : bool) (file : string) : bool :=
  endswith (lower file) ".stl"
  && (if restricted
      then contains_any (lower file) EXOCAD_ALLOWED_KEYWORDS
      else true).

Definition tissue_under (restricted : bool) (file : string) : bool :=
  if restricted
  then contains_any (lower file) EXOCAD_TISSUE_KEYWORDS
  else contains (lower file) "tissue" || contains (lower file) "gingiva".

(** The files a walk lists, each with the directory that holds it. *)
Definition walk_files (ts : list walk_triple) : list (string * string) :=
  concat (map (fun t : walk_triple => map (fun file => (t.1.1, file)) t.2) ts).

Definition copyable_files (restricted : bool) (ts : list walk_triple)
    : list (string * string) :=
  List.filter (fun rf => copyable_under restricted rf.2) (walk_files ts).

(** The copy of one such file: into the tissue or the model target
    directory, under its own name. *)
Definition job_under (cfg : settings) (restricted : bool)
    (rf : string * string) : job :=
  let target_dir := target_dir_for cfg (tissue_under restricted rf.2) in
  {| job_dir := target_dir;
     job_src := path_join rf.1 rf.2;
     job_dst := path_join target_dir rf.2 |}.

End OriginRules.

(* ===================================================================== *)
(** * A concrete destination: directories and named files *)
(* ===================================================================== *)

Module Store.
Import Copy.

(** A file at the destination: its content and whether it is
    read-only.  [shutil.copy2] copies both. *)
Definition file_data : Type := string * bool.

(** Destination state: the directories that exist and the files. *)
Record disk := {
  dirs : gset string;
  files : gmap string file_data
}.

(** What does not change while copying: the source files ([None]: the
    file cannot be read), which destination paths refuse directory
    creation or writing whatever they hold, and which pairs of
    different paths name one file. *)
Record world := {
  readable : string -> option file_data;
  mkdir_denied : string -> bool;
  write_denied : string -> bool;
  same_file : string -> string -> bool
}.

Definition disk_isdir (d : disk) (p : string) : bool :=
  bool_decide (p ∈ dirs d).

Definition disk_makedirs (w : world) (p : string) (d : disk) : disk * bool :=
  if mkdir_denied w p then (d, false)
  else ({| dirs := {[p]} ∪ dirs d; files := files d |}, true).

(** What a path holds is a read-only file. *)
Definition read_only (o : option file_data) : bool :=
  match o with
  | Some (_, true) => true
  | _ => false
  end.

Definition locked (d : disk) (p : string) : bool := read_only (files d !! p).

(** [shutil.copy2(src, dst)] for a [dst] that names no directory.  It
    raises [SameFileError] when both paths name one file; it opens the
    source, then the destination for writing, which fails on a
    read-only file; a copy that succeeds leaves the content and the
    mode bits of the source under the destination name, replacing what
    was there. *)
Definition disk_copy2 (w : world) (src dst : string) (d : disk) : disk * bool :=
  if String.eqb src dst || same_file w src dst then (d, false)
  else
    match readable w src with
    | None => (d, false)
    | Some f =>
        if write_denied w dst || locked d dst then (d, false)
        else ({| dirs := dirs d; files := <[dst := f]> (files d) |}, true)
    end.

Definition disk_target (w : world) : CopyTarget disk := {|
  isdir := disk_isdir;
  makedirs := disk_makedirs w;
  copy2 := disk_copy2 w
|}.

(** Number of files at the destination. *)
Definition file_count (d : disk) : nat := size (files d).

(** The destination after one call of [copy_items]. *)
Definition run (w : world) (env env_copy : source_env) (cfg : settings)
    (its : items) (d : disk) : disk :=
  p_fs (copy_items (target := disk_target w) env env_copy cfg its false d).2.

(** Whether a call reaches its copy loop. *)
Definition reaches_copy_loop (w : world) (env env_copy : source_env)
    (cfg : settings) (its : items) (d : disk) : bool :=
  match (copy_items (target := disk_target w) env env_copy cfg its false d).1
  with
  | Completed _ _ _ => true
  | _ => false
  end.

(** ** Copying twice, as the specification reads it

    These follow the wording of the specification (which copies can
    succeed, which file a destination path ends up holding), not the
    copy loop. *)

(** A planned copy that succeeds wherever its destination path holds
    no read-only file. *)
Definition can_copy (w : world) (j : job) : bool :=
  negb (mkdir_denied w (job_dir j))
  && negb (String.eqb (job_src j) (job_dst j)
           || same_file w (job_src j) (job_dst j))
  && negb (write_denied w (job_dst j))
  && match readable w (job_src j) with Some _ => true | None => false end.

(** The source files that arrive at a destination path, in the order of
    the copies. *)
Definition arrival (w : world) (p : string) (j : job) : list file_data :=
  if can_copy w j && String.eqb (job_dst j) p
  then match readable w (job_src j) with Some f => [f] | None => [] end
  else [].

Definition arrivals (w : world) (p : string) (jobs : list job)
    : list file_data :=
  concat (map (arrival w p) jobs).

(** One arrival at a path: it replaces what is there, unless that is
    read-only. *)
Definition settle (o : option file_data) (f : file_data) : option file_data :=
  if read_only o then o else Some f.

(** The destination paths of the copies that can succeed, each once. *)
Definition reached_paths (w : world) (jobs : list job) : list string :=
  remove_dups (map job_dst (List.filter (can_copy w) jobs)).

(** The directories the copies make. *)
Definition made_dirs (w : world) (jobs : list job) : gset string :=
  list_to_set
    (map job_dir (List.filter (fun j => negb (mkdir_denied w (job_dir j))) jobs)).

End Store.

(* ===================================================================== *)
(** * Sample file systems *)
(* ===================================================================== *)

Module Samples.
Import PyStr Analysis Copy Store.

(** A case folder under the Exocad root: a note, two models and, in a
    subfolder, a gingiva mask. *)
Definition exocad_case : string :=
  "\\Skdla-sa-nas01\skdla-sa\CAD-Data -- Exocad\2025-12345".

Definition exocad_env : source_env := {|
  env_isdir := fun p => String.eqb p exocad_case;
  env_walk := fun p =>
    if String.eqb p exocad_case then
      [(exocad_case, ["scans"],
        ["notes.txt"; "randomname.stl"; "model_final.stl"]);
       (path_join exocad_case "scans", [], ["Gingiva_Mask.STL"])]
    else [];
  env_getsize := fun p =>
    if endswith p "notes.txt" then Some 120
    else if endswith p "randomname.stl" then Some 700
    else if endswith p "model_final.stl" then Some 512000
    else if endswith p "Gingiva_Mask.STL" then Some 204800
    else None
|}.

(** A folder holding one note whose size cannot be read. *)
Definition locked_env : source_env := {|
  env_isdir := fun p => String.eqb p "D:\cases\A";
  env_walk := fun p =>
    if String.eqb p "D:\cases\A"
    then [("D:\cases\A", [], ["notes.txt"])] else [];
  env_getsize := fun _ => None
|}.

(** A print-queue file whose name has a display keyword and a tissue
    keyword. *)
Definition queue_file : string :=
  "\\KDC-LABSERVER\CadCam\! INHOUSE PRINTING !\old\model_tissue.stl".

Definition queue_env : source_env := {|
  env_isdir := fun _ => false;
  env_walk := fun _ => [];
  env_getsize := fun p => if String.eqb p queue_file then Some 10 else None
|}.

(** A folder with two files of the same name, one in a subfolder. *)
Definition twin_case : string :=
  "\\Skdla-sa-nas01\skdla-sa\3Shape Design Output\Model Material\2025-777".

Definition twin_env : source_env := {|
  env_isdir := fun p => String.eqb p twin_case;
  env_walk := fun p =>
    if String.eqb p twin_case then
      [(twin_case, ["old"], ["model.stl"]);
       (path_join twin_case "old", [], ["model.stl"])]
    else [];
  env_getsize := fun _ => Some 1000
|}.

Definition direct_cfg : settings := {|
  model_copy_mode := DIRECT_MODE;
  model_new_folder_name := EmptyString;
  tissue_copy_mode := DIRECT_MODE;
  tissue_new_folder_name := EmptyString;
  tissue_files_found_in_selection := false
|}.

Definition bad_subfolder_cfg : settings := {|
  model_copy_mode := SUBFOLDER_MODE;
  model_new_folder_name := " a/b ";
  tissue_copy_mode := DIRECT_MODE;
  tissue_new_folder_name := EmptyString;
  tissue_files_found_in_selection := false
|}.

(** Every source is readable (its content is its path) and nothing is
    refused. *)
Definition open_world : world := {|
  readable := fun p => Some (p, false);
  mkdir_denied := fun _ => false;
  write_denied := fun _ => false;
  same_file := fun _ _ => false
|}.

(** As [open_world], but files named [model_final.stl] cannot be read. *)
Definition flaky_world : world := {|
  readable := fun p =>
    if endswith p "model_final.stl" then None else Some (p, false);
  mkdir_denied := fun _ => false;
  write_denied := fun _ => false;
  same_file := fun _ _ => false
|}.

(** As [open_world], but the source files are read-only. *)
Definition archive_world : world := {|
  readable := fun p => Some (p, true);
  mkdir_denied := fun _ => false;
  write_denied := fun _ => false;
  same_file := fun _ _ => false
|}.

(** A destination with the two base directories and no file. *)
Definition exocad_selection : list (string * string) :=
  [(exocad_case, "Exocad")].

Definition empty_disk : disk := {|
  dirs := {[MODEL_BASE_PATH; TISSUE_BASE_PATH; INHOUSE_PRINTING_PATH]};
  files := ∅
|}.

End Samples.

(* ===================================================================== *)
(** * Discovery engine *)
(* ===================================================================== *)

Module Discovery.
Import PyStr.

(** A [DirEntry] of [os.scandir]: its name and what [entry.is_dir()]
    gives ([None]: it raises [OSError]).  Its [path] is
    [os.path.join] of the scanned directory and the name. *)
Record dir_entry := {
  entry_name : string;
  entry_is_dir : option bool
}.

(** [os.scandir(root_dir)] iterated to its end: the entries it yields
    and whether an [OSError] (at opening or between two entries) cuts
    the iteration short. *)
Record listing := {
  listed : list dir_entry;
  listing_raises : bool
}.

Record scan_env := {
  scan_isdir : string -> bool;
  scan_listing : string -> listing
}.

(** Body of [for entry in it]. *)
Definition scan_entry_body (root_dir search_term_lower : string)
    (found_folders : list (string * string)) (entry : dir_entry)
    : list (string * string) :=
  if contains (lower (entry_name entry)) search_term_lower then
    match entry_is_dir entry with
    | Some true =>
        found_folders ++ [(entry_name entry, path_join root_dir (entry_name entry))]
    | Some false => found_folders
    | None => found_folders
    end
  else found_folders.

(** The handler of the outer [try] returns the empty list, not the
    folders found so far. *)
Definition search_top_level_folders (env : scan_env)
    (root_dir search_term : string) : list (string * string) :=
  let search_term_lower := lower search_term in
  if negb (scan_isdir env root_dir) then []
  else
    let it := scan_listing env root_dir in
    if listing_raises it then []
    else foldl (scan_entry_body root_dir search_term_lower) [] (listed it).

(** Body of [for file in files] in [search_files_recursively]. *)
Definition search_file_body (search_terms_lower : list string) (root : string)
    (found_files : list string) (file : string) : list string :=
  let file_lower := lower file in
  if endswith file_lower ".stl" then
    if contains_any file_lower search_terms_lower
    then found_files ++ [path_join root file]
    else found_files
  else found_files.

(** The set comprehension of lowered terms is kept as a list: [any]
    does not depend on order or repetition. *)
Definition search_files_recursively (env : source_env)
    (root_dir : string) (search_terms : list string) : list string :=
  if match search_terms with [] => true | _ :: _ => false end
     || negb (env_isdir env root_dir)
  then []
  else
    let search_terms_lower := map lower search_terms in
    foldl (fun found (t : walk_triple) =>
             foldl (search_file_body search_terms_lower t.1.1) found t.2)
          [] (env_walk env root_dir).

(** [PREDEFINED_PATHS], in the order of the dictionary literal. *)
Definition PREDEFINED_PATHS : list (string * string) :=
  [("Model Material", PATH_MODEL_MATERIAL);
   ("Exocad", EXOCAD_SOURCE_PATH);
   ("InHouse Printing", INHOUSE_PRINTING_PATH)].

(** [next((name for name, path in PREDEFINED_PATHS.items()
          if path == root_dir), "Unknown")] *)
Definition origin_label_of (root_dir : string) : string :=
  match List.find (fun np : string * string => String.eqb np.2 root_dir)
                  PREDEFINED_PATHS with
  | Some np => np.1
  | None => "Unknown"
  end.

(** The folder-mode search: [all_found_folders_dict], from folder path
    to [(folder_name, origin_label)]; a path already present keeps its
    entry. *)
Definition add_found (origin_label : string)
    (all_found : gmap string (string * string)) (f : string * string)
    : gmap string (string * string) :=
  match all_found !! f.2 with
  | Some _ => all_found
  | None => <[f.2 := (f.1, origin_label)]> all_found
  end.

Definition find_in_root (env : scan_env) (search_terms : list string)
    (all_found : gmap string (string * string)) (root_dir : string)
    : gmap string (string * string) :=
  let origin_label := origin_label_of root_dir in
  foldl (fun acc search_term =>
           foldl (add_found origin_label) acc
                 (search_top_level_folders env root_dir search_term))
        all_found search_terms.

Definition find_folders (env : scan_env)
    (selected_search_paths search_terms : list string)
    : gmap string (string * string) :=
  foldl (find_in_root env search_terms) ∅ selected_search_paths.

(** Where an entry of the dictionary of found folders comes from. *)
Definition found_by (env : scan_env)
    (selected_search_paths search_terms : list string)
    (folder_path folder_name origin_label : string) : Prop :=
  exists root_dir search_term,
    In root_dir selected_search_paths
    /\ In search_term search_terms
    /\ origin_label = origin_label_of root_dir
    /\ In (folder_name, folder_path)
          (search_top_level_folders env root_dir search_term).

(** A name as the file system lists it: without a path separator. *)
Definition plain_name (name : string) : Prop :=
  existsb is_sep (list_ascii_of_string name) = false.

End Discovery.

(* ===================================================================== *)
(** * Readings of the analysis result *)
(* ===================================================================== *)

Module Readings.
Import PyStr Analysis Copy.

(** A file of the selection that the analysis counts as tissue: its
    size can be read, it is an allowed [.stl] and its lowered name has
    a tissue keyword of its origin. *)
Definition visible_tissue (env : source_env) (f : bool * string * string)
    : bool :=
  stat_ok env f.1.2 && isStlFile f.2 && isAllowedForOrigin f.1.1 f.2
  && is_tissue_name f.1.1 (lower f.2).

(** The sizes of the sources of a list of jobs, added up. *)
Definition planned_size (env : source_env) (jobs : list job) : Z :=
  foldr (fun j acc => size_of env (job_src j) + acc) 0 jobs.

(** A file-system call that belongs to one of the jobs. *)
Definition op_planned (jobs : list job) (op : fs_op) : Prop :=
  match op with
  | OpMakedirs target_dir => exists j, In j jobs /\ job_dir j = target_dir
  | OpCopy2 src dst => exists j, In j jobs /\ job_src j = src /\ job_dst j = dst
  end.

(** How far a pass has come: the directories used so far are those of
    the jobs attempted so far, all of them while no error occurred. *)
Definition used_tracks {fs : Type} (p : progress fs) (jobs : list job) : Prop :=
  0 <= error_count p
  /\ (forall dir, dir ∈ final_destination_paths_used p ->
                  exists j, In j jobs /\ job_dir j = dir)
  /\ (error_count p = 0 ->
      forall j, In j jobs -> job_dir j ∈ final_destination_paths_used p).

Definition trace_tracks {fs : Type} (p : progress fs) (jobs : list job) : Prop :=
  forall op, In op (p_trace p) -> op_planned jobs op.

Definition tracks {fs : Type} (p : progress fs) (jobs : list job) : Prop :=
  used_tracks p jobs /\ trace_tracks p jobs.

(** The final message by cases of the two counters of a completed run. *)
Definition status_of_counts (copied errors : Z) : final_status :=
  if errors =? 0 then
    if copied =? 0 then NothingTransferred else CopiedOk copied
  else if copied =? 0 then CopyFailed errors
  else CopiedWithErrors copied errors.

End Readings.

(* ===================================================================== *)
(** * The copy button *)
(* ===================================================================== *)

Module Gate.
Import PyStr FolderName Copy.

(** [SIZE_LIMIT_BYTES = 620.0 * 1024 * 1024], an integral float. *)
Definition SIZE_LIMIT_BYTES : Z := 620 * 1024 * 1024.

(** [model_new_folder_name_valid] and its tissue and file-mode twins:
    true unless the new-subfolder mode is selected and the stripped
    name is empty or not a valid folder name. *)
Definition new_folder_name_valid (copy_mode new_folder_name : string) : bool :=
  if String.eqb copy_mode SUBFOLDER_MODE then
    let current_folder_name := strip new_folder_name in
    if String.eqb current_folder_name EmptyString then false
    else if negb (is_valid_foldername current_folder_name) then false
    else true
  else true.

(** Something is selected. *)
Definition some_selected (its : items) : Prop :=
  match its with
  | FolderItems d => d <> []
  | FileItems l => l <> []
  end.

(** The run went past the checks of the configuration. *)
Definition passed_checks (o : outcome) : bool :=
  match o with
  | NothingSelected | Rejected _ => false
  | _ => true
  end.

Section WithTarget.
Context {fs : Type} {target : CopyTarget fs}.
Variable cfg : settings.

(** [disable_copy_button] of the folder-mode controls, for the session
    state [cfg], the selected folders, the analysed total size and the
    destination state; the widgets show what the state holds. *)
Definition folder_button_disabled
    (items_to_process : list (string * string))
    (total_copy_selected_size : Z) (s : fs) : bool :=
  let tissue_files_found := tissue_files_found_in_selection cfg in
  let model_new_folder_name_valid :=
    new_folder_name_valid (model_copy_mode cfg) (model_new_folder_name cfg) in
  let tissue_new_folder_name_valid :=
    if tissue_files_found
    then new_folder_name_valid (tissue_copy_mode cfg)
           (tissue_new_folder_name cfg)
    else true in
  let model_base_valid := isdir s MODEL_BASE_PATH in
  let tissue_base_valid :=
    if tissue_files_found then isdir s TISSUE_BASE_PATH else true in
  let d1 := if negb model_base_valid then true else false in
  let d2 := if tissue_files_found && negb tissue_base_valid then true else d1 in
  let d3 :=
    if negb d2 then
      let d := if String.eqb (model_copy_mode cfg) SUBFOLDER_MODE
                  && negb model_new_folder_name_valid then true else d2 in
      if tissue_files_found
         && String.eqb (tissue_copy_mode cfg) SUBFOLDER_MODE
         && negb tissue_new_folder_name_valid then true else d
    else d2 in
  if negb d3 then
    let d := match items_to_process with [] => true | _ :: _ => d3 end in
    if SIZE_LIMIT_BYTES <? total_copy_selected_size then true else d
  else d3.

(** [disable_copy_button] of the file-mode controls. *)
Definition file_button_disabled (items_to_process : list string)
    (total_copy_selected_size : Z) (s : fs) : bool :=
  let new_folder_name_valid :=
    new_folder_name_valid (model_copy_mode cfg) (model_new_folder_name cfg) in
  let base_path_valid :=
    if String.eqb INHOUSE_PRINTING_PATH EmptyString then false
    else isdir s INHOUSE_PRINTING_PATH in
  let d1 :=
    if negb base_path_valid then true
    else if String.eqb (model_copy_mode cfg) SUBFOLDER_MODE
            && negb new_folder_name_valid then true
    else false in
  let d2 := if SIZE_LIMIT_BYTES <? total_copy_selected_size then true else d1 in
  match items_to_process with [] => true | _ :: _ => d2 end.

Definition button_disabled (its : items) (total_copy_selected_size : Z)
    (s : fs) : bool :=
  match its with
  | FolderItems d => folder_button_disabled d total_copy_selected_size s
  | FileItems l => file_button_disabled l total_copy_selected_size s
  end.

End WithTarget.
End Gate.

(* ===================================================================== *)
(** * Session state, search mode and search terms *)
(* ===================================================================== *)

Module Session.
Import PyStr Discovery.

(** The values the application keeps in [st.session_state]. *)
#[warnings="-register-all"] Inductive value :=
| VNone
| VBool (b : bool)
| VInt (n : Z)
| VStr (s : string)
| VList (l : list value)
| VDict (d : list (string * value)).

(** [default_state], in the order of the dictionary literal. *)
Definition default_state : list (string * value) :=
  [("search_terms", VStr EmptyString);
   ("selected_folder_paths", VDict []);
   ("selected_items_to_copy", VNone);
   ("selected_search_paths", VList []);
   ("last_search_terms", VList []);
   ("found_folders_cache", VDict []);
   ("model_copy_mode", VStr DIRECT_MODE);
   ("model_new_folder_name", VStr EmptyString);
   ("tissue_copy_mode", VStr DIRECT_MODE);
   ("tissue_new_folder_name", VStr EmptyString);
   ("tissue_files_found_in_selection", VBool false);
   ("last_selected_paths_for_items", VDict []);
   ("empty_selected_folders_list", VList []);
   ("selected_display_names", VList []);
   ("total_copy_selected_size", VInt 0);
   ("display_model_selected_size", VInt 0);
   ("non_stl_in_selection", VBool false);
   ("app_just_reset", VBool false);
   ("search_mode", VStr "folder");
   ("found_file_paths", VList [])].

(** [d[key]] and [key in d] on a dictionary literal. *)
Fixpoint dict_get (d : list (string * value)) (key : string) : option value :=
  match d with
  | [] => None
  | (k, v) :: r => if String.eqb k key then Some v else dict_get r key
  end.

(** [l.remove(x)]: without the first [x]; [None] when there is none
    ([ValueError]). *)
Fixpoint list_remove (x : string) (l : list string) : option (list string) :=
  match l with
  | [] => None
  | y :: r =>
      if String.eqb y x then Some r
      else match list_remove x r with
           | Some r' => Some (y :: r')
           | None => None
           end
  end.

(** Body of [for key in keys_to_clear]. *)
Definition reset_key (session_state : gmap string value) (key : string)
    : gmap string value :=
  match dict_get default_state key with
  | Some v => <[key := v]> session_state
  | None => session_state
  end.

(** [reset_app_state()]; [None] when [keys_to_clear.remove] raises. *)
Definition reset_app_state (session_state : gmap string value)
    : option (gmap string value) :=
  let keys_to_clear := map fst default_state in
  match list_remove "app_just_reset" keys_to_clear with
  | None => None
  | Some keys_to_clear =>
      Some (<["app_just_reset" := VBool true]>
              (foldl reset_key session_state keys_to_clear))
  end.

(** Body of [for key, value in default_state.items()]. *)
Definition init_key (session_state : gmap string value)
    (kv : string * value) : gmap string value :=
  match session_state !! kv.1 with
  | Some _ => session_state
  | None => <[kv.1 := kv.2]> session_state
  end.

(** The initialisation loop at the start of every run. *)
Definition initialize (session_state : gmap string value)
    : gmap string value :=
  foldl init_key session_state default_state.

(** [current_search_mode] and [mixed_selection] from the search
    locations ticked. *)
Definition determine_search_mode (selected_search_paths_on_load : list string)
    : string * bool :=
  if existsb (String.eqb INHOUSE_PRINTING_PATH) selected_search_paths_on_load
  then
    if Nat.eqb (length selected_search_paths_on_load) 1
    then ("file", false)
    else ("folder", true)
  else ("folder", false).

(** [s.split('\n')]; 010 is the line feed. *)
Fixpoint split_lines (s : string) : list string :=
  match s with
  | EmptyString => [EmptyString]
  | String c r =>
      if Ascii.eqb c "010"%char then EmptyString :: split_lines r
      else match split_lines r with
           | [] => [String c EmptyString]
           | line :: lines => String c line :: lines
           end
  end.

(** [[term.strip() for term in text.strip().split('\n') if term.strip()]] *)
Definition parse_search_terms (text : string) : list string :=
  map strip
      (List.filter (fun term => negb (String.eqb (strip term) EmptyString))
                   (split_lines (strip text))).

(** [any(term.lower() in name_lower for name_lower in names)] *)
Definition term_found (found_folder_names_lower : list string)
    (term : string) : bool :=
  existsb (fun name_lower => contains name_lower (lower term))
          found_folder_names_lower.

(** [sorted] on strings, by insertion. *)
Fixpoint insert_sorted (x : string) (l : list string) : list string :=
  match l with
  | [] => [x]
  | y :: r => if String.leb x y then x :: l else y :: insert_sorted x r
  end.

Definition sorted (l : list string) : list string :=
  foldr insert_sorted [] l.

(** [not_found_terms] from the entered terms and the dictionary of
    found folders. *)
Definition not_found_terms (search_terms : list string)
    (found_folders_map : gmap string (string * string)) : list string :=
  match search_terms with
  | [] => []
  | _ :: _ =>
      let found_folder_names_lower_set :=
        map (fun entry : string * (string * string) => lower entry.2.1)
            (map_to_list found_folders_map) in
      let current_not_found :=
        List.filter
          (fun term => negb (term_found found_folder_names_lower_set term))
          search_terms in
      sorted (remove_dups current_not_found)
  end.

(** Ascending for the order of [sorted]. *)
Fixpoint ascending (l : list string) : bool :=
  match l with
  | [] => true
  | x :: r =>
      match r with
      | [] => true
      | y :: _ => String.leb x y && ascending r
      end
  end.

End Session.

(* ===================================================================== *)
(** * Further sample file systems *)
(* ===================================================================== *)

Module MoreSamples.
Import PyStr Discovery.

(** The Exocad root lists two case folders, a file and an entry whose
    kind cannot be read; the Model Material root cannot be listed. *)
Definition roots_env : scan_env := {|
  scan_isdir := fun p =>
    String.eqb p EXOCAD_SOURCE_PATH || String.eqb p PATH_MODEL_MATERIAL;
  scan_listing := fun p =>
    if String.eqb p EXOCAD_SOURCE_PATH then
      {| listed := [ {| entry_name := "2025-12345 Smith";
                        entry_is_dir := Some true |};
                     {| entry_name := "2025-12399 SMITHERS";
                        entry_is_dir := Some true |};
                     {| entry_name := "smith.txt";
                        entry_is_dir := Some false |};
                     {| entry_name := "smith-locked";
                        entry_is_dir := None |} ];
         listing_raises := false |}
    else
      {| listed := [ {| entry_name := "2025-00001 Smith";
                        entry_is_dir := Some true |} ];
         listing_raises := true |}
|}.

(** The print queue: two models and a note, one model in a subfolder. *)
Definition queue_tree : source_env := {|
  env_isdir := fun p => String.eqb p INHOUSE_PRINTING_PATH;
  env_walk := fun p =>
    if String.eqb p INHOUSE_PRINTING_PATH then
      [(INHOUSE_PRINTING_PATH, ["old"], ["Smith_model.STL"; "readme.txt"]);
       (path_join INHOUSE_PRINTING_PATH "old", [], ["smith_tissue.stl"])]
    else [];
  env_getsize := fun p => if endswith p "readme.txt" then Some 40 else Some 2000
|}.

End MoreSamples.

(* ===================================================================== *)
(** * Properties of the string operations *)
(* ===================================================================== *)

Module PyStrFacts.
Import PyStr.

Lemma code_nonneg (c : ascii) : 0 <= code c.
Proof. unfold code. lia. Qed.

Lemma char_in_In (c : ascii) (cs : list ascii) :
  char_in c cs = true <-> In c cs.
Proof.
  unfold char_in. rewrite existsb_exists. split.
  - intros [x [Hx Heq]]. apply Ascii.eqb_eq in Heq. now subst.
  - intros H. exists c. split; [exact H | apply Ascii.eqb_refl].
Qed.

Lemma existsb_eqb_In (s : string) (l : list string) :
  existsb (String.eqb s) l = true <-> In s l.
Proof.
  rewrite existsb_exists. split.
  - intros [x [Hx Heq]]. apply String.eqb_eq in Heq. now subst.
  - intros H. exists s. split; [exact H | apply String.eqb_refl].
Qed.

End PyStrFacts.

(* ===================================================================== *)
(** * Properties of [is_valid_foldername] *)
(* ===================================================================== *)

Module FolderNameFacts.
Import PyStr PyStrFacts FolderName.

Lemma pattern_char_spec (c : ascii) :
  pattern_char c = true <-> code c <= 31 \/ In c special_chars.
Proof.
  unfold pattern_char, in_range.
  rewrite orb_true_iff, andb_true_iff, char_in_In, !Z.leb_le.
  pose proof (code_nonneg c). tauto.
Qed.

Lemma re_search_spec (s : string) :
  re_search s = true <->
  exists c, In c (list_ascii_of_string s)
            /\ (code c <= 31 \/ In c special_chars).
Proof.
  unfold re_search. rewrite existsb_exists.
  split; intros [c [Hin Hc]]; exists c; split; auto;
    now apply pattern_char_spec.
Qed.

Lemma is_valid_foldername_false_iff (name : string) :
  is_valid_foldername name = false <-> rejected name.
Proof.
  unfold is_valid_foldername, rejected.
  destruct (String.eqb_spec name EmptyString) as [He | He];
    [ tauto | ].
  destruct (re_search name) eqn:Hre.
  { apply re_search_spec in Hre. tauto. }
  destruct (existsb _ reserved) eqn:Hres.
  { apply existsb_eqb_In in Hres. tauto. }
  destruct (endswith name "." || endswith name " ") eqn:Hend.
  { apply orb_true_iff in Hend. tauto. }
  apply orb_false_iff in Hend. destruct Hend as [Hd Hs].
  split; [ discriminate | ].
  intros [H | [H | [H | [H | H]]]].
  - contradiction.
  - apply re_search_spec in H. congruence.
  - apply existsb_eqb_In in H. congruence.
  - congruence.
  - congruence.
Qed.

(** C6.  [is_valid_foldername] rejects the empty name, every name with
    a control character (code x00 to x1F) or one of the nine special
    characters, every name whose part before the first period is, in
    upper case, a reserved device name, and every name ending in a
    period or a space; it rejects the six listed names and accepts
    Project_2025. *)
Theorem is_valid_foldername_rejects :
  (forall name : string,
      name = EmptyString
      \/ (exists c, In c (list_ascii_of_string name)
                    /\ (code c <= 31 \/ In c special_chars))
      \/ In (split_head "." (upper name)) reserved
      \/ endswith name "." = true
      \/ endswith name " " = true ->
      is_valid_foldername name = false)
  /\ is_valid_foldername EmptyString = false
  /\ is_valid_foldername "a/b" = false
  /\ is_valid_foldername "CON" = false
  /\ is_valid_foldername "con.txt" = false
  /\ is_valid_foldername "name." = false
  /\ is_valid_foldername "name " = false
  /\ is_valid_foldername "Project_2025" = true.
Proof.
  split.
  - intros name H. now apply is_valid_foldername_false_iff.
  - repeat split; reflexivity.
Qed.

Lemma is_valid_foldername_rejects_witness :
  is_valid_foldername "LPT7.log.old" = false.
Proof.
  apply (proj1 is_valid_foldername_rejects "LPT7.log.old").
  right; right; left. vm_compute. tauto.
Defined.

End FolderNameFacts.

(* ===================================================================== *)
(** * Properties of [format_size] *)
(* ===================================================================== *)

Module FormatSizeFacts.
Import FormatSize.

(** [round_half_even] returns a nearest integer. *)
Lemma round_half_even_nearest (num den : Z) :
  0 < den ->
  2 * Z.abs (num - round_half_even num den * den) <= den.
Proof.
  intros Hden. unfold round_half_even.
  pose proof (Z.div_mod num den ltac:(lia)) as Hdm.
  pose proof (Z.mod_pos_bound num den Hden) as Hb.
  set (q := num / den) in *. set (r := num mod den) in *.
  destruct (2 * r <? den) eqn:H1; [ apply Z.ltb_lt in H1; nia | ].
  apply Z.ltb_ge in H1.
  destruct (den <? 2 * r) eqn:H2; [ apply Z.ltb_lt in H2; nia | ].
  apply Z.ltb_ge in H2.
  destruct (Z.even q); nia.
Qed.

Lemma tuple_get_size_name (i : Z) :
  is_Some (tuple_get size_name i) <-> -5 <= i <= 4.
Proof.
  unfold tuple_get. cbn [length size_name].
  destruct ((0 <=? i) && (i <? Z.of_nat 5)) eqn:H1.
  - apply andb_true_iff in H1. rewrite Z.leb_le, Z.ltb_lt in H1.
    split; [ lia | intros _ ].
    assert (Hi : i = 0 \/ i = 1 \/ i = 2 \/ i = 3 \/ i = 4) by lia.
    destruct Hi as [-> | [-> | [-> | [-> | ->]]]]; cbn; eauto.
  - apply andb_false_iff in H1. rewrite Z.leb_gt, Z.ltb_ge in H1.
    destruct ((- Z.of_nat 5 <=? i) && (i <? 0)) eqn:H2.
    + apply andb_true_iff in H2. rewrite Z.leb_le, Z.ltb_lt in H2.
      split; [ lia | intros _ ].
      assert (Hi : i = -5 \/ i = -4 \/ i = -3 \/ i = -2 \/ i = -1) by lia.
      destruct Hi as [-> | [-> | [-> | [-> | ->]]]]; cbn; eauto.
    + apply andb_false_iff in H2. rewrite Z.leb_gt, Z.ltb_ge in H2.
      split; [ intros [x Hx]; discriminate | lia ].
Qed.

Lemma tuple_get_nonneg {A : Type} (t : list A) (i : Z) (x : A) :
  0 <= i -> tuple_get t i = Some x -> t !! Z.to_nat i = Some x.
Proof.
  intros Hi. unfold tuple_get.
  destruct ((0 <=? i) && (i <? Z.of_nat (length t))); [ tauto | ].
  destruct ((- Z.of_nat (length t) <=? i) && (i <? 0)) eqn:H2;
    [ | discriminate ].
  apply andb_true_iff in H2. rewrite Z.ltb_lt in H2. lia.
Qed.

Section WithLog.
Variable log_floor : Z -> Z.

Lemma format_size_positive (n : Z) :
  0 < n ->
  format_size log_floor n =
  if 103 <=? log_floor n then Raise OverflowError
  else if negb (fits_float n) then Raise OverflowError
  else match tuple_get size_name (log_floor n) with
       | None => Raise IndexError
       | Some unit =>
           Ok (repr_hundredths (rounded_hundredths n (log_floor n))
               +:+ " " +:+ unit)
       end.
Proof.
  intros Hn. unfold format_size.
  destruct (n =? 0) eqn:H0; [ apply Z.eqb_eq in H0; lia | ].
  destruct (0 <? n) eqn:H1; [ reflexivity | apply Z.ltb_ge in H1; lia ].
Qed.

Lemma format_size_negative (n : Z) :
  n < 0 ->
  format_size log_floor n =
  if fits_float n then Ok (repr_hundredths (100 * n) +:+ " B")
  else Raise OverflowError.
Proof.
  intros Hn. unfold format_size.
  destruct (n =? 0) eqn:H0; [ apply Z.eqb_eq in H0; lia | ].
  destruct (0 <? n) eqn:H1; [ apply Z.ltb_lt in H1; lia | ].
  change (103 <=? 0) with false. cbn iota.
  destruct (fits_float n); cbn [negb]; [ | reflexivity ].
  unfold rounded_hundredths. change (0 <=? 0) with true. cbn iota.
  unfold round_half_even. change (1024 ^ 0) with 1.
  rewrite Z.div_1_r, Z.mod_1_r. reflexivity.
Qed.

Lemma fits_float_small (n : Z) : Z.abs n < 2 ^ 53 -> fits_float n = true.
Proof.
  intros Hn. unfold fits_float. apply Z.ltb_lt.
  assert (2 ^ 53 < float_limit) by (vm_compute; reflexivity). lia.
Qed.

(** C8.  [format_size] renders 0 as the text 0 B; where the unit
    index computed from the logarithm is 1 for 1024 and for 1536 it
    renders them as 1.0 KB and 1.5 KB; and in general, for a positive
    count (below 2^53) whose unit index i is between 0 and 4, the value
    printed before the i-th unit of B, KB, MB, GB, TB is the count
    divided by 1024^i rounded to the nearest hundredth. *)
Theorem format_size_renders :
  log_floor 1024 = 1 ->
  log_floor 1536 = 1 ->
  format_size log_floor 0 = Ok "0 B"
  /\ format_size log_floor 1024 = Ok "1.0 KB"
  /\ format_size log_floor 1536 = Ok "1.5 KB"
  /\ (forall n : Z,
         0 < n < 2 ^ 53 -> 0 <= log_floor n <= 4 ->
         exists (h : Z) (unit : string),
           format_size log_floor n
           = Ok (repr_hundredths h +:+ " " +:+ unit)
           /\ size_name !! Z.to_nat (log_floor n) = Some unit
           /\ 2 * Z.abs (100 * n - h * 1024 ^ log_floor n)
              <= 1024 ^ log_floor n).
Proof.
  intros H1024 H1536. split; [ reflexivity | ].
  split; [ unfold format_size; rewrite H1024; reflexivity | ].
  split; [ unfold format_size; rewrite H1536; reflexivity | ].
  intros n Hn Hi. rewrite (format_size_positive n) by lia.
  destruct (103 <=? log_floor n) eqn:Hov;
    [ apply Z.leb_le in Hov; lia | ].
  rewrite fits_float_small by lia. cbn [negb].
  destruct (tuple_get size_name (log_floor n)) as [unit | ] eqn:Hu.
  - exists (rounded_hundredths n (log_floor n)), unit.
    split; [ reflexivity | ]. split.
    + apply tuple_get_nonneg; [ lia | exact Hu ].
    + unfold rounded_hundredths.
      destruct (0 <=? log_floor n) eqn:Hs;
        [ | apply Z.leb_gt in Hs; lia ].
      apply round_half_even_nearest. apply Z.pow_pos_nonneg; lia.
  - assert (Hsome : is_Some (tuple_get size_name (log_floor n)))
      by (apply tuple_get_size_name; lia).
    rewrite Hu in Hsome. destruct Hsome as [x Hx]. discriminate.
Qed.

(** C10 (amended).  A negative count never reaches the logarithm: it
    is rendered in the unit B unless it is too large to convert to a
    float.  A positive count gets a string exactly when it converts to a
    float and its computed unit index is a valid index of the five
    units; where the index computed for counts from 1024^5 on is at
    least 5, every such count raises. *)
Theorem format_size_domain :
  (forall n : Z, 1024 ^ 5 <= n -> 5 <= log_floor n) ->
  (forall n : Z,
      - 2 ^ 53 < n < 0 ->
      format_size log_floor n = Ok (repr_hundredths (100 * n) +:+ " B"))
  /\ (forall n : Z,
         n < 0 ->
         (exists s, format_size log_floor n = Ok s) <-> - float_limit < n)
  /\ (forall n : Z,
         1024 ^ 5 <= n -> exists e, format_size log_floor n = Raise e)
  /\ (forall n : Z,
         0 < n ->
         (exists s, format_size log_floor n = Ok s)
         <-> -5 <= log_floor n <= 4 /\ n < float_limit).
Proof.
  intros Hlog. split; [ | split; [ | split ] ].
  - intros n Hn. rewrite format_size_negative by lia.
    rewrite fits_float_small by lia. reflexivity.
  - intros n Hn. rewrite format_size_negative by lia.
    unfold fits_float. destruct (Z.abs n <? float_limit) eqn:Hf.
    + apply Z.ltb_lt in Hf. split; [ lia | eauto ].
    + apply Z.ltb_ge in Hf. split; [ intros [s Hs]; discriminate | lia ].
  - intros n Hn. rewrite format_size_positive by lia.
    specialize (Hlog n Hn).
    destruct (103 <=? log_floor n); [ eauto | ].
    destruct (negb (fits_float n)); [ eauto | ].
    destruct (tuple_get size_name (log_floor n)) as [unit | ] eqn:Hu;
      [ | eauto ].
    assert (Hr : -5 <= log_floor n <= 4)
      by (apply tuple_get_size_name; rewrite Hu; eauto).
    lia.
  - intros n Hn. rewrite format_size_positive by lia.
    destruct (103 <=? log_floor n) eqn:Hov.
    { apply Z.leb_le in Hov. split; [ intros [s Hs]; discriminate | lia ]. }
    unfold fits_float. destruct (Z.abs n <? float_limit) eqn:Hf; cbn [negb].
    + apply Z.ltb_lt in Hf. rewrite <- tuple_get_size_name.
      destruct (tuple_get size_name (log_floor n)) as [unit | ].
      * split; [ intros _; split; [ eauto | lia ] | eauto ].
      * split; [ intros [s Hs]; discriminate
               | intros [[x Hx] _]; discriminate ].
    + apply Z.ltb_ge in Hf. split; [ intros [s Hs]; discriminate | lia ].
Qed.

End WithLog.

Lemma exact_log_floor_lower (n : Z) :
  1024 ^ 5 <= n -> 5 <= exact_log_floor n.
Proof.
  intros Hn. unfold exact_log_floor.
  assert (H50 : 50 <= Z.log2 n).
  { change 50 with (Z.log2 (1024 ^ 5)). apply Z.log2_le_mono. exact Hn. }
  apply Z.div_le_lower_bound; lia.
Qed.

Lemma format_size_renders_witness :
  format_size exact_log_floor 1536 = Ok "1.5 KB"
  /\ exists (h : Z) (unit : string),
       format_size exact_log_floor 123456789
       = Ok (repr_hundredths h +:+ " " +:+ unit)
       /\ size_name !! Z.to_nat (exact_log_floor 123456789) = Some unit
       /\ 2 * Z.abs (100 * 123456789 - h * 1024 ^ exact_log_floor 123456789)
          <= 1024 ^ exact_log_floor 123456789.
Proof.
  pose proof (format_size_renders exact_log_floor eq_refl eq_refl)
    as [_ [_ [H1536 Hgen]]].
  split; [ exact H1536 | ].
  apply Hgen; vm_compute; split; (reflexivity || discriminate).
Defined.

Lemma format_size_domain_witness :
  exists e, format_size exact_log_floor (1024 ^ 5 + 7) = Raise e.
Proof.
  apply (format_size_domain exact_log_floor exact_log_floor_lower).
  vm_compute. discriminate.
Defined.

(** C10, as stated, fails: a negative count does not raise. *)
Lemma format_size_negative_returns :
  format_size exact_log_floor (-5) = Ok "-5.0 B".
Proof. reflexivity. Qed.

End FormatSizeFacts.

(* ===================================================================== *)
(** * Properties of the analysis engine *)
(* ===================================================================== *)

Module AnalysisFacts.
Import PyStr Analysis.

(** Projections of a left fold whose body adds to, or raises, one
    accumulator. *)
Lemma foldl_adds {A B : Type} (f : A -> B -> A) (proj : A -> Z)
    (g : B -> Z) :
  (forall a x, proj (f a x) = proj a + g x) ->
  forall l a, proj (foldl f a l) = proj a + foldr (fun x acc => g x + acc) 0 l.
Proof.
  intros Hf l. induction l as [ | x l IH]; intros a; cbn.
  - lia.
  - rewrite IH, Hf. lia.
Qed.

Lemma foldl_raises {A B : Type} (f : A -> B -> A) (proj : A -> bool)
    (g : B -> bool) :
  (forall a x, proj (f a x) = proj a || g x) ->
  forall l a, proj (foldl f a l) = proj a || existsb g l.
Proof.
  intros Hf l. induction l as [ | x l IH]; intros a; cbn.
  - now rewrite orb_false_r.
  - rewrite IH, Hf. now rewrite orb_assoc.
Qed.

Ltac analysis_simpl :=
  cbn [total_copy_size_bytes display_model_size_bytes non_stl_found
       tissue_files_present empty_folders_encountered
       add_total add_display set_non_stl set_tissue add_empty
       negb andb orb default from_option id fst snd].

Section WithEnv.
Variable env : source_env.

Lemma sum_sizes_share (l : list (bool * string * string)) :
  sum_sizes env l = foldr (fun f acc => share env f + acc) 0 l.
Proof.
  unfold sum_sizes. induction l as [ | f l IH]; [ reflexivity | ].
  rewrite filter_cons. cbn [foldr]. unfold share at 1.
  destruct (decide (isStlFile f.2 && isAllowedForOrigin f.1.1 f.2 = true))
    as [Hc | Hc].
  - rewrite Hc. cbn [foldr]. now rewrite IH.
  - apply not_true_is_false in Hc. rewrite Hc, IH. lia.
Qed.

Lemma sum_sizes_app (l1 l2 : list (bool * string * string)) :
  sum_sizes env (l1 ++ l2) = sum_sizes env l1 + sum_sizes env l2.
Proof.
  rewrite !sum_sizes_share.
  induction l1 as [ | f l1 IH]; cbn; [ reflexivity | ].
  rewrite IH. lia.
Qed.

Lemma folder_file_body_total (exo : bool) (root : string)
    (a : analysis) (file : string) :
  total_copy_size_bytes (folder_file_body env exo root a file)
  = total_copy_size_bytes a + share env (exo, path_join root file, file).
Proof.
  unfold folder_file_body, share, size_of, isStlFile, isAllowedForOrigin.
  cbn [fst snd].
  change (existsb (fun k => contains (lower file) k) EXOCAD_ALLOWED_KEYWORDS)
    with (contains_any (lower file) EXOCAD_ALLOWED_KEYWORDS).
  destruct (env_getsize env (path_join root file)) as [sz | ];
    destruct (endswith (lower file) ".stl");
    destruct (contains_any (lower file) EXOCAD_ALLOWED_KEYWORDS);
    destruct (contains_any (lower file) MODEL_DISPLAY_SIZE_KEYWORDS);
    (destruct exo;
     [ destruct (is_tissue_name true (lower file))
     | destruct (is_tissue_name false (lower file)) ]);
    analysis_simpl; lia.
Qed.

Lemma files_fold_total (exo : bool) (t : walk_triple) (a : analysis) :
  total_copy_size_bytes (foldl (folder_file_body env exo t.1.1) a t.2)
  = total_copy_size_bytes a + sum_sizes env (step_files exo t).
Proof.
  rewrite sum_sizes_share. unfold step_files.
  rewrite (foldl_adds _ total_copy_size_bytes
             (fun file => share env (exo, path_join t.1.1 file, file))).
  - f_equal. induction (t.2) as [ | x l IH]; cbn; [ reflexivity | ].
    now rewrite IH.
  - intros. apply folder_file_body_total.
Qed.

(** The analysis component of the walk loop does not depend on the
    item counter. *)
Lemma walk_fold_fst (exo : bool) (ts : list walk_triple)
    (st : analysis * Z) :
  (foldl (walk_body env exo) st ts).1
  = foldl (fun a (t : walk_triple) =>
             foldl (folder_file_body env exo t.1.1) a t.2) st.1 ts.
Proof.
  revert st. induction ts as [ | [[root ds] fs] ts IH]; intros st;
    [ reflexivity | ].
  cbn [foldl]. rewrite IH. reflexivity.
Qed.

Lemma walk_fold_total (exo : bool) (ts : list walk_triple) (a : analysis) :
  total_copy_size_bytes
    (foldl (fun a (t : walk_triple) =>
              foldl (folder_file_body env exo t.1.1) a t.2) a ts)
  = total_copy_size_bytes a
    + sum_sizes env (concat (map (step_files exo) ts)).
Proof.
  revert a. induction ts as [ | t ts IH]; intros a; cbn [foldl map concat].
  - cbn. lia.
  - rewrite IH, files_fold_total, sum_sizes_app. lia.
Qed.

Lemma files_of_folder_dir (p l : string) :
  env_isdir env p = true ->
  files_of_folder env (p, l)
  = concat (map (step_files (is_exocad_origin l p)) (env_walk env p)).
Proof. intros Hd. unfold files_of_folder. cbn. now rewrite Hd. Qed.

Lemma files_of_folder_nodir (p l : string) :
  env_isdir env p = false -> files_of_folder env (p, l) = [].
Proof. intros Hd. unfold files_of_folder. cbn. now rewrite Hd. Qed.

Lemma folder_body_total (a : analysis) (item : string * string) :
  total_copy_size_bytes (folder_body env a item)
  = total_copy_size_bytes a + sum_sizes env (files_of_folder env item).
Proof.
  destruct item as [p l]. unfold folder_body.
  destruct (env_isdir env p) eqn:Hd; cbn [negb].
  - rewrite (files_of_folder_dir p l Hd), <- walk_fold_total.
    rewrite <- (walk_fold_fst _ _ (a, 0)).
    destruct (_ && true); reflexivity.
  - rewrite (files_of_folder_nodir p l Hd). cbn. lia.
Qed.

Lemma selection_fold_total (sel : list (string * string)) (a : analysis) :
  total_copy_size_bytes (foldl (folder_body env) a sel)
  = total_copy_size_bytes a
    + sum_sizes env (files_of_selection env sel).
Proof.
  revert a. unfold files_of_selection.
  induction sel as [ | item sel IH]; intros a; cbn [foldl map concat].
  - cbn. lia.
  - rewrite IH, folder_body_total, sum_sizes_app. lia.
Qed.


(** ** The non-STL flag *)

Lemma folder_file_body_non_stl (exo : bool) (root : string)
    (a : analysis) (file : string) :
  non_stl_found (folder_file_body env exo root a file)
  = non_stl_found a || visible_non_stl env (exo, path_join root file, file).
Proof.
  unfold folder_file_body, visible_non_stl, stat_ok, isStlFile.
  cbn [fst snd].
  destruct (env_getsize env (path_join root file)) as [sz | ];
    destruct (endswith (lower file) ".stl");
    destruct (contains_any (lower file) EXOCAD_ALLOWED_KEYWORDS);
    destruct (contains_any (lower file) MODEL_DISPLAY_SIZE_KEYWORDS);
    (destruct exo;
     [ destruct (is_tissue_name true (lower file))
     | destruct (is_tissue_name false (lower file)) ]);
    analysis_simpl; destruct (non_stl_found a); reflexivity.
Qed.

Lemma walk_fold_non_stl (exo : bool) (ts : list walk_triple) (a : analysis) :
  non_stl_found
    (foldl (fun a (t : walk_triple) =>
              foldl (folder_file_body env exo t.1.1) a t.2) a ts)
  = non_stl_found a
    || existsb (visible_non_stl env) (concat (map (step_files exo) ts)).
Proof.
  revert a. induction ts as [ | t ts IH]; intros a; cbn [foldl map concat].
  - cbn. now rewrite orb_false_r.
  - rewrite IH, existsb_app, orb_assoc. f_equal.
    rewrite (foldl_raises _ non_stl_found
               (fun file => visible_non_stl env (exo, path_join t.1.1 file, file))).
    + f_equal. unfold step_files.
      induction (t.2) as [ | x l IHl]; cbn; [ reflexivity | ].
      now rewrite IHl.
    + intros. apply folder_file_body_non_stl.
Qed.

Lemma folder_body_non_stl (a : analysis) (item : string * string) :
  non_stl_found (folder_body env a item)
  = non_stl_found a
    || existsb (visible_non_stl env) (files_of_folder env item).
Proof.
  destruct item as [p l]. unfold folder_body.
  destruct (env_isdir env p) eqn:Hd; cbn [negb].
  - rewrite (files_of_folder_dir p l Hd), <- walk_fold_non_stl.
    rewrite <- (walk_fold_fst _ _ (a, 0)).
    destruct (_ && true); reflexivity.
  - rewrite (files_of_folder_nodir p l Hd). cbn.
    now rewrite orb_false_r.
Qed.

Lemma selection_fold_non_stl (sel : list (string * string)) (a : analysis) :
  non_stl_found (foldl (folder_body env) a sel)
  = non_stl_found a
    || existsb (visible_non_stl env) (files_of_selection env sel).
Proof.
  revert a. unfold files_of_selection.
  induction sel as [ | item sel IH]; intros a; cbn [foldl map concat].
  - cbn. now rewrite orb_false_r.
  - rewrite IH, folder_body_non_stl, existsb_app, orb_assoc. reflexivity.
Qed.

(** ** Empty or inaccessible folders *)

Lemma folder_file_body_empty (exo : bool) (root : string)
    (a : analysis) (file : string) :
  empty_folders_encountered (folder_file_body env exo root a file)
  = empty_folders_encountered a.
Proof.
  unfold folder_file_body.
  destruct (env_getsize env (path_join root file)) as [sz | ];
    destruct (endswith (lower file) ".stl");
    destruct (contains_any (lower file) EXOCAD_ALLOWED_KEYWORDS);
    destruct (contains_any (lower file) MODEL_DISPLAY_SIZE_KEYWORDS);
    (destruct exo;
     [ destruct (is_tissue_name true (lower file))
     | destruct (is_tissue_name false (lower file)) ]);
    reflexivity.
Qed.

Lemma walk_fold_empty (exo : bool) (ts : list walk_triple) (a : analysis) :
  empty_folders_encountered
    (foldl (fun a (t : walk_triple) =>
              foldl (folder_file_body env exo t.1.1) a t.2) a ts)
  = empty_folders_encountered a.
Proof.
  revert a. induction ts as [ | t ts IH]; intros a; cbn [foldl];
    [ reflexivity | ].
  rewrite IH. generalize (t.2). intros fs. revert a.
  induction fs as [ | f fs IHf]; intros a; cbn [foldl]; [ reflexivity | ].
  rewrite IHf. apply folder_file_body_empty.
Qed.

Lemma walk_fold_items (exo : bool) (ts : list walk_triple)
    (st : analysis * Z) :
  lists_nothing ts -> (foldl (walk_body env exo) st ts).2 = st.2.
Proof.
  revert st. induction ts as [ | [[root ds] fs] ts IH]; intros st Hn;
    [ reflexivity | ].
  cbn [foldl]. rewrite IH.
  - destruct (Hn (root, ds, fs)) as [Hd Hf]; [ now left | ].
    cbn in Hd, Hf. subst. cbn. lia.
  - intros t Ht. apply Hn. now right.
Qed.

(** A folder that is not a directory, or whose walk lists nothing,
    only gains an entry in the list of empty folders. *)
Lemma folder_body_inaccessible (a : analysis) (p l : string) :
  env_isdir env p = false \/ lists_nothing (env_walk env p) ->
  folder_body env a (p, l)
  = add_empty p
      (foldl (fun a (t : walk_triple) =>
                foldl (folder_file_body env (is_exocad_origin l p) t.1.1) a t.2)
             a (if env_isdir env p then env_walk env p else [])).
Proof.
  intros H. unfold folder_body.
  destruct (env_isdir env p) eqn:Hd; cbn [negb]; [ | reflexivity ].
  destruct H as [H | H]; [ discriminate | ].
  rewrite (walk_fold_items _ _ (a, 0) H). cbn [snd Z.eqb andb].
  now rewrite walk_fold_fst.
Qed.

Lemma folder_body_keeps_empty (a : analysis) (item : string * string)
    (x : string) :
  In x (empty_folders_encountered a) ->
  In x (empty_folders_encountered (folder_body env a item)).
Proof.
  intros Hx. destruct item as [p l]. unfold folder_body.
  assert (Hw : forall st0 : analysis * Z,
             st0.1 = a ->
             In x (empty_folders_encountered
                     (foldl (walk_body env (is_exocad_origin l p)) st0
                            (env_walk env p)).1)).
  { intros st0 <-. rewrite walk_fold_fst, walk_fold_empty. exact Hx. }
  destruct (env_isdir env p); cbn [negb].
  - destruct (_ && true).
    + cbn. apply in_or_app. left. now apply Hw.
    + now apply Hw.
  - cbn. apply in_or_app. now left.
Qed.

Lemma selection_fold_keeps_empty (sel : list (string * string))
    (a : analysis) (x : string) :
  In x (empty_folders_encountered a) ->
  In x (empty_folders_encountered (foldl (folder_body env) a sel)).
Proof.
  revert a. induction sel as [ | item sel IH]; intros a Hx; [ exact Hx | ].
  cbn [foldl]. apply IH. now apply folder_body_keeps_empty.
Qed.

Lemma selection_fold_marks_empty (sel : list (string * string))
    (a : analysis) (p l : string) :
  In (p, l) sel ->
  env_isdir env p = false \/ lists_nothing (env_walk env p) ->
  In p (empty_folders_encountered (foldl (folder_body env) a sel)).
Proof.
  revert a. induction sel as [ | item sel IH]; intros a Hin Hbad;
    [ contradiction | ].
  cbn [foldl]. destruct Hin as [-> | Hin].
  - apply selection_fold_keeps_empty.
    rewrite (folder_body_inaccessible a p l Hbad).
    cbn. apply in_or_app. right. now left.
  - now apply IH.
Qed.

(** C7 (amended).  The non-STL flag is set exactly when some file of
    the selected subtrees whose size can be read does not end in
    .stl, whether or not it would be copied.  A file whose size
    cannot be read is skipped whole, flag included.  A selected
    folder that is not a directory, or whose walk lists nothing, is
    reported as empty or inaccessible, and the analysis goes on. *)
Theorem non_stl_flag_and_tolerance (sel : list (string * string)) :
  (non_stl_found (get_recursive_folder_details env sel).2 = true
   <-> exists f, In f (files_of_selection env sel)
                 /\ is_Some (env_getsize env f.1.2)
                 /\ isStlFile f.2 = false)
  /\ (forall exo root a file,
         env_getsize env (path_join root file) = None ->
         folder_file_body env exo root a file = a)
  /\ (forall p l,
         In (p, l) sel ->
         env_isdir env p = false \/ lists_nothing (env_walk env p) ->
         In p (empty_folders_encountered
                 (get_recursive_folder_details env sel).2)).
Proof.
  split; [ | split ].
  - unfold get_recursive_folder_details. cbn [snd non_stl_found].
    rewrite selection_fold_non_stl. cbn [initial non_stl_found orb].
    rewrite existsb_exists. unfold visible_non_stl, stat_ok.
    split; intros [f [Hin Hf]]; exists f; (split; [ exact Hin | ]).
    + apply andb_true_iff in Hf. destruct Hf as [Hs Hn].
      destruct (env_getsize env f.1.2); [ | discriminate ].
      split; [ eauto | ]. now apply negb_true_iff.
    + destruct Hf as [[sz Hs] Hn]. rewrite Hs, Hn. reflexivity.
  - intros exo root a file Hs. unfold folder_file_body. now rewrite Hs.
  - intros p l Hin Hbad.
    unfold get_recursive_folder_details.
    cbn [snd empty_folders_encountered].
    apply list_elem_of_In, elem_of_remove_dups, list_elem_of_In.
    now apply (selection_fold_marks_empty sel initial p l).
Qed.

(** ** Tissue against display size *)


End WithEnv.
End AnalysisFacts.

(* ===================================================================== *)
(** * Properties of the copy engine *)
(* ===================================================================== *)

Module CopyFacts.
Import PyStr FolderName Copy.

Lemma count_failed_snoc (l : list attempt) (a : attempt) :
  count_failed (l ++ [a]) = count_failed l + (if at_ok a then 0 else 1).
Proof.
  unfold count_failed, failed. rewrite List.filter_app, length_app.
  cbn. destruct (at_ok a); cbn; lia.
Qed.

Lemma count_ok_snoc (l : list attempt) (a : attempt) :
  count_ok (l ++ [a]) = count_ok l + (if at_ok a then 1 else 0).
Proof.
  unfold count_ok. rewrite List.filter_app, length_app.
  cbn. destruct (at_ok a); cbn; lia.
Qed.


Section WithTarget.
Context {fs : Type} {target : CopyTarget fs}.
Variable env : source_env.
Variable cfg : settings.

Lemma counted_start (s : fs) : counted (start s).
Proof. split; reflexivity. Qed.

(** ** The per-file [try] block *)

Lemma try_copy_into_keys (target_dir src dst : string) (p : progress fs) :
  map attempt_key (p_attempts (try_copy_into target_dir src dst p))
  = map attempt_key (p_attempts p) ++ [(src, dst)].
Proof.
  unfold try_copy_into.
  destruct (makedirs target_dir (p_fs p)).2; cbn [p_attempts];
    now rewrite map_app.
Qed.

Lemma try_copy_into_counted (target_dir src dst : string)
    (p : progress fs) :
  counted p -> counted (try_copy_into target_dir src dst p).
Proof.
  intros [He Hc]. unfold try_copy_into, counted.
  destruct (makedirs target_dir (p_fs p)).2;
    cbn [p_attempts error_count current_copied_count];
    rewrite count_failed_snoc, count_ok_snoc; cbn [at_ok].
  - destruct (copy2 src dst _).2; lia.
  - lia.
Qed.

Lemma copy_file_body_keys (exo : bool) (root : string) (p : progress fs)
    (file : string) :
  map attempt_key (p_attempts (copy_file_body cfg exo root p file))
  = map attempt_key (p_attempts p)
    ++ map job_key (planned_of_file cfg exo root file).
Proof.
  unfold copy_file_body, planned_of_file.
  destruct (endswith (lower file) ".stl"); cbn [andb];
    [ | now rewrite app_nil_r ].
  destruct (negb (exo && negb (contains_any (lower file)
                                 EXOCAD_ALLOWED_KEYWORDS)));
    cbn [negb]; [ | now rewrite app_nil_r ].
  apply try_copy_into_keys.
Qed.

Lemma copy_file_body_counted (exo : bool) (root : string)
    (p : progress fs) (file : string) :
  counted p -> counted (copy_file_body cfg exo root p file).
Proof.
  intros H. unfold copy_file_body.
  destruct (endswith (lower file) ".stl"); [ | exact H ].
  destruct (negb (negb _)); [ exact H | ].
  now apply try_copy_into_counted.
Qed.

(** ** The folder-mode copy pass *)

Lemma copy_step_keys (exo : bool) (t : walk_triple) (p : progress fs) :
  map attempt_key
      (p_attempts (foldl (copy_file_body cfg exo t.1.1) p t.2))
  = map attempt_key (p_attempts p)
    ++ map job_key (planned_of_step cfg exo t).
Proof.
  unfold planned_of_step. generalize (t.2). intros files. revert p.
  induction files as [ | f files IH]; intros p; cbn [foldl map concat].
  - now rewrite app_nil_r.
  - rewrite IH, copy_file_body_keys, map_app, app_assoc. reflexivity.
Qed.

Lemma copy_step_counted (exo : bool) (t : walk_triple) (p : progress fs) :
  counted p -> counted (foldl (copy_file_body cfg exo t.1.1) p t.2).
Proof.
  generalize (t.2). intros files. revert p.
  induction files as [ | f files IH]; intros p H; [ exact H | ].
  cbn [foldl]. apply IH. now apply copy_file_body_counted.
Qed.

Lemma copy_folder_body_keys (p : progress fs) (item : string * string) :
  map attempt_key (p_attempts (copy_folder_body env cfg p item))
  = map attempt_key (p_attempts p)
    ++ map job_key (planned_of_folder env cfg item).
Proof.
  destruct item as [path label].
  unfold copy_folder_body, planned_of_folder. cbn [fst snd].
  generalize (env_walk env path). intros ts. revert p.
  induction ts as [ | t ts IH]; intros p; cbn [foldl map concat].
  - now rewrite app_nil_r.
  - rewrite IH, copy_step_keys, map_app, app_assoc. reflexivity.
Qed.

Lemma copy_folder_body_counted (p : progress fs) (item : string * string) :
  counted p -> counted (copy_folder_body env cfg p item).
Proof.
  destruct item as [path label]. unfold copy_folder_body.
  generalize (env_walk env path). intros ts. revert p.
  induction ts as [ | t ts IH]; intros p H; [ exact H | ].
  cbn [foldl]. apply IH. now apply copy_step_counted.
Qed.

Lemma copy_pass_keys (d : list (string * string)) (p : progress fs) :
  map attempt_key (p_attempts (foldl (copy_folder_body env cfg) p d))
  = map attempt_key (p_attempts p)
    ++ map job_key (planned_folder_copies env cfg d).
Proof.
  unfold planned_folder_copies. revert p.
  induction d as [ | item d IH]; intros p; cbn [foldl map concat].
  - now rewrite app_nil_r.
  - rewrite IH, copy_folder_body_keys, map_app, app_assoc. reflexivity.
Qed.

Lemma copy_pass_counted (d : list (string * string)) (p : progress fs) :
  counted p -> counted (foldl (copy_folder_body env cfg) p d).
Proof.
  revert p. induction d as [ | item d IH]; intros p H; [ exact H | ].
  cbn [foldl]. apply IH. now apply copy_folder_body_counted.
Qed.

(** ** The pre-scan counts the planned copies *)

Lemma scan_file_body_planned (exo : bool) (root : string) (n : Z)
    (file : string) :
  scan_file_body exo n file
  = n + Z.of_nat (length (planned_of_file cfg exo root file)).
Proof.
  unfold scan_file_body, planned_of_file.
  destruct (endswith (lower file) ".stl"); cbn [andb length]; [ | lia ].
  destruct exo; cbn [andb negb].
  - destruct (contains_any (lower file) EXOCAD_ALLOWED_KEYWORDS);
      cbn [negb length]; lia.
  - cbn [length]. lia.
Qed.

Lemma scan_step_planned (exo : bool) (t : walk_triple) (n : Z) :
  foldl (scan_file_body exo) n t.2
  = n + Z.of_nat (length (planned_of_step cfg exo t)).
Proof.
  unfold planned_of_step. generalize (t.2). intros files. revert n.
  induction files as [ | f files IH]; intros n; cbn [foldl map concat].
  - cbn. lia.
  - rewrite IH, (scan_file_body_planned exo t.1.1), length_app. lia.
Qed.

Lemma scan_folder_body_planned (n : Z) (item : string * string) :
  scan_folder_body env n item
  = n + Z.of_nat (length (planned_of_folder env cfg item)).
Proof.
  destruct item as [path label].
  unfold scan_folder_body, planned_of_folder. cbn [fst snd].
  generalize (env_walk env path). intros ts. revert n.
  induction ts as [ | t ts IH]; intros n; cbn [foldl map concat].
  - cbn. lia.
  - rewrite IH, scan_step_planned, length_app. lia.
Qed.

Lemma scan_pass_planned (d : list (string * string)) (n : Z) :
  foldl (scan_folder_body env) n d
  = n + Z.of_nat (length (planned_folder_copies env cfg d)).
Proof.
  unfold planned_folder_copies. revert n.
  induction d as [ | item d IH]; intros n; cbn [foldl map concat].
  - cbn. lia.
  - rewrite IH, scan_folder_body_planned, length_app. lia.
Qed.

(** ** The file-mode loop *)

Lemma copy_listed_keys (target_dir : string) (l : list string)
    (p : progress fs) :
  map attempt_key (p_attempts (foldl (copy_listed_body target_dir) p l))
  = map attempt_key (p_attempts p)
    ++ map job_key (map (planned_of_listed target_dir) l).
Proof.
  revert p. induction l as [ | src l IH]; intros p; cbn [foldl map].
  - now rewrite app_nil_r.
  - rewrite IH. unfold copy_listed_body. cbn [p_attempts].
    rewrite map_app, <- app_assoc. reflexivity.
Qed.

Lemma copy_listed_counted (target_dir : string) (l : list string)
    (p : progress fs) :
  counted p -> counted (foldl (copy_listed_body target_dir) p l).
Proof.
  revert p. induction l as [ | src l IH]; intros p H; [ exact H | ].
  cbn [foldl]. apply IH. destruct H as [He Hc].
  unfold copy_listed_body, counted.
  cbn [p_attempts error_count current_copied_count].
  rewrite count_failed_snoc, count_ok_snoc. cbn [at_ok].
  destruct (copy2 src _ (p_fs p)).2; lia.
Qed.

(** ** The copy pass is its planned copies, one after the other *)

Lemma copy_file_body_replay (exo : bool) (root : string) (p : progress fs)
    (file : string) :
  copy_file_body cfg exo root p file
  = foldl attempt_job p (planned_of_file cfg exo root file).
Proof.
  unfold copy_file_body, planned_of_file.
  destruct (endswith (lower file) ".stl"); cbn [andb]; [ | reflexivity ].
  destruct (negb (exo && negb (contains_any (lower file)
                                  EXOCAD_ALLOWED_KEYWORDS)));
    cbn [negb]; reflexivity.
Qed.

Lemma copy_step_replay (exo : bool) (t : walk_triple) (p : progress fs) :
  foldl (copy_file_body cfg exo t.1.1) p t.2
  = foldl attempt_job p (planned_of_step cfg exo t).
Proof.
  unfold planned_of_step. revert p.
  induction (t.2) as [ | file files IH]; intros p; cbn [foldl map concat];
    [ reflexivity | ].
  now rewrite foldl_app, IH, copy_file_body_replay.
Qed.

Lemma copy_folder_body_replay (p : progress fs) (item : string * string) :
  copy_folder_body env cfg p item
  = foldl attempt_job p (planned_of_folder env cfg item).
Proof.
  destruct item as [folder_path origin_label].
  unfold copy_folder_body, planned_of_folder. cbn [fst snd]. revert p.
  induction (env_walk env folder_path) as [ | t ts IH]; intros p;
    cbn [foldl map concat]; [ reflexivity | ].
  now rewrite foldl_app, IH, copy_step_replay.
Qed.

Lemma copy_pass_replay (d : list (string * string)) (p : progress fs) :
  foldl (copy_folder_body env cfg) p d
  = foldl attempt_job p (planned_folder_copies env cfg d).
Proof.
  unfold planned_folder_copies. revert p.
  induction d as [ | item d IH]; intros p; cbn [foldl map concat];
    [ reflexivity | ].
  now rewrite foldl_app, IH, copy_folder_body_replay.
Qed.

(** ** Each attempt is the copy of its file *)

Lemma attempt_job_copies (p : progress fs) (j : job) :
  p_fs (attempt_job p j) = (copy_one true j (p_fs p)).1
  /\ map at_ok (p_attempts (attempt_job p j))
     = map at_ok (p_attempts p) ++ [(copy_one true j (p_fs p)).2].
Proof.
  unfold attempt_job, try_copy_into, copy_one.
  destruct (makedirs (job_dir j) (p_fs p)).2; cbn [p_fs p_attempts];
    rewrite map_app; split; reflexivity.
Qed.

Lemma attempts_copy_each (jobs : list job) (p : progress fs) :
  p_fs (foldl attempt_job p jobs) = (copy_each true jobs (p_fs p)).1
  /\ map at_ok (p_attempts (foldl attempt_job p jobs))
     = map at_ok (p_attempts p) ++ (copy_each true jobs (p_fs p)).2.
Proof.
  revert p. induction jobs as [ | j jobs IH]; intros p;
    cbn [foldl copy_each fst snd].
  - now rewrite app_nil_r.
  - destruct (IH (attempt_job p j)) as [Hs Ha].
    destruct (attempt_job_copies p j) as [Hs1 Ha1].
    rewrite Hs, Ha, Hs1, Ha1, <- app_assoc. split; reflexivity.
Qed.

Lemma listed_copy_each (target_dir : string) (l : list string)
    (p : progress fs) :
  p_fs (foldl (copy_listed_body target_dir) p l)
  = (copy_each false (map (planned_of_listed target_dir) l) (p_fs p)).1
  /\ map at_ok (p_attempts (foldl (copy_listed_body target_dir) p l))
     = map at_ok (p_attempts p)
       ++ (copy_each false (map (planned_of_listed target_dir) l) (p_fs p)).2.
Proof.
  revert p. induction l as [ | src l IH]; intros p;
    cbn [foldl map copy_each fst snd].
  - now rewrite app_nil_r.
  - destruct (IH (copy_listed_body target_dir p src)) as [Hs Ha].
    rewrite Hs, Ha. unfold copy_listed_body, copy_one, planned_of_listed.
    cbn [p_fs p_attempts job_src job_dst at_ok].
    rewrite map_app, <- app_assoc. split; reflexivity.
Qed.



End WithTarget.

Section Runs.
Context {fs : Type} {target : CopyTarget fs}.
Variable env env_copy : source_env.
Variable cfg : settings.

(** ** Configuration errors *)

(** C3.  Whenever [copy_items] meets a configuration error (the
    model, tissue or in-house base path is not a directory, or a
    subfolder name is invalid while the new-subfolder mode is
    selected) it ends with that error: the destination state is the
    one it was given, no [makedirs] or [copy2] call was made and no
    copy was attempted. *)
Theorem config_error_leaves_destination_untouched
    (its : items) (open_destination : bool) (s : fs) :
  detects_config_error cfg its s ->
  let r := copy_items env env_copy cfg its open_destination s in
  (exists e, r.1 = Rejected e)
  /\ p_fs r.2 = s /\ p_trace r.2 = [] /\ p_attempts r.2 = [].
Proof.
  intros H. destruct its as [d | l]; cbn [detects_config_error] in H;
    destruct H as [Hne H].
  - destruct d as [ | item d]; [ contradiction | ].
    cbn [copy_items]. unfold copy_folders.
    destruct (isdir s MODEL_BASE_PATH) eqn:Hm; cbn [negb];
      [ | cbn; eauto 6 ].
    destruct (tissue_files_found_in_selection cfg) eqn:Ht.
    + destruct (isdir s TISSUE_BASE_PATH) eqn:Hb; cbn [negb andb];
        [ | cbn; eauto 6 ].
      destruct (String.eqb_spec (model_copy_mode cfg) SUBFOLDER_MODE)
        as [Hmm | Hmm];
        destruct (is_valid_foldername (strip (model_new_folder_name cfg)))
          eqn:Hv; cbn [negb andb]; try (cbn; eauto 6);
        (destruct (String.eqb_spec (tissue_copy_mode cfg) SUBFOLDER_MODE)
           as [Htm | Htm];
         destruct (is_valid_foldername
                     (strip (tissue_new_folder_name cfg))) eqn:Hw;
         cbn [negb andb]; try (cbn; eauto 6));
        exfalso; intuition congruence.
    + cbn [negb andb].
      destruct (String.eqb_spec (model_copy_mode cfg) SUBFOLDER_MODE)
        as [Hmm | Hmm];
        destruct (is_valid_foldername (strip (model_new_folder_name cfg)))
          eqn:Hv; cbn [negb andb]; try (cbn; eauto 6);
        exfalso; intuition congruence.
  - destruct l as [ | src l]; [ contradiction | ].
    cbn [copy_items]. unfold copy_files.
    change (String.eqb INHOUSE_PRINTING_PATH EmptyString) with false.
    cbn iota.
    destruct (isdir s INHOUSE_PRINTING_PATH) eqn:Hm; cbn [negb];
      [ | cbn; eauto 6 ].
    destruct (String.eqb_spec (model_copy_mode cfg) SUBFOLDER_MODE)
      as [Hmm | Hmm];
      destruct (is_valid_foldername (strip (model_new_folder_name cfg)))
        eqn:Hv; cbn [negb andb]; try (cbn; eauto 6);
      exfalso; intuition congruence.
Qed.

(** ** Reaching the copy loop *)

(** Without a configuration error, with at least one planned copy and,
    in file mode, a destination directory that can be made, the call
    runs its copy loop to the end. *)
Lemma copy_loop_is_reached (its : items) (open_destination : bool) (s : fs) :
  ~ detects_config_error cfg its s ->
  planned_copies env cfg its <> [] ->
  (forall l, its = FileItems l ->
             (makedirs (file_mode_target_dir cfg) s).2 = true) ->
  exists total status opened p,
    copy_items env env_copy cfg its open_destination s
    = (Completed total status opened, p).
Proof.
  intros Hno Hplan Hmk. destruct its as [d | l].
  - destruct d as [ | item d]; [ now contradiction Hplan | ].
    cbn [copy_items planned_copies detects_config_error] in *.
    unfold copy_folders.
    destruct (isdir s MODEL_BASE_PATH) eqn:Hm; cbn [negb];
      [ | exfalso; apply Hno; split; [ discriminate | tauto ] ].
    destruct (tissue_files_found_in_selection cfg) eqn:Ht;
      destruct (isdir s TISSUE_BASE_PATH) eqn:Hb; cbn [negb andb];
      try (exfalso; apply Hno; split; [ discriminate | tauto ]);
      (destruct (String.eqb_spec (model_copy_mode cfg) SUBFOLDER_MODE)
         as [Hmm | Hmm];
       destruct (is_valid_foldername (strip (model_new_folder_name cfg)))
         eqn:Hv; cbn [negb andb];
       try (exfalso; apply Hno; split; [ discriminate | tauto ]));
      try (destruct (String.eqb_spec (tissue_copy_mode cfg) SUBFOLDER_MODE)
             as [Htm | Htm];
           destruct (is_valid_foldername (strip (tissue_new_folder_name cfg)))
             eqn:Hw; cbn [negb andb];
           try (exfalso; apply Hno; split; [ discriminate | tauto ]));
      rewrite (scan_pass_planned env cfg);
      (destruct (0 + Z.of_nat (length (planned_folder_copies env cfg (item :: d)))
                 =? 0) eqn:Hz;
       [ apply Z.eqb_eq in Hz;
         destruct (planned_folder_copies env cfg (item :: d));
         [ now contradiction Hplan | cbn in Hz; lia ]
       | unfold finish; eauto ]).
  - destruct l as [ | src l]; [ now contradiction Hplan | ].
    cbn [copy_items planned_copies detects_config_error] in *.
    unfold copy_files.
    change (String.eqb INHOUSE_PRINTING_PATH EmptyString) with false.
    cbn iota.
    destruct (isdir s INHOUSE_PRINTING_PATH) eqn:Hm; cbn [negb];
      [ | exfalso; apply Hno; split; [ discriminate | tauto ] ].
    fold (file_mode_target_dir cfg).
    rewrite (Hmk (src :: l) eq_refl).
    destruct (String.eqb_spec (model_copy_mode cfg) SUBFOLDER_MODE)
      as [Hmm | Hmm];
      destruct (is_valid_foldername (strip (model_new_folder_name cfg)))
        eqn:Hv; cbn [negb andb];
      try (exfalso; apply Hno; split; [ discriminate | tauto ]);
      unfold finish; eauto.
Qed.

(** ** The state a call leaves *)

Lemma run_state (its : items) (open_destination : bool) (s : fs) :
  let r := copy_items env env_copy cfg its open_destination s in
  match r.1 with
  | Completed _ _ _ => p_fs r.2 = (copies_of_run env_copy cfg its s).1
  | DestinationNotCreated =>
      p_fs r.2 = (makedirs (file_mode_target_dir cfg) s).1
      /\ (makedirs (file_mode_target_dir cfg) s).2 = false
  | _ => p_fs r.2 = s
  end.
Proof.
  cbn zeta. destruct its as [d | l].
  - destruct d as [ | item d]; [ reflexivity | ].
    cbn [copy_items copies_of_run planned_copies]. unfold copy_folders.
    repeat match goal with
           | |- context [if ?b then (_, start s) else _] =>
               destruct b; [ reflexivity | ]
           end.
    unfold finish. cbn [fst snd].
    rewrite copy_pass_replay.
    apply attempts_copy_each.
  - destruct l as [ | src l]; [ reflexivity | ].
    cbn [copy_items copies_of_run planned_copies]. unfold copy_files.
    repeat match goal with
           | |- context [if ?b then (_, start s) else _] =>
               destruct b; [ reflexivity | ]
           end.
    fold (file_mode_target_dir cfg).
    destruct (makedirs (file_mode_target_dir cfg) s).2 eqn:Hmk;
      cbn [negb fst snd]; [ | split; reflexivity ].
    unfold finish. cbn [fst snd].
    match goal with
    | |- context [foldl (copy_listed_body ?t) ?p0 ?l0] =>
        exact (proj1 (listed_copy_each t l0 p0))
    end.
Qed.

(** ** Per-file failures *)


End Runs.
End CopyFacts.

(* ===================================================================== *)
(** * When the Exocad rules apply *)
(* ===================================================================== *)

Module OriginFacts.
Import PyStr Analysis Copy OriginRules AnalysisFacts CopyFacts.

Lemma is_exocad_origin_iff (origin_label folder_path : string) :
  is_exocad_origin origin_label folder_path = true
  <-> origin_label = "Exocad"
      /\ startswith folder_path EXOCAD_SOURCE_PATH = true.
Proof.
  unfold is_exocad_origin.
  change (negb (String.eqb EXOCAD_SOURCE_PATH EmptyString)) with true.
  rewrite andb_true_r, andb_true_iff, String.eqb_eq. reflexivity.
Qed.

Lemma is_exocad_origin_outside (origin_label folder_path : string) :
  startswith folder_path EXOCAD_SOURCE_PATH = false ->
  is_exocad_origin origin_label folder_path = false.
Proof.
  intros H. unfold is_exocad_origin. rewrite H. apply andb_false_r.
Qed.

Lemma flag_is_restricted (origin_label folder_path : string) :
  is_exocad_origin origin_label folder_path
  = restricted_origin origin_label folder_path.
Proof.
  unfold is_exocad_origin, restricted_origin.
  change (negb (String.eqb EXOCAD_SOURCE_PATH EmptyString)) with true.
  now rewrite andb_true_r.
Qed.

Lemma tissue_name_under (restricted : bool) (file : string) :
  is_tissue_name restricted (lower file) = tissue_under restricted file.
Proof.
  unfold is_tissue_name, tissue_under. destruct restricted; cbn [andb negb].
  - now destruct (contains_any (lower file) EXOCAD_TISSUE_KEYWORDS).
  - now destruct (contains (lower file) "tissue"
                  || contains (lower file) "gingiva").
Qed.

Lemma copyable_as_filtered (restricted : bool) (file : string) :
  endswith (lower file) ".stl"
  && negb (restricted
           && negb (contains_any (lower file) EXOCAD_ALLOWED_KEYWORDS))
  = copyable_under restricted file.
Proof.
  unfold copyable_under. destruct restricted; cbn [andb negb];
    [ now rewrite negb_involutive | reflexivity ].
Qed.

(** Filtering the files of one directory by name. *)
Lemma filter_in_directory (P : string -> bool) (root : string)
    (files : list string) :
  List.filter (fun rf : string * string => P rf.2)
              (map (fun file => (root, file)) files)
  = map (fun file => (root, file)) (List.filter P files).
Proof.
  induction files as [ | file files IH]; [ reflexivity | ].
  cbn [map List.filter snd]. destruct (P file); cbn [map]; now rewrite IH.
Qed.

Lemma copyable_files_cons (restricted : bool) (t : walk_triple)
    (ts : list walk_triple) :
  copyable_files restricted (t :: ts)
  = map (fun file => (t.1.1, file))
        (List.filter (copyable_under restricted) t.2)
    ++ copyable_files restricted ts.
Proof.
  unfold copyable_files, walk_files. cbn [map concat].
  now rewrite List.filter_app, filter_in_directory.
Qed.

Section WithTarget.
Context {fs : Type} {target : CopyTarget fs}.
Variable env : source_env.
Variable cfg : settings.

(** ** The pre-scan *)

Lemma scan_file_body_under (restricted : bool) (n : Z) (file : string) :
  scan_file_body restricted n file
  = n + (if copyable_under restricted file then 1 else 0).
Proof.
  unfold scan_file_body, copyable_under.
  destruct (endswith (lower file) ".stl"); cbn [andb]; [ | lia ].
  destruct restricted; [ | lia ].
  destruct (contains_any (lower file) EXOCAD_ALLOWED_KEYWORDS); lia.
Qed.

Lemma scan_files_under (restricted : bool) (files : list string) (n : Z) :
  foldl (scan_file_body restricted) n files
  = n + Z.of_nat (length (List.filter (copyable_under restricted) files)).
Proof.
  revert n. induction files as [ | file files IH]; intros n;
    cbn [foldl List.filter]; [ cbn; lia | ].
  rewrite IH, scan_file_body_under.
  destruct (copyable_under restricted file); cbn [length]; lia.
Qed.

Lemma scan_walk_under (restricted : bool) (ts : list walk_triple) (n : Z) :
  foldl (fun n (t : walk_triple) => foldl (scan_file_body restricted) n t.2)
        n ts
  = n + Z.of_nat (length (copyable_files restricted ts)).
Proof.
  revert n. induction ts as [ | t ts IH]; intros n; cbn [foldl].
  - cbn. lia.
  - rewrite IH, scan_files_under, copyable_files_cons, length_app, length_map.
    lia.
Qed.

(** ** The copy pass *)

Lemma planned_of_step_under (restricted : bool) (t : walk_triple) :
  planned_of_step cfg restricted t
  = map (job_under cfg restricted)
        (map (fun file => (t.1.1, file))
             (List.filter (copyable_under restricted) t.2)).
Proof.
  unfold planned_of_step.
  induction (t.2) as [ | file files IH]; [ reflexivity | ].
  cbn [map concat List.filter]. rewrite IH.
  unfold planned_of_file at 1. rewrite copyable_as_filtered.
  destruct (copyable_under restricted file); [ | reflexivity ].
  cbn [map app]. unfold job_under at 2. cbn [fst snd].
  now rewrite tissue_name_under.
Qed.

Lemma planned_walk_under (restricted : bool) (ts : list walk_triple) :
  concat (map (planned_of_step cfg restricted) ts)
  = map (job_under cfg restricted) (copyable_files restricted ts).
Proof.
  induction ts as [ | t ts IH]; [ reflexivity | ].
  cbn [map concat].
  now rewrite IH, planned_of_step_under, copyable_files_cons, map_app.
Qed.

(** ** The analysis *)

Lemma folder_file_body_under (restricted : bool) (root : string)
    (a : analysis) (file : string) :
  total_copy_size_bytes (folder_file_body env restricted root a file)
  = total_copy_size_bytes a
    + (if copyable_under restricted file
       then size_of env (path_join root file) else 0)
  /\ tissue_files_present (folder_file_body env restricted root a file)
     = tissue_files_present a
       || (copyable_under restricted file
           && (stat_ok env (path_join root file)
               && tissue_under restricted file)).
Proof.
  rewrite <- tissue_name_under.
  unfold folder_file_body, copyable_under, size_of, stat_ok.
  destruct (env_getsize env (path_join root file)) as [sz | ];
    destruct (endswith (lower file) ".stl");
    destruct (contains_any (lower file) EXOCAD_ALLOWED_KEYWORDS);
    destruct (contains_any (lower file) MODEL_DISPLAY_SIZE_KEYWORDS);
    destruct (is_tissue_name restricted (lower file));
    destruct restricted; analysis_simpl;
    destruct (tissue_files_present a); split; cbn; lia || reflexivity.
Qed.

Lemma walk_flatten (restricted : bool) (ts : list walk_triple)
    (a : analysis) :
  foldl (fun a (t : walk_triple) =>
           foldl (folder_file_body env restricted t.1.1) a t.2) a ts
  = foldl (fun a (rf : string * string) =>
             folder_file_body env restricted rf.1 a rf.2)
          a (walk_files ts).
Proof.
  unfold walk_files. revert a.
  induction ts as [ | t ts IH]; intros a; cbn [foldl map concat];
    [ reflexivity | ].
  rewrite foldl_app, <- IH. f_equal.
  generalize (t.1.1) as root. intros root. revert a.
  induction (t.2) as [ | file files IHf]; intros a; cbn [foldl map];
    [ reflexivity | ].
  now rewrite IHf.
Qed.

Lemma sum_of_filtered {B : Type} (P : B -> bool) (g : B -> Z) (l : list B) :
  foldr (fun x acc => (if P x then g x else 0) + acc) 0 l
  = foldr (fun x acc => g x + acc) 0 (List.filter P l).
Proof.
  induction l as [ | x l IH]; [ reflexivity | ].
  cbn [foldr List.filter]. destruct (P x); cbn [foldr]; lia.
Qed.

Lemma exists_of_filtered {B : Type} (P q : B -> bool) (l : list B) :
  existsb (fun x => P x && q x) l = existsb q (List.filter P l).
Proof.
  induction l as [ | x l IH]; [ reflexivity | ].
  cbn [existsb List.filter]. destruct (P x); cbn [existsb andb orb];
    now rewrite IH.
Qed.

Lemma analysis_walk_under (restricted : bool) (ts : list walk_triple)
    (a : analysis) :
  total_copy_size_bytes
    (foldl (fun a (t : walk_triple) =>
              foldl (folder_file_body env restricted t.1.1) a t.2) a ts)
  = total_copy_size_bytes a
    + foldr (fun rf acc => size_of env (path_join rf.1 rf.2) + acc) 0
            (copyable_files restricted ts)
  /\ tissue_files_present
       (foldl (fun a (t : walk_triple) =>
                 foldl (folder_file_body env restricted t.1.1) a t.2) a ts)
     = tissue_files_present a
       || existsb (fun rf => stat_ok env (path_join rf.1 rf.2)
                             && tissue_under restricted rf.2)
                  (copyable_files restricted ts).
Proof.
  rewrite walk_flatten. unfold copyable_files. split.
  - rewrite <- (sum_of_filtered
                  (fun rf : string * string => copyable_under restricted rf.2)
                  (fun rf => size_of env (path_join rf.1 rf.2))).
    apply (foldl_adds
             (fun a (rf : string * string) =>
                folder_file_body env restricted rf.1 a rf.2)
             total_copy_size_bytes
             (fun rf => if copyable_under restricted rf.2
                        then size_of env (path_join rf.1 rf.2) else 0)).
    intros a0 rf. apply folder_file_body_under.
  - rewrite <- (exists_of_filtered
                  (fun rf : string * string => copyable_under restricted rf.2)
                  (fun rf => stat_ok env (path_join rf.1 rf.2)
                             && tissue_under restricted rf.2)).
    apply (foldl_raises
             (fun a (rf : string * string) =>
                folder_file_body env restricted rf.1 a rf.2)
             tissue_files_present
             (fun rf => copyable_under restricted rf.2
                        && (stat_ok env (path_join rf.1 rf.2)
                            && tissue_under restricted rf.2))).
    intros a0 rf. apply folder_file_body_under.
Qed.

(** C9.  The Exocad flag of a folder is set exactly when its label is
    Exocad and its path starts with the Exocad source path.  For every
    folder the three loops (analysis, pre-scan, copy pass) follow the
    rules that this test selects: the pre-scan counts, the copy pass
    attempts and the analysis adds up exactly the files of the walk
    that are copyable under them (with the allow-list for a restricted
    folder, every [.stl] file otherwise), and a file is tissue by the
    Exocad tissue keywords for a restricted folder and by the
    tissue/gingiva substring test otherwise.  A folder labelled Exocad
    outside the prefix is not restricted, and is analysed, scanned and
    copied as a Model Material folder at the same path is. *)
Theorem exocad_rules_need_label_and_prefix :
  (forall origin_label folder_path,
      is_exocad_origin origin_label folder_path = true
      <-> origin_label = "Exocad"
          /\ startswith folder_path EXOCAD_SOURCE_PATH = true)
  /\ (forall folder_path,
         startswith folder_path EXOCAD_SOURCE_PATH = false ->
         restricted_origin "Exocad" folder_path = false
         /\ (forall a,
                folder_body env a (folder_path, "Exocad")
                = folder_body env a (folder_path, "Model Material"))
         /\ (forall n,
                scan_folder_body env n (folder_path, "Exocad")
                = scan_folder_body env n (folder_path, "Model Material"))
         /\ (forall p : progress fs,
                copy_folder_body env cfg p (folder_path, "Exocad")
                = copy_folder_body env cfg p (folder_path, "Model Material")))
  /\ (forall folder_path origin_label,
         let restricted := restricted_origin origin_label folder_path in
         let copied := copyable_files restricted (env_walk env folder_path) in
         (forall n,
             scan_folder_body env n (folder_path, origin_label)
             = n + Z.of_nat (length copied))
         /\ (forall p : progress fs,
                copy_folder_body env cfg p (folder_path, origin_label)
                = foldl attempt_job p (map (job_under cfg restricted) copied))
         /\ (forall a,
                env_isdir env folder_path = true ->
                let a' := folder_body env a (folder_path, origin_label) in
                total_copy_size_bytes a'
                = total_copy_size_bytes a
                  + foldr (fun rf acc =>
                             size_of env (path_join rf.1 rf.2) + acc) 0 copied
                /\ tissue_files_present a'
                   = tissue_files_present a
                     || existsb (fun rf =>
                                   stat_ok env (path_join rf.1 rf.2)
                                   && tissue_under restricted rf.2) copied)).
Proof.
  split; [ exact is_exocad_origin_iff | ]. split.
  - intros folder_path Hout.
    pose proof (is_exocad_origin_outside "Exocad" folder_path Hout) as He.
    pose proof (is_exocad_origin_outside "Model Material" folder_path Hout)
      as Hm.
    split; [ | split; [ | split ] ].
    + unfold restricted_origin. rewrite Hout. apply andb_false_r.
    + intros a. unfold folder_body. now rewrite He, Hm.
    + intros n. unfold scan_folder_body. now rewrite He, Hm.
    + intros p. unfold copy_folder_body. now rewrite He, Hm.
  - intros folder_path origin_label. cbn zeta.
    split; [ | split ].
    + intros n. unfold scan_folder_body. rewrite flag_is_restricted.
      apply scan_walk_under.
    + intros p. rewrite copy_folder_body_replay.
      unfold planned_of_folder. cbn [fst snd].
      now rewrite flag_is_restricted, planned_walk_under.
    + intros a Hd. unfold folder_body. rewrite Hd, flag_is_restricted.
      cbn [negb].
      pose proof (analysis_walk_under
                    (restricted_origin origin_label folder_path)
                    (env_walk env folder_path) a) as [Ht Hf].
      destruct (_ && true); analysis_simpl; rewrite walk_fold_fst;
        cbn [fst]; split; assumption.
Qed.

End WithTarget.
End OriginFacts.

(* ===================================================================== *)
(** * Copying onto directories and named files *)
(* ===================================================================== *)

Module StoreFacts.
Import PyStr Copy Store CopyFacts.

(** ** Arrivals at one path *)

Lemma settle_read_only (o : option file_data) (l : list file_data) :
  read_only o = true -> foldl settle o l = o.
Proof.
  intros Ho. induction l as [ | f l IH]; [ reflexivity | ].
  cbn [foldl]. unfold settle at 2. now rewrite Ho.
Qed.

Lemma settle_result_writable (l : list file_data) (o : option file_data) :
  read_only (foldl settle o l) = false ->
  read_only o = false /\ Forall (fun f : file_data => f.2 = false) l.
Proof.
  revert o. induction l as [ | f l IH]; intros o; cbn [foldl].
  - intros H. split; [ exact H | constructor ].
  - intros H. destruct (IH _ H) as [Hs Hl]. unfold settle in Hs.
    destruct (read_only o) eqn:Ho; [ congruence | ].
    split; [ reflexivity | ]. constructor; [ | exact Hl ].
    destruct f as [c [ | ]]; [ discriminate | reflexivity ].
Qed.

Lemma settle_stays_writable (l : list file_data) (o : option file_data) :
  read_only o = false ->
  Forall (fun f : file_data => f.2 = false) l ->
  read_only (foldl settle o l) = false.
Proof.
  revert o. induction l as [ | f l IH]; intros o Ho Hl; [ exact Ho | ].
  inversion Hl as [ | ? ? Hf Hrest]; subst. cbn [foldl]. apply IH;
    [ | exact Hrest ].
  unfold settle. rewrite Ho. destruct f as [c ro]. cbn in Hf. now subst ro.
Qed.

Lemma settle_forgets (l : list file_data) (o o' : option file_data) :
  l <> [] -> read_only o = false -> read_only o' = false ->
  foldl settle o l = foldl settle o' l.
Proof.
  destruct l as [ | f l]; [ congruence | ]. intros _ Ho Ho'.
  cbn [foldl]. unfold settle at 2 4. now rewrite Ho, Ho'.
Qed.

(** Letting the same files arrive again changes nothing. *)
Lemma settle_twice (l : list file_data) (o : option file_data) :
  foldl settle (foldl settle o l) l = foldl settle o l.
Proof.
  destruct (read_only (foldl settle o l)) eqn:Hr.
  - now apply settle_read_only.
  - destruct (settle_result_writable l o Hr) as [Ho _].
    destruct l as [ | f l]; [ reflexivity | ].
    apply settle_forgets; [ discriminate | exact Hr | exact Ho ].
Qed.

Lemma settle_some (l : list file_data) (o : option file_data) :
  is_Some o -> is_Some (foldl settle o l).
Proof.
  revert o. induction l as [ | f l IH]; intros o Ho; [ exact Ho | ].
  cbn [foldl]. apply IH. unfold settle. destruct (read_only o); eauto.
Qed.

Lemma settle_from_nothing (l : list file_data) :
  is_Some (foldl settle None l) <-> l <> [].
Proof.
  destruct l as [ | f l].
  - cbn. split; [ intros [x Hx]; discriminate | congruence ].
  - split; [ discriminate | intros _ ].
    cbn [foldl]. apply settle_some. cbn. eauto.
Qed.

(** What settles is what was there or one of the arrivals. *)
Lemma settle_origin (l : list file_data) (o : option file_data)
    (f : file_data) :
  foldl settle o l = Some f -> o = Some f \/ In f l.
Proof.
  revert o. induction l as [ | g l IH]; intros o; cbn [foldl].
  - now left.
  - intros H. destruct (IH _ H) as [Hs | Hin]; [ | right; now right ].
    unfold settle in Hs. destruct (read_only o); [ now left | ].
    right. left. congruence.
Qed.

Section WithWorld.
Variable w : world.

Lemma arrivals_app (p : string) (l1 l2 : list job) :
  arrivals w p (l1 ++ l2) = arrivals w p l1 ++ arrivals w p l2.
Proof. unfold arrivals. now rewrite map_app, concat_app. Qed.

Lemma arrival_in (p : string) (j : job) (f : file_data) :
  In f (arrival w p j)
  <-> can_copy w j = true /\ job_dst j = p
      /\ readable w (job_src j) = Some f.
Proof.
  unfold arrival.
  destruct (can_copy w j); cbn [andb];
    [ | split; [ intros [] | intros [H _]; discriminate ] ].
  destruct (String.eqb_spec (job_dst j) p) as [Hp | Hp];
    [ | split; [ intros [] | intros [_ [H _]]; contradiction ] ].
  destruct (readable w (job_src j)) as [g | ].
  - split; [ intros [<- | []]; auto | intros [_ [_ [= <-]]]; now left ].
  - split; [ intros [] | intros [_ [_ H]]; discriminate ].
Qed.

Lemma arrivals_in (p : string) (jobs : list job) (f : file_data) :
  In f (arrivals w p jobs)
  <-> exists j, In j jobs /\ can_copy w j = true /\ job_dst j = p
                /\ readable w (job_src j) = Some f.
Proof.
  unfold arrivals. rewrite in_concat. split.
  - intros [l [Hl Hf]]. apply in_map_iff in Hl. destruct Hl as [j [<- Hj]].
    exists j. split; [ exact Hj | now apply arrival_in ].
  - intros [j [Hj H]]. exists (arrival w p j).
    split; [ now apply in_map | now apply arrival_in ].
Qed.

Lemma arrivals_some (p : string) (jobs : list job) :
  arrivals w p jobs <> []
  <-> exists j, In j jobs /\ can_copy w j = true /\ job_dst j = p.
Proof.
  split.
  - destruct (arrivals w p jobs) as [ | f l] eqn:Ha; [ congruence | ].
    intros _. assert (Hin : In f (arrivals w p jobs)) by (rewrite Ha; now left).
    apply arrivals_in in Hin. destruct Hin as [j [Hj [Hc [Hp _]]]]. eauto.
  - intros [j [Hj [Hc Hp]]] Hnil.
    assert (Hr : exists f, readable w (job_src j) = Some f).
    { unfold can_copy in Hc. destruct (readable w (job_src j)); [ eauto | ].
      rewrite andb_false_r in Hc. discriminate. }
    destruct Hr as [f Hr].
    assert (Hin : In f (arrivals w p jobs))
      by (apply arrivals_in; eauto 6).
    rewrite Hnil in Hin. destruct Hin.
Qed.

(** ** One copy on the destination *)

Lemma copy_one_files (with_makedirs : bool) (j : job) (d : disk)
    (p : string) :
  (with_makedirs = false -> mkdir_denied w (job_dir j) = false) ->
  files (copy_one (target := disk_target w) with_makedirs j d).1 !! p
  = foldl settle (files d !! p) (arrival w p j).
Proof.
  intros Hdir.
  assert (Hcopy : forall d0,
             files d0 = files d ->
             mkdir_denied w (job_dir j) = false ->
             files (disk_copy2 w (job_src j) (job_dst j) d0).1 !! p
             = foldl settle (files d !! p) (arrival w p j)).
  { intros d0 Hd0 Hmk. unfold disk_copy2, arrival, can_copy, locked.
    rewrite Hmk.
    destruct (String.eqb (job_src j) (job_dst j)
              || same_file w (job_src j) (job_dst j));
      cbn [negb andb orb fst foldl]; [ now rewrite Hd0 | ].
    destruct (write_denied w (job_dst j));
      destruct (readable w (job_src j)) as [f | ];
      cbn [negb andb orb fst foldl]; try (now rewrite Hd0).
    rewrite Hd0.
    destruct (String.eqb_spec (job_dst j) p) as [Hp | Hp]; cbn [foldl].
    - subst p. unfold settle.
      destruct (read_only (files d !! job_dst j)); cbn [fst];
        [ now rewrite Hd0 | cbn [files]; now rewrite lookup_insert_eq ].
    - destruct (read_only (files d !! job_dst j)); cbn [fst];
        [ now rewrite Hd0 | cbn [files] ].
      now rewrite lookup_insert_ne by exact Hp. }
  unfold copy_one. destruct with_makedirs.
  - cbn [makedirs copy2 disk_target]. unfold disk_makedirs.
    destruct (mkdir_denied w (job_dir j)) eqn:Hmk; cbn [fst snd].
    + unfold arrival, can_copy. rewrite Hmk. reflexivity.
    + apply Hcopy; reflexivity.
  - cbn [copy2 disk_target]. apply Hcopy; [ reflexivity | now apply Hdir ].
Qed.

Lemma copy2_dirs (src dst : string) (d : disk) :
  dirs (disk_copy2 w src dst d).1 = dirs d.
Proof.
  unfold disk_copy2.
  destruct (String.eqb src dst || same_file w src dst); [ reflexivity | ].
  destruct (readable w src); [ | reflexivity ].
  now destruct (write_denied w dst || locked d dst).
Qed.

Lemma copy_one_dirs (with_makedirs : bool) (j : job) (d : disk) :
  dirs (copy_one (target := disk_target w) with_makedirs j d).1
  = if with_makedirs && negb (mkdir_denied w (job_dir j))
    then {[job_dir j]} ∪ dirs d else dirs d.
Proof.
  unfold copy_one. destruct with_makedirs; cbn [andb].
  - cbn [makedirs copy2 disk_target]. unfold disk_makedirs.
    destruct (mkdir_denied w (job_dir j)); cbn [fst snd negb];
      [ reflexivity | ].
    now rewrite copy2_dirs.
  - cbn [copy2 disk_target]. apply copy2_dirs.
Qed.

Lemma made_dirs_cons (j : job) (jobs : list job) :
  made_dirs w (j :: jobs)
  = (if negb (mkdir_denied w (job_dir j)) then {[job_dir j]} else ∅)
    ∪ made_dirs w jobs.
Proof.
  unfold made_dirs. cbn [List.filter].
  destruct (negb (mkdir_denied w (job_dir j))); cbn [map list_to_set];
    [ reflexivity | ].
  now rewrite (left_id_L ∅ (∪)).
Qed.

(** ** The copies in turn *)

Lemma copy_each_files (with_makedirs : bool) (jobs : list job) (d : disk)
    (p : string) :
  (with_makedirs = false ->
   Forall (fun j => mkdir_denied w (job_dir j) = false) jobs) ->
  files (copy_each (target := disk_target w) with_makedirs jobs d).1 !! p
  = foldl settle (files d !! p) (arrivals w p jobs).
Proof.
  revert d. induction jobs as [ | j jobs IH]; intros d Hdir;
    cbn [copy_each fst]; [ reflexivity | ].
  rewrite IH, copy_one_files.
  - change (arrivals w p (j :: jobs))
      with (arrival w p j ++ arrivals w p jobs).
    now rewrite foldl_app.
  - intros Hb. specialize (Hdir Hb). now inversion Hdir.
  - intros Hb. specialize (Hdir Hb). now inversion Hdir.
Qed.

Lemma copy_each_dirs (with_makedirs : bool) (jobs : list job) (d : disk) :
  dirs (copy_each (target := disk_target w) with_makedirs jobs d).1
  = if with_makedirs then made_dirs w jobs ∪ dirs d else dirs d.
Proof.
  revert d. induction jobs as [ | j jobs IH]; intros d; cbn [copy_each fst].
  - destruct with_makedirs; [ | reflexivity ].
    unfold made_dirs. cbn. now rewrite (left_id_L ∅ (∪)).
  - rewrite IH, copy_one_dirs. destruct with_makedirs; cbn [andb];
      [ | reflexivity ].
    rewrite made_dirs_cons.
    destruct (negb (mkdir_denied w (job_dir j))).
    + rewrite (comm_L (∪) {[job_dir j]} (made_dirs w jobs)).
      now rewrite (assoc_L (∪)).
    + now rewrite (left_id_L ∅ (∪)).
Qed.

Lemma made_dirs_listed (target_dir : string) (l : list string) :
  mkdir_denied w target_dir = false -> l <> [] ->
  made_dirs w (map (planned_of_listed target_dir) l) = {[target_dir]}.
Proof.
  intros Hmk Hl. destruct l as [ | src l]; [ congruence | clear Hl ].
  revert src. induction l as [ | src' l IH]; intros src.
  - unfold made_dirs. cbn [map List.filter planned_of_listed job_dir].
    rewrite Hmk. cbn. now rewrite (right_id_L ∅ (∪)).
  - change (map (planned_of_listed target_dir) (src :: src' :: l))
      with (planned_of_listed target_dir src
            :: map (planned_of_listed target_dir) (src' :: l)).
    rewrite made_dirs_cons, IH. cbn [planned_of_listed job_dir].
    rewrite Hmk. cbn [negb]. now rewrite (idemp_L (∪) {[target_dir]}).
Qed.

Variable env env_copy : source_env.
Variable cfg : settings.

(** ** One call *)

Lemma run_unreached (its : items) (d : disk) :
  reaches_copy_loop w env env_copy cfg its d = false ->
  run w env env_copy cfg its d = d.
Proof.
  unfold reaches_copy_loop, run.
  pose proof (run_state (target := disk_target w) env env_copy cfg its
                false d) as Hs.
  cbn zeta in Hs.
  destruct (copy_items env env_copy cfg its false d).1; try discriminate;
    intros _; try exact Hs.
  destruct Hs as [Hs Hmk]. rewrite Hs.
  cbn [makedirs disk_target] in *. unfold disk_makedirs in *.
  destruct (mkdir_denied w (file_mode_target_dir cfg));
    [ reflexivity | discriminate ].
Qed.

(** A file-mode call that reaches its loop has files to copy and could
    make its directory. *)
Lemma reaches_file_mode (l : list string) (d : disk) :
  reaches_copy_loop w env env_copy cfg (FileItems l) d = true ->
  l <> [] /\ mkdir_denied w (file_mode_target_dir cfg) = false.
Proof.
  unfold reaches_copy_loop. destruct l as [ | src l]; [ discriminate | ].
  cbn [copy_items]. unfold copy_files.
  repeat match goal with
         | |- context [if ?b then (_, start d) else _] =>
             destruct b; [ discriminate | ]
         end.
  fold (file_mode_target_dir cfg).
  cbn [makedirs disk_target]. unfold disk_makedirs.
  destruct (mkdir_denied w (file_mode_target_dir cfg)); cbn [fst snd negb];
    [ discriminate | ].
  intros _. split; [ discriminate | reflexivity ].
Qed.

(** A call that reaches its copy loop leaves, at every path, what
    settles there of the planned copies, and the directories made. *)
Lemma run_reached (its : items) (d : disk) :
  reaches_copy_loop w env env_copy cfg its d = true ->
  (forall p,
      files (run w env env_copy cfg its d) !! p
      = foldl settle (files d !! p)
          (arrivals w p (planned_copies env_copy cfg its)))
  /\ dirs (run w env env_copy cfg its d)
     = made_dirs w (planned_copies env_copy cfg its) ∪ dirs d.
Proof.
  intros Hr.
  assert (Hs : run w env env_copy cfg its d
               = (copies_of_run (target := disk_target w) env_copy cfg its d).1).
  { unfold run. unfold reaches_copy_loop in Hr.
    pose proof (run_state (target := disk_target w) env env_copy cfg its
                  false d) as Hs.
    cbn zeta in Hs.
    destruct (copy_items env env_copy cfg its false d).1; try discriminate.
    exact Hs. }
  rewrite Hs. destruct its as [sel | l]; cbn [copies_of_run].
  - split.
    + intros p. apply copy_each_files. discriminate.
    + apply copy_each_dirs.
  - destruct (reaches_file_mode l d Hr) as [Hl Hmk].
    cbn [makedirs disk_target]. unfold disk_makedirs. rewrite Hmk.
    cbn [fst planned_copies]. split.
    + intros p. rewrite copy_each_files; [ reflexivity | ].
      intros _. apply Forall_forall. intros j Hj.
      apply list_elem_of_In, in_map_iff in Hj.
      now destruct Hj as [src [<- _]].
    + rewrite copy_each_dirs. cbn [dirs].
      now rewrite made_dirs_listed.
Qed.

(** More directories do not stop a call that reached its copy loop. *)
Lemma reaches_more_dirs (its : items) (d d' : disk) :
  (forall p, p ∈ dirs d -> p ∈ dirs d') ->
  reaches_copy_loop w env env_copy cfg its d = true ->
  reaches_copy_loop w env env_copy cfg its d' = true.
Proof.
  intros Hsub.
  assert (Hdir : forall p, disk_isdir d p = true -> disk_isdir d' p = true).
  { intros p. unfold disk_isdir. rewrite !bool_decide_eq_true.
    apply Hsub. }
  unfold reaches_copy_loop. destruct its as [l | l].
  - destruct l as [ | item l]; [ discriminate | ].
    cbn [copy_items]. unfold copy_folders. cbn [isdir disk_target].
    destruct (disk_isdir d MODEL_BASE_PATH) eqn:Hm; cbn [negb];
      [ | discriminate ].
    rewrite (Hdir _ Hm). cbn [negb].
    destruct (tissue_files_found_in_selection cfg).
    + destruct (disk_isdir d TISSUE_BASE_PATH) eqn:Ht; cbn [negb andb];
        [ | discriminate ].
      rewrite (Hdir _ Ht). cbn [negb andb].
      repeat match goal with
             | |- context [if ?b then (_, start d) else _] =>
                 destruct b; [ discriminate | ]
             end.
      reflexivity.
    + cbn [negb andb].
      repeat match goal with
             | |- context [if ?b then (_, start d) else _] =>
                 destruct b; [ discriminate | ]
             end.
      reflexivity.
  - destruct l as [ | src l]; [ discriminate | ].
    cbn [copy_items]. unfold copy_files. cbn [isdir disk_target].
    change (String.eqb INHOUSE_PRINTING_PATH EmptyString) with false.
    cbn iota.
    destruct (disk_isdir d INHOUSE_PRINTING_PATH) eqn:Hm; cbn [negb];
      [ | discriminate ].
    rewrite (Hdir _ Hm). cbn [negb].
    repeat match goal with
           | |- context [if ?b then (_, start d) else _] =>
               destruct b; [ discriminate | ]
           end.
    cbn [makedirs disk_target]. unfold disk_makedirs.
    destruct (mkdir_denied w _); cbn [fst snd negb];
      [ discriminate | reflexivity ].
Qed.

Lemma disk_eq (d1 d2 : disk) :
  dirs d1 = dirs d2 -> (forall p, files d1 !! p = files d2 !! p) -> d1 = d2.
Proof.
  destruct d1 as [D1 F1], d2 as [D2 F2]. cbn. intros -> H.
  f_equal. now apply map_eq.
Qed.

Lemma run_twice (its : items) (d : disk) :
  run w env env_copy cfg its (run w env env_copy cfg its d)
  = run w env env_copy cfg its d.
Proof.
  destruct (reaches_copy_loop w env env_copy cfg its d) eqn:Hr.
  - destruct (run_reached its d Hr) as [Hf Hd].
    assert (Hr' : reaches_copy_loop w env env_copy cfg its
                    (run w env env_copy cfg its d) = true).
    { apply (reaches_more_dirs its d); [ | exact Hr ].
      intros p Hp. rewrite Hd. apply elem_of_union. now right. }
    destruct (run_reached its _ Hr') as [Hf' Hd'].
    apply disk_eq.
    + rewrite Hd', Hd, (assoc_L (∪)).
      now rewrite (idemp_L (∪) (made_dirs w _)).
    + intros p. rewrite Hf', Hf. apply settle_twice.
  - now rewrite !(run_unreached its d Hr).
Qed.

(** ** Which paths hold a file *)

Lemma remove_dups_shorter (l : list string) :
  (length (remove_dups l) <= length l)%nat.
Proof.
  induction l as [ | x l IH]; [ reflexivity | ].
  cbn [remove_dups]. destruct (decide_rel elem_of x l); cbn [length]; lia.
Qed.

Lemma remove_dups_same_length (l : list string) :
  length (remove_dups l) = length l -> NoDup l.
Proof.
  induction l as [ | x l IH]; [ intros _; apply NoDup_nil_2 | ].
  cbn [remove_dups]. pose proof (remove_dups_shorter l) as Hle.
  destruct (decide_rel elem_of x l) as [Hin | Hin];
    cbn [length]; intros Hlen; [ lia | ].
  apply NoDup_cons. split; [ exact Hin | apply IH; lia ].
Qed.

Lemma remove_dups_nodup (l : list string) :
  NoDup l -> remove_dups l = l.
Proof.
  induction l as [ | x l IH]; [ reflexivity | ].
  intros Hnd. apply NoDup_cons in Hnd. destruct Hnd as [Hx Hl].
  cbn [remove_dups]. rewrite (IH Hl).
  destruct (decide_rel elem_of x l); [ contradiction | reflexivity ].
Qed.

Lemma filter_all (jobs : list job) :
  length (List.filter (can_copy w) jobs) = length jobs ->
  List.filter (can_copy w) jobs = jobs.
Proof.
  induction jobs as [ | j jobs IH]; [ reflexivity | ].
  cbn [List.filter]. pose proof (List.filter_length_le (can_copy w) jobs).
  destruct (can_copy w j); cbn [length]; intros Hlen; [ | lia ].
  f_equal. apply IH. lia.
Qed.

(** The number of reached paths is the number of copies exactly when
    every copy can succeed and no two share a destination path. *)
Lemma reached_paths_all (jobs : list job) :
  length (reached_paths w jobs) = length jobs
  <-> Forall (fun j => can_copy w j = true) jobs
      /\ NoDup (map job_dst jobs).
Proof.
  unfold reached_paths. split.
  - intros Hlen.
    pose proof (remove_dups_shorter
                  (map job_dst (List.filter (can_copy w) jobs))) as H1.
    pose proof (List.filter_length_le (can_copy w) jobs) as H2.
    rewrite length_map in H1.
    assert (Hall : List.filter (can_copy w) jobs = jobs)
      by (apply filter_all; lia).
    rewrite Hall in Hlen. split.
    + apply Forall_forall. intros j Hj. rewrite <- Hall in Hj.
      apply list_elem_of_In, filter_In in Hj. tauto.
    + apply remove_dups_same_length. now rewrite Hlen, length_map.
  - intros [Hall Hnd].
    assert (Hf : List.filter (can_copy w) jobs = jobs).
    { clear Hnd. induction jobs as [ | j jobs IH]; [ reflexivity | ].
      inversion Hall as [ | ? ? Hj Hrest]; subst.
      cbn [List.filter]. rewrite Hj. f_equal. now apply IH. }
    rewrite Hf, (remove_dups_nodup _ Hnd). apply length_map.
Qed.

Lemma run_file_count (its : items) (d : disk) :
  reaches_copy_loop w env env_copy cfg its d = true ->
  files d = ∅ ->
  file_count (run w env env_copy cfg its d)
  = length (reached_paths w (planned_copies env_copy cfg its)).
Proof.
  intros Hr Hempty. destruct (run_reached its d Hr) as [Hf _].
  unfold file_count. rewrite <- size_dom.
  assert (Hdom : dom (files (run w env env_copy cfg its d))
                 = list_to_set
                     (reached_paths w (planned_copies env_copy cfg its))).
  { apply set_eq. intros p.
    rewrite elem_of_dom, Hf, Hempty, lookup_empty, settle_from_nothing.
    rewrite arrivals_some, elem_of_list_to_set.
    unfold reached_paths.
    rewrite elem_of_remove_dups, list_elem_of_In, in_map_iff. split.
    - intros [j [Hj [Hc Hp]]]. exists j. split; [ exact Hp | ].
      apply filter_In. now split.
    - intros [j [Hp Hj]]. apply filter_In in Hj. destruct Hj as [Hj Hc].
      exists j. repeat split; assumption. }
  rewrite Hdom. apply size_list_to_set. apply NoDup_remove_dups.
Qed.

(** ** Where a planned copy goes *)

Lemma target_dir_for_direct (is_tissue_file : bool) :
  model_copy_mode cfg = DIRECT_MODE ->
  tissue_copy_mode cfg = DIRECT_MODE ->
  target_dir_for cfg is_tissue_file
  = if is_tissue_file then TISSUE_BASE_PATH else MODEL_BASE_PATH.
Proof.
  intros Hm Ht. unfold target_dir_for. rewrite Hm, Ht.
  change (String.eqb DIRECT_MODE SUBFOLDER_MODE) with false.
  destruct is_tissue_file; reflexivity.
Qed.

Lemma planned_folder_copy_shape (d : list (string * string)) (j : job) :
  In j (planned_folder_copies env_copy cfg d) ->
  exists root file is_tissue_file,
    job_src j = path_join root file
    /\ job_dir j = target_dir_for cfg is_tissue_file
    /\ job_dst j = path_join (job_dir j) file.
Proof.
  unfold planned_folder_copies. intros Hin.
  apply in_concat in Hin. destruct Hin as [js [Hjs Hin]].
  apply in_map_iff in Hjs. destruct Hjs as [item [<- _]].
  unfold planned_of_folder in Hin.
  apply in_concat in Hin. destruct Hin as [js [Hjs Hin]].
  apply in_map_iff in Hjs. destruct Hjs as [t [<- _]].
  unfold planned_of_step in Hin.
  apply in_concat in Hin. destruct Hin as [js [Hjs Hin]].
  apply in_map_iff in Hjs. destruct Hjs as [file [<- _]].
  unfold planned_of_file in Hin.
  destruct (endswith (lower file) ".stl" && _); [ | contradiction ].
  destruct Hin as [<- | []].
  exists t.1.1, file,
    (is_tissue_name (is_exocad_origin item.2 item.1) (lower file)).
  repeat split.
Qed.

(** C5 (amended).  On a destination of directories and named files,
    where a copy fails only because its source cannot be read, its
    target directory or destination path is refused, source and
    destination are one file, or the destination path holds a
    read-only file: copying the same source set twice to the same
    destination (the walks and the source files being the same in both
    runs) leaves the destination exactly as the first copy left it, in
    direct mode and in subfolder mode.  Each file goes under its own
    name into the directory of its stream (the model or tissue base in
    direct folder mode).  What a destination path holds after a run is
    what settles there of the copies that can succeed, in their order:
    a copy replaces the file an earlier one wrote unless that file is
    read-only, in which case the file stays and the copy fails; so of
    the copies to one path the last wins when none before it left a
    read-only file, and a read-only one wins when none before it was
    read-only.  After the first run and after the second, a
    destination that held no file holds as many files as there are
    distinct destination paths among the copies that can succeed; that
    is the number of planned copies exactly when every copy can
    succeed and no two share a destination path. *)
Theorem copy_twice_is_copy_once (its : items) (d : disk) :
  let jobs := planned_copies env_copy cfg its in
  let d1 := run w env env_copy cfg its d in
  run w env env_copy cfg its d1 = d1
  /\ (reaches_copy_loop w env env_copy cfg its d = true ->
      forall p,
        files d1 !! p = foldl settle (files d !! p) (arrivals w p jobs))
  /\ (forall jobs1 j jobs2 f,
         reaches_copy_loop w env env_copy cfg its d = true ->
         jobs = jobs1 ++ j :: jobs2 ->
         can_copy w j = true ->
         readable w (job_src j) = Some f ->
         locked d (job_dst j) = false ->
         Forall (fun f' : file_data => f'.2 = false)
                (arrivals w (job_dst j) jobs1) ->
         f.2 = true \/ arrivals w (job_dst j) jobs2 = [] ->
         files d1 !! job_dst j = Some f)
  /\ (forall source_folders_dict j,
         its = FolderItems source_folders_dict ->
         In j jobs ->
         exists root file,
           job_src j = path_join root file
           /\ job_dst j = path_join (job_dir j) file
           /\ (model_copy_mode cfg = DIRECT_MODE ->
               tissue_copy_mode cfg = DIRECT_MODE ->
               job_dir j = MODEL_BASE_PATH \/ job_dir j = TISSUE_BASE_PATH))
  /\ (forall source_file_paths j,
         its = FileItems source_file_paths ->
         In j jobs ->
         job_dir j = file_mode_target_dir cfg
         /\ job_dst j = path_join (job_dir j) (basename (job_src j)))
  /\ (forall src dst d0,
         locked d0 dst = true \/ src = dst ->
         disk_copy2 w src dst d0 = (d0, false))
  /\ (reaches_copy_loop w env env_copy cfg its d = true ->
      files d = ∅ ->
      file_count d1 = length (reached_paths w jobs)
      /\ file_count (run w env env_copy cfg its d1)
         = length (reached_paths w jobs)
      /\ (file_count (run w env env_copy cfg its d1) = length jobs
          <-> Forall (fun j => can_copy w j = true) jobs
              /\ NoDup (map job_dst jobs))).
Proof.
  cbn zeta. split; [ apply run_twice | ].
  split; [ | split; [ | split; [ | split; [ | split ] ] ] ].
  - intros Hr. apply (run_reached its d Hr).
  - intros jobs1 j jobs2 f Hr Hjobs Hc Hf Hfree Hbefore Hafter.
    rewrite (proj1 (run_reached its d Hr)), Hjobs, arrivals_app, foldl_app.
    change (arrivals w (job_dst j) (j :: jobs2))
      with (arrival w (job_dst j) j ++ arrivals w (job_dst j) jobs2).
    rewrite foldl_app.
    assert (Hj : arrival w (job_dst j) j = [f]).
    { unfold arrival. now rewrite Hc, String.eqb_refl, Hf. }
    rewrite Hj. cbn [foldl].
    pose proof (settle_stays_writable _ _ Hfree Hbefore) as Hw.
    unfold settle at 2. unfold locked in Hw. rewrite Hw.
    destruct Hafter as [Hro | Hnone].
    + apply settle_read_only. destruct f as [c ro]. cbn in Hro. now subst ro.
    + now rewrite Hnone.
  - intros source_folders_dict j -> Hin. cbn [planned_copies] in Hin.
    destruct (planned_folder_copy_shape _ _ Hin)
      as [root [file [is_tissue_file [Hsrc [Hdir Hdst]]]]].
    exists root, file. split; [ exact Hsrc | ]. split; [ exact Hdst | ].
    intros Hm Ht. rewrite Hdir, (target_dir_for_direct _ Hm Ht).
    destruct is_tissue_file; [ now right | now left ].
  - intros source_file_paths j -> Hin. cbn [planned_copies] in Hin.
    apply in_map_iff in Hin. destruct Hin as [src [<- _]].
    split; reflexivity.
  - intros src dst d0 H. unfold disk_copy2.
    destruct H as [H | ->].
    + destruct (String.eqb src dst || same_file w src dst); [ reflexivity | ].
      destruct (readable w src); [ | reflexivity ].
      now rewrite H, orb_true_r.
    + now rewrite String.eqb_refl.
  - intros Hr Hempty.
    pose proof (run_file_count its d Hr Hempty) as Hcount.
    split; [ exact Hcount | ].
    rewrite run_twice. split; [ exact Hcount | ].
    rewrite Hcount. apply reached_paths_all.
Qed.

End WithWorld.
End StoreFacts.
(* ===================================================================== *)
(** * The properties on the sample file systems *)
(* ===================================================================== *)

Module Scenarios.
Import PyStr FolderName FormatSize Analysis Copy OriginRules Store Samples.
Import AnalysisFacts CopyFacts OriginFacts StoreFacts.

(** The restricted-origin scenario of the specification: of a note, a
    model without keyword and [model_final.stl], only the last counts
    (here with the gingiva mask of the subfolder). *)
Example exocad_case_analysis :
  (get_recursive_folder_details exocad_env exocad_selection).2
  = {| total_copy_size_bytes := 716800;
       display_model_size_bytes := 512000;
       non_stl_found := true;
       tissue_files_present := true;
       empty_folders_encountered := [] |}.
Proof. vm_compute. reflexivity. Qed.




(** C7, as stated, fails: a note whose size cannot be read is in the
    selected subtree, is no [.stl] file, and leaves the flag clear. *)
Lemma unreadable_non_stl_is_not_flagged :
  map (fun f => isStlFile f.2)
      (files_of_selection locked_env [("D:\cases\A", "Model Material")])
  = [false]
  /\ non_stl_found
       (get_recursive_folder_details locked_env
          [("D:\cases\A", "Model Material")]).2 = false.
Proof. split; vm_compute; reflexivity. Qed.

Lemma non_stl_flag_and_tolerance_witness :
  non_stl_found (get_recursive_folder_details exocad_env exocad_selection).2
  = true
  /\ In "Z:\gone"
        (empty_folders_encountered
           (get_recursive_folder_details exocad_env
              (exocad_selection ++ [("Z:\gone", "Unknown")])).2).
Proof.
  split.
  - apply (proj1 (non_stl_flag_and_tolerance exocad_env exocad_selection)).
    exists (true, path_join exocad_case "notes.txt", "notes.txt").
    split; [ vm_compute; tauto | ].
    split; [ vm_compute; eexists; reflexivity | reflexivity ].
  - apply (proj2 (proj2 (non_stl_flag_and_tolerance exocad_env
                           (exocad_selection ++ [("Z:\gone", "Unknown")])))
             "Z:\gone" "Unknown").
    + vm_compute. tauto.
    + left. reflexivity.
Defined.

(** A subfolder name with a slash stops the copy before it starts. *)
Lemma config_error_leaves_destination_untouched_witness :
  let r := copy_items (target := disk_target open_world) exocad_env
             exocad_env bad_subfolder_cfg (FolderItems exocad_selection)
             true empty_disk in
  (exists e, r.1 = Rejected e)
  /\ p_fs r.2 = empty_disk /\ p_trace r.2 = [] /\ p_attempts r.2 = [].
Proof.
  apply (config_error_leaves_destination_untouched
           (target := disk_target open_world)).
  split; [ discriminate | ].
  right; right; left. split; reflexivity.
Defined.


Example flaky_copy_counts :
  let its := FolderItems exocad_selection in
  let r := copy_items (target := disk_target flaky_world) exocad_env
             exocad_env direct_cfg its false empty_disk in
  r.1 = Completed 2 (CopiedWithErrors 1 1) []
  /\ map at_ok (p_attempts r.2) = [false; true]
  /\ (copies_of_run (target := disk_target flaky_world) exocad_env
        direct_cfg its empty_disk).2 = [false; true]
  /\ error_count r.2 = 1 /\ current_copied_count r.2 = 1.
Proof. vm_compute. repeat split. Qed.

(** C5, as stated, fails: two source files of the same name leave one
    file at the destination, after one run and after two. *)
Lemma twin_files_leave_one_copy :
  let its := FolderItems [(twin_case, "Model Material")] in
  let d1 := run open_world twin_env twin_env direct_cfg its empty_disk in
  length (planned_copies twin_env direct_cfg its) = 2%nat
  /\ file_count (run open_world twin_env twin_env direct_cfg its d1) = 1%nat.
Proof. split; vm_compute; reflexivity. Qed.

(** Of the two files the later one is kept when the sources are
    writable, the earlier one when they are read-only: the second copy
    then fails. *)
Example twin_files_keep_one :
  let its := FolderItems [(twin_case, "Model Material")] in
  let kept := path_join MODEL_BASE_PATH "model.stl" in
  files (run open_world twin_env twin_env direct_cfg its empty_disk) !! kept
  = Some (path_join (path_join twin_case "old") "model.stl", false)
  /\ files (run archive_world twin_env twin_env direct_cfg its empty_disk)
       !! kept
     = Some (path_join twin_case "model.stl", true)
  /\ (copies_of_run (target := disk_target archive_world) twin_env
        direct_cfg its empty_disk).2 = [true; false].
Proof. vm_compute. repeat split. Qed.

(** A file found in the print queue itself cannot be copied onto
    itself: the copy fails and is counted. *)
Example copy_onto_itself_fails :
  let its := FileItems [path_join INHOUSE_PRINTING_PATH "x.stl"] in
  let r := copy_items (target := disk_target open_world) queue_env queue_env
             direct_cfg its false empty_disk in
  r.1 = Completed 1 (CopyFailed 1) []
  /\ p_fs r.2 = empty_disk.
Proof. vm_compute. repeat split. Qed.

Lemma copy_twice_is_copy_once_witness :
  let its := FolderItems exocad_selection in
  let d1 := run open_world exocad_env exocad_env direct_cfg its empty_disk in
  run open_world exocad_env exocad_env direct_cfg its d1 = d1
  /\ file_count (run open_world exocad_env exocad_env direct_cfg its d1)
     = length (planned_copies exocad_env direct_cfg its).
Proof.
  cbn zeta.
  pose proof (copy_twice_is_copy_once open_world exocad_env exocad_env
                direct_cfg (FolderItems exocad_selection) empty_disk)
    as [Hsame [_ [_ [_ [_ [_ Hcount]]]]]].
  split; [ exact Hsame | ].
  destruct (Hcount eq_refl eq_refl) as [_ [_ Hiff]].
  apply Hiff. split.
  - vm_compute. repeat constructor.
  - apply (bool_decide_unpack _). vm_compute. exact I.
Defined.

Lemma exocad_rules_need_label_and_prefix_witness :
  folder_body exocad_env initial ("D:\moved\2025-12345", "Exocad")
  = folder_body exocad_env initial ("D:\moved\2025-12345", "Model Material")
  /\ is_exocad_origin "Exocad" exocad_case = true
  /\ scan_folder_body exocad_env 0 (exocad_case, "Exocad")
     = 0 + Z.of_nat
             (length (copyable_files (restricted_origin "Exocad" exocad_case)
                        (env_walk exocad_env exocad_case))).
Proof.
  pose proof (exocad_rules_need_label_and_prefix
                (target := disk_target open_world) exocad_env direct_cfg)
    as [Hiff [Hout Hrules]].
  split; [ | split ].
  - apply (Hout "D:\moved\2025-12345"). reflexivity.
  - apply Hiff. split; reflexivity.
  - apply (Hrules exocad_case "Exocad").
Defined.

End Scenarios.

(* ===================================================================== *)
(** * More on the string operations *)
(* ===================================================================== *)

Module StringFacts.
Import PyStr.

Lemma append_nil (b : string) : EmptyString +:+ b = b.
Proof. reflexivity. Qed.

Lemma append_cons (x : ascii) (a b : string) :
  String x a +:+ b = String x (a +:+ b).
Proof. reflexivity. Qed.

Lemma append_assoc (a b c : string) : (a +:+ b) +:+ c = a +:+ b +:+ c.
Proof.
  induction a as [ | x a IH]; [ reflexivity | ].
  rewrite !append_cons. f_equal. exact IH.
Qed.

Lemma append_empty_r (a : string) : a +:+ EmptyString = a.
Proof.
  induction a as [ | x a IH]; [ reflexivity | ].
  rewrite append_cons. f_equal. exact IH.
Qed.

Lemma startswith_spec (s p : string) :
  startswith s p = true <-> exists r, s = p +:+ r.
Proof.
  revert s. induction p as [ | a p IH]; intros s.
  - split; [ intros _; now exists s | intros _; destruct s; reflexivity ].
  - destruct s as [ | b s]; cbn [startswith].
    + split; [ discriminate | intros [r Hr]; discriminate ].
    + rewrite andb_true_iff, Ascii.eqb_eq, IH. split.
      * intros [-> [r ->]]. now exists r.
      * intros [r Hr]. injection Hr as -> ->. split; [ reflexivity | now exists r ].
Qed.

Lemma contains_spec (s k : string) :
  contains s k = true <-> exists a b, s = a +:+ k +:+ b.
Proof.
  split.
  - induction s as [ | c s IH]; cbn [contains]; rewrite orb_true_iff.
    + intros [H | H]; [ | discriminate ].
      apply startswith_spec in H. destruct H as [r Hr]. now exists EmptyString, r.
    + intros [H | H].
      * apply startswith_spec in H. destruct H as [r Hr]. now exists EmptyString, r.
      * destruct (IH H) as [a [b ->]]. now exists (String c a), b.
  - intros [a [b ->]]. induction a as [ | c a IH].
    + rewrite ?append_nil, ?append_cons.
      assert (Hs : startswith (k +:+ b) k = true)
        by (apply startswith_spec; now exists b).
      destruct (k +:+ b); cbn [contains]; rewrite Hs; reflexivity.
    + rewrite ?append_nil, ?append_cons; cbn [contains]. rewrite IH. apply orb_true_r.
Qed.

Lemma endswith_spec (s p : string) :
  endswith s p = true <-> exists a, s = a +:+ p.
Proof.
  split.
  - induction s as [ | c s IH]; cbn [endswith]; rewrite orb_true_iff.
    + intros [H | H]; [ | discriminate ].
      apply String.eqb_eq in H. now exists EmptyString.
    + intros [H | H].
      * apply String.eqb_eq in H. now exists EmptyString.
      * destruct (IH H) as [a ->]. now exists (String c a).
  - intros [a ->]. induction a as [ | c a IH].
    + rewrite ?append_nil, ?append_cons. destruct p; cbn [endswith];
        rewrite String.eqb_refl; reflexivity.
    + rewrite ?append_nil, ?append_cons; cbn [endswith]. rewrite IH. apply orb_true_r.
Qed.

(** A substring of a substring is a substring. *)
Lemma contains_trans (s k j : string) :
  contains s k = true -> contains k j = true -> contains s j = true.
Proof.
  intros Hs Hk. apply contains_spec in Hs. destruct Hs as [a [b ->]].
  apply contains_spec in Hk. destruct Hk as [c [d ->]].
  apply contains_spec. exists (a +:+ c), (d +:+ b).
  now rewrite !append_assoc.
Qed.

Lemma contains_empty (s : string) : contains s EmptyString = true.
Proof. apply contains_spec. now exists EmptyString, s. Qed.

Lemma last_char_snoc (d : string) (c : ascii) :
  last_char d = Some c -> exists d', d = d' +:+ String c EmptyString.
Proof.
  induction d as [ | x d IH]; [ discriminate | ].
  destruct d as [ | y d].
  - intros [= ->]. now exists EmptyString.
  - intros H. destruct (IH H) as [d' Hd']. exists (String x d').
    now rewrite append_cons, <- Hd'.
Qed.

(** The joined path begins with the directory. *)
Lemma path_join_startswith (d name : string) :
  startswith (path_join d name) d = true.
Proof.
  apply startswith_spec. unfold path_join.
  destruct (last_char d) as [c | ] eqn:Hl.
  - destruct (is_sep c); eauto.
  - destruct d as [ | x d]; [ now exists name | ].
    exfalso. clear -Hl. revert x Hl.
    induction d as [ | y d IH]; intros x Hl; [ discriminate | ].
    exact (IH y Hl).
Qed.

Lemma basename_after_sep (s name : string) (c : ascii) :
  is_sep c = true ->
  existsb is_sep (list_ascii_of_string name) = false ->
  basename (s +:+ String c name) = name.
Proof.
  intros Hc Hn.
  assert (Hex : forall u,
             existsb is_sep (list_ascii_of_string (u +:+ String c name)) = true).
  { intros u. induction u as [ | y u IHs];
      rewrite ?append_nil, ?append_cons; cbn [list_ascii_of_string existsb].
    - now rewrite Hc.
    - rewrite IHs. apply orb_true_r. }
  induction s as [ | x s IH]; rewrite ?append_nil, ?append_cons;
    cbn [basename].
  - now rewrite Hn, Hc.
  - now rewrite Hex.
Qed.

Lemma basename_plain (name : string) :
  existsb is_sep (list_ascii_of_string name) = false -> basename name = name.
Proof.
  destruct name as [ | c r]; [ reflexivity | ].
  cbn. intros H. apply orb_false_iff in H. destruct H as [Hc Hr].
  now rewrite Hr, Hc.
Qed.

(** Joining a directory and a plain name and taking the base name gives
    the name back. *)
Lemma basename_path_join (d name : string) :
  existsb is_sep (list_ascii_of_string name) = false ->
  basename (path_join d name) = name.
Proof.
  intros Hn. unfold path_join.
  destruct (last_char d) as [c | ] eqn:Hl.
  - destruct (is_sep c) eqn:Hc.
    + destruct (last_char_snoc d c Hl) as [d' ->].
      rewrite append_assoc. rewrite ?append_nil, ?append_cons.
      now apply basename_after_sep.
    + now apply basename_after_sep.
  - now apply basename_plain.
Qed.

End StringFacts.

(* ===================================================================== *)
(** * Properties of the discovery engine *)
(* ===================================================================== *)

Module DiscoveryFacts.
Import PyStr StringFacts Analysis Discovery.

(** A property kept by every step of a left fold holds at its end. *)
Lemma foldl_keeps {A B : Type} (P : A -> Prop) (f : A -> B -> A)
    (l : list B) :
  (forall a x, In x l -> P a -> P (f a x)) ->
  forall a, P a -> P (foldl f a l).
Proof.
  induction l as [ | x l IH]; intros Hf a Ha; [ exact Ha | ].
  cbn [foldl]. apply IH.
  - intros b y Hy. apply Hf. now right.
  - apply Hf; [ now left | exact Ha ].
Qed.

Section WithScan.
Variable env : scan_env.

Lemma scan_fold_in (root_dir term_lower : string) (entries : list dir_entry)
    (acc : list (string * string)) (f : string * string) :
  In f (foldl (scan_entry_body root_dir term_lower) acc entries)
  <-> In f acc
      \/ exists e, In e entries
                   /\ entry_is_dir e = Some true
                   /\ contains (lower (entry_name e)) term_lower = true
                   /\ f = (entry_name e, path_join root_dir (entry_name e)).
Proof.
  revert acc. induction entries as [ | e entries IH]; intros acc; cbn [foldl].
  - split; [ now left | intros [H | [e [[] _]]]; exact H ].
  - rewrite IH. unfold scan_entry_body. split.
    + intros [H | [e' [Hin H]]].
      * destruct (contains (lower (entry_name e)) term_lower) eqn:Hc;
          [ | now left ].
        destruct (entry_is_dir e) as [[] | ] eqn:Hd; try now left.
        apply in_app_or in H. destruct H as [H | [<- | []]]; [ now left | ].
        right. exists e. repeat split; [ now left | exact Hd | exact Hc ].
      * right. exists e'. split; [ now right | exact H ].
    + intros [H | [e' [[<- | Hin] H]]].
      * left. destruct (contains (lower (entry_name e)) term_lower);
          [ | exact H ].
        destruct (entry_is_dir e) as [[] | ]; try exact H.
        apply in_or_app. now left.
      * destruct H as [Hd [Hc ->]]. left. rewrite Hc, Hd.
        apply in_or_app. right. now left.
      * right. exists e'. split; [ exact Hin | exact H ].
Qed.

Lemma search_top_level_folders_in (root_dir search_term : string)
    (f : string * string) :
  In f (search_top_level_folders env root_dir search_term)
  <-> scan_isdir env root_dir = true
      /\ listing_raises (scan_listing env root_dir) = false
      /\ exists e, In e (listed (scan_listing env root_dir))
                   /\ entry_is_dir e = Some true
                   /\ contains (lower (entry_name e)) (lower search_term) = true
                   /\ f = (entry_name e, path_join root_dir (entry_name e)).
Proof.
  unfold search_top_level_folders.
  destruct (scan_isdir env root_dir); cbn [negb];
    [ | split; [ intros [] | intros [H _]; discriminate ] ].
  destruct (listing_raises (scan_listing env root_dir));
    [ split; [ intros [] | intros [_ [H _]]; discriminate ] | ].
  rewrite scan_fold_in. split.
  - intros [[] | H]. repeat split. exact H.
  - intros [_ [_ H]]. now right.
Qed.

(** X1.  [search_top_level_folders] returns exactly the entries of the
    root that are directories and whose name contains the term, both
    lowered, each with its joined path: nothing when the root is no
    directory, nothing at all when the listing raises (the folders found
    before the error are dropped), and an entry whose [is_dir] raises is
    passed over. *)
Theorem search_top_level_folders_finds (root_dir search_term : string)
    (folder_name folder_path : string) :
  In (folder_name, folder_path)
     (search_top_level_folders env root_dir search_term)
  <-> scan_isdir env root_dir = true
      /\ listing_raises (scan_listing env root_dir) = false
      /\ In {| entry_name := folder_name; entry_is_dir := Some true |}
            (listed (scan_listing env root_dir))
      /\ contains (lower folder_name) (lower search_term) = true
      /\ folder_path = path_join root_dir folder_name.
Proof.
  rewrite search_top_level_folders_in. split.
  - intros [Hd [Hr [e [Hin [Hdir [Hc Hf]]]]]].
    injection Hf as -> ->. destruct e as [n k]. cbn in *. subst k.
    repeat split; assumption.
  - intros [Hd [Hr [Hin [Hc ->]]]]. repeat split; try assumption.
    exists {| entry_name := folder_name; entry_is_dir := Some true |}.
    repeat split; assumption.
Qed.

(** X2.  The folder search depends on the term only through its
    lowered form: two terms that lower to the same string find the
    same folders.  A term whose lowered form contains that of another
    finds no folder the other does not find, and the empty term finds
    every folder any term finds. *)
Theorem search_top_level_folders_narrows (root_dir : string) :
  (forall term term',
      lower term = lower term' ->
      search_top_level_folders env root_dir term
      = search_top_level_folders env root_dir term')
  /\ (forall wide narrow f,
         contains (lower narrow) (lower wide) = true ->
         In f (search_top_level_folders env root_dir narrow) ->
         In f (search_top_level_folders env root_dir wide))
  /\ (forall search_term f,
         In f (search_top_level_folders env root_dir search_term) ->
         In f (search_top_level_folders env root_dir EmptyString)).
Proof.
  assert (Hnarrow : forall wide narrow f,
             contains (lower narrow) (lower wide) = true ->
             In f (search_top_level_folders env root_dir narrow) ->
             In f (search_top_level_folders env root_dir wide)).
  { intros wide narrow f Hsub Hin.
    apply search_top_level_folders_in in Hin.
    destruct Hin as [Hd [Hr [e [Hin [Hdir [Hc Hf]]]]]].
    apply search_top_level_folders_in. repeat split; try assumption.
    exists e. repeat split; try assumption.
    exact (contains_trans _ _ _ Hc Hsub). }
  split; [ | split ].
  - intros term term' Hsame. unfold search_top_level_folders.
    now rewrite Hsame.
  - exact Hnarrow.
  - intros search_term f. apply Hnarrow. apply contains_empty.
Qed.

End WithScan.

Section WithEnv.
Variable env : source_env.

Lemma search_file_fold_in (terms_lower : list string) (root : string)
    (files : list string) (acc : list string) (path : string) :
  In path (foldl (search_file_body terms_lower root) acc files)
  <-> In path acc
      \/ exists file, In file files
                      /\ endswith (lower file) ".stl" = true
                      /\ contains_any (lower file) terms_lower = true
                      /\ path = path_join root file.
Proof.
  revert acc. induction files as [ | x files IH]; intros acc; cbn [foldl].
  - split; [ now left | intros [H | [x [[] _]]]; exact H ].
  - rewrite IH. unfold search_file_body. split.
    + intros [H | [y [Hin H]]].
      * destruct (endswith (lower x) ".stl") eqn:Hs; [ | now left ].
        destruct (contains_any (lower x) terms_lower) eqn:Hc; [ | now left ].
        apply in_app_or in H. destruct H as [H | [<- | []]]; [ now left | ].
        right. exists x. repeat split; [ now left | exact Hs | exact Hc ].
      * right. exists y. split; [ now right | exact H ].
    + intros [H | [y [[<- | Hin] H]]].
      * left. destruct (endswith (lower x) ".stl"); [ | exact H ].
        destruct (contains_any (lower x) terms_lower); [ | exact H ].
        apply in_or_app. now left.
      * destruct H as [Hs [Hc ->]]. left. rewrite Hs, Hc.
        apply in_or_app. right. now left.
      * right. exists y. split; [ exact Hin | exact H ].
Qed.

Lemma search_walk_fold_in (terms_lower : list string) (ts : list walk_triple)
    (acc : list string) (path : string) :
  In path (foldl (fun found (t : walk_triple) =>
                    foldl (search_file_body terms_lower t.1.1) found t.2)
                 acc ts)
  <-> In path acc
      \/ exists t file, In t ts /\ In file t.2
                        /\ endswith (lower file) ".stl" = true
                        /\ contains_any (lower file) terms_lower = true
                        /\ path = path_join t.1.1 file.
Proof.
  revert acc. induction ts as [ | t ts IH]; intros acc; cbn [foldl].
  - split; [ now left | intros [H | [t [file [[] _]]]]; exact H ].
  - rewrite IH, search_file_fold_in. split.
    + intros [[H | [file [Hin H]]] | [t' [file [Hin H]]]].
      * now left.
      * right. exists t, file. split; [ now left | ]. split; assumption.
      * right. exists t', file. split; [ now right | exact H ].
    + intros [H | [t' [file [[<- | Hin] [Hf H]]]]].
      * left. now left.
      * left. right. exists file. split; assumption.
      * right. exists t', file. repeat split; try assumption; apply H.
Qed.

Lemma search_files_recursively_in (root_dir : string)
    (search_terms : list string) (path : string) :
  In path (search_files_recursively env root_dir search_terms)
  <-> search_terms <> []
      /\ env_isdir env root_dir = true
      /\ exists t file, In t (env_walk env root_dir) /\ In file t.2
                        /\ endswith (lower file) ".stl" = true
                        /\ contains_any (lower file) (map lower search_terms)
                           = true
                        /\ path = path_join t.1.1 file.
Proof.
  unfold search_files_recursively.
  destruct search_terms as [ | term terms]; cbn [orb].
  - split; [ intros [] | intros [H _]; now contradiction H ].
  - destruct (env_isdir env root_dir); cbn [negb].
    + rewrite search_walk_fold_in. split.
      * intros [[] | H]. repeat split; [ discriminate | exact H ].
      * intros [_ [_ H]]. now right.
    + split; [ intros [] | intros [_ [H _]]; discriminate ].
Qed.

(** X3.  [search_files_recursively] returns exactly the joined paths of
    the walked files whose lowered name ends in .stl and contains at
    least one lowered term; with no term, or a root that is no
    directory, it returns nothing. *)
Theorem search_files_recursively_finds (root_dir : string)
    (search_terms : list string) (path : string) :
  In path (search_files_recursively env root_dir search_terms)
  <-> search_terms <> []
      /\ env_isdir env root_dir = true
      /\ exists t file term,
           In t (env_walk env root_dir) /\ In file t.2
           /\ In term search_terms
           /\ endswith (lower file) ".stl" = true
           /\ contains (lower file) (lower term) = true
           /\ path = path_join t.1.1 file.
Proof.
  rewrite search_files_recursively_in. split.
  - intros [Hne [Hd [t [file [Ht [Hf [Hs [Hc ->]]]]]]]].
    split; [ exact Hne | ]. split; [ exact Hd | ].
    unfold contains_any in Hc. apply existsb_exists in Hc.
    destruct Hc as [k [Hk Hc]]. apply in_map_iff in Hk.
    destruct Hk as [term [<- Hterm]].
    exists t, file, term. repeat split; assumption.
  - intros [Hne [Hd [t [file [term [Ht [Hf [Hterm [Hs [Hc ->]]]]]]]]]].
    split; [ exact Hne | ]. split; [ exact Hd | ].
    exists t, file. repeat split; try assumption.
    unfold contains_any. apply existsb_exists. exists (lower term).
    split; [ now apply in_map | exact Hc ].
Qed.

End WithEnv.
End DiscoveryFacts.

(* ===================================================================== *)
(** * From the search to the analysis *)
(* ===================================================================== *)

Module FlowFacts.
Import PyStr StringFacts Analysis Discovery DiscoveryFacts.

Lemma origin_label_exocad (root_dir : string) :
  origin_label_of root_dir = "Exocad" -> root_dir = EXOCAD_SOURCE_PATH.
Proof.
  unfold origin_label_of, PREDEFINED_PATHS. cbn [List.find snd fst].
  destruct (String.eqb_spec PATH_MODEL_MATERIAL root_dir); [ discriminate | ].
  destruct (String.eqb_spec EXOCAD_SOURCE_PATH root_dir); [ now intros _ | ].
  destruct (String.eqb_spec INHOUSE_PRINTING_PATH root_dir); discriminate.
Qed.

Section WithScan.
Variable env : scan_env.

Lemma find_folders_found_by (selected_search_paths search_terms : list string)
    (folder_path folder_name origin_label : string) :
  find_folders env selected_search_paths search_terms !! folder_path
  = Some (folder_name, origin_label) ->
  found_by env selected_search_paths search_terms
           folder_path folder_name origin_label.
Proof.
  unfold find_folders.
  set (P := fun m : gmap string (string * string) =>
              forall path name label,
                m !! path = Some (name, label) ->
                found_by env selected_search_paths search_terms
                         path name label).
  assert (HP : P (foldl (find_in_root env search_terms) ∅
                        selected_search_paths)).
  { apply foldl_keeps.
    - intros m root_dir Hroot Hm. unfold find_in_root.
      apply foldl_keeps; [ | exact Hm ].
      intros m1 search_term Hterm Hm1.
      apply foldl_keeps; [ | exact Hm1 ].
      intros m2 [name path] Hf Hm2 path' name' label'.
      unfold add_found. cbn [fst snd].
      destruct (m2 !! path) eqn:Hl; [ apply Hm2 | ].
      rewrite lookup_insert. case_decide as Heq.
      + intros [= <- <-]. subst path'.
        exists root_dir, search_term. repeat split; assumption.
      + apply Hm2.
    - intros path name label Hl. rewrite lookup_empty in Hl. discriminate. }
  apply HP.
Qed.

(** X4.  Every entry of the dictionary of found folders was returned by
    the folder search for a selected root and an entered term; its path
    is the root joined with its name and its label is the root's.  For
    such a folder the Exocad rules apply exactly when its label is
    Exocad: the path test of the analysis and copy engines then always
    succeeds. *)
Theorem found_folders_are_under_their_root
    (selected_search_paths search_terms : list string)
    (folder_path folder_name origin_label : string) :
  find_folders env selected_search_paths search_terms !! folder_path
  = Some (folder_name, origin_label) ->
  (exists root_dir search_term,
      In root_dir selected_search_paths
      /\ In search_term search_terms
      /\ origin_label = origin_label_of root_dir
      /\ folder_path = path_join root_dir folder_name
      /\ contains (lower folder_name) (lower search_term) = true)
  /\ (is_exocad_origin origin_label folder_path = true
      <-> origin_label = "Exocad").
Proof.
  intros Hl. apply find_folders_found_by in Hl.
  destruct Hl as [root_dir [search_term [Hroot [Hterm [Hlabel Hin]]]]].
  apply search_top_level_folders_in in Hin.
  destruct Hin as [_ [_ [e [_ [_ [Hc Hf]]]]]].
  injection Hf as Hn Hp. subst folder_name.
  split.
  - exists root_dir, search_term. repeat split; assumption.
  - unfold is_exocad_origin.
    change (negb (String.eqb EXOCAD_SOURCE_PATH EmptyString)) with true.
    rewrite andb_true_r, andb_true_iff, String.eqb_eq. split; [ tauto | ].
    intros Hexo. split; [ exact Hexo | ].
    rewrite Hexo in Hlabel. symmetry in Hlabel.
    apply origin_label_exocad in Hlabel. subst root_dir folder_path.
    apply path_join_startswith.
Qed.

End WithScan.

Section WithEnv.
Variable env : source_env.

(** ** The analysis of a list of files *)

Lemma file_body_total (a : analysis) (file_path : string) :
  total_copy_size_bytes (file_body env a file_path)
  = total_copy_size_bytes a + size_of env file_path.
Proof.
  unfold file_body, size_of.
  destruct (env_getsize env file_path) as [sz | ]; cbn [default from_option id];
    [ | lia ].
  destruct (negb (endswith (lower (basename file_path)) ".stl"));
    [ reflexivity | ].
  destruct (contains_any _ MODEL_DISPLAY_SIZE_KEYWORDS);
    destruct (contains _ "tissue" || contains _ "gingiva"); reflexivity.
Qed.

Lemma file_body_non_stl (a : analysis) (file_path : string) :
  non_stl_found (file_body env a file_path)
  = non_stl_found a
    || (stat_ok env file_path
        && negb (endswith (lower (basename file_path)) ".stl")).
Proof.
  unfold file_body, stat_ok.
  destruct (env_getsize env file_path) as [sz | ]; cbn [andb];
    [ | now rewrite orb_false_r ].
  destruct (endswith (lower (basename file_path)) ".stl"); cbn [negb].
  - destruct (contains_any _ MODEL_DISPLAY_SIZE_KEYWORDS);
      destruct (contains _ "tissue" || contains _ "gingiva");
      cbn; now rewrite orb_false_r.
  - cbn. now rewrite orb_true_r.
Qed.

(** X5.  [get_file_details] adds the size of every listed file whose
    size can be read to the total, whatever its extension (a file that
    cannot be read adds nothing), returns the list it was given and no
    empty folder, and sets the non-STL flag exactly when a readable
    listed file has a base name that does not end in .stl. *)
Theorem get_file_details_totals (file_paths : list string) :
  (get_file_details env file_paths).1 = file_paths
  /\ total_copy_size_bytes (get_file_details env file_paths).2
     = foldr (fun p acc => size_of env p + acc) 0 file_paths
  /\ (non_stl_found (get_file_details env file_paths).2 = true
      <-> exists p, In p file_paths
                    /\ is_Some (env_getsize env p)
                    /\ endswith (lower (basename p)) ".stl" = false)
  /\ empty_folders_encountered (get_file_details env file_paths).2 = [].
Proof.
  unfold get_file_details. cbn [fst snd].
  split; [ reflexivity | ]. split; [ | split ].
  - rewrite (AnalysisFacts.foldl_adds _ total_copy_size_bytes (size_of env)).
    + reflexivity.
    + apply file_body_total.
  - rewrite (AnalysisFacts.foldl_raises _ non_stl_found
               (fun p => stat_ok env p
                         && negb (endswith (lower (basename p)) ".stl"))).
    + cbn [initial non_stl_found orb]. rewrite existsb_exists.
      unfold stat_ok.
      split; intros [p [Hin Hp]]; exists p; (split; [ exact Hin | ]).
      * apply andb_true_iff in Hp. destruct Hp as [Hs Hn].
        destruct (env_getsize env p); [ | discriminate ].
        split; [ eauto | now apply negb_true_iff ].
      * destruct Hp as [[sz Hs] Hn]. now rewrite Hs, Hn.
    + apply file_body_non_stl.
  - apply (foldl_keeps (fun a => empty_folders_encountered a = []));
      [ | reflexivity ].
    intros a p _ Ha. unfold file_body.
    destruct (env_getsize env p); [ | exact Ha ].
    destruct (negb (endswith (lower (basename p)) ".stl")); [ exact Ha | ].
    destruct (contains_any _ MODEL_DISPLAY_SIZE_KEYWORDS);
      destruct (contains _ "tissue" || contains _ "gingiva"); exact Ha.
Qed.

(** X6.  The files found by [search_files_recursively], whose names the
    walk lists without a path separator, never set the non-STL flag of
    [get_file_details]: the base name of each found path is the walked
    name, which ends in .stl. *)
Theorem searched_files_are_all_stl (root_dir : string)
    (search_terms : list string) :
  (forall t file, In t (env_walk env root_dir) -> In file t.2 ->
                  plain_name file) ->
  (forall path,
      In path (search_files_recursively env root_dir search_terms) ->
      endswith (lower (basename path)) ".stl" = true)
  /\ non_stl_found
       (get_file_details env
          (search_files_recursively env root_dir search_terms)).2 = false.
Proof.
  intros Hplain.
  assert (Hstl : forall path,
             In path (search_files_recursively env root_dir search_terms) ->
             endswith (lower (basename path)) ".stl" = true).
  { intros path Hin. apply search_files_recursively_in in Hin.
    destruct Hin as [_ [_ [t [file [Ht [Hf [Hs [_ ->]]]]]]]].
    rewrite basename_path_join; [ exact Hs | ].
    exact (Hplain t file Ht Hf). }
  split; [ exact Hstl | ].
  unfold get_file_details. cbn [snd].
  rewrite (AnalysisFacts.foldl_raises _ non_stl_found
             (fun p => stat_ok env p
                       && negb (endswith (lower (basename p)) ".stl"))).
  - cbn [initial non_stl_found orb].
    destruct (existsb _ _) eqn:Hex; [ | reflexivity ].
    apply existsb_exists in Hex. destruct Hex as [p [Hin Hp]].
    apply andb_true_iff in Hp. destruct Hp as [_ Hn].
    rewrite (Hstl p Hin) in Hn. discriminate.
  - apply file_body_non_stl.
Qed.

End WithEnv.
End FlowFacts.

(* ===================================================================== *)
(** * More on the analysis engine *)
(* ===================================================================== *)

Module AnalysisMore.
Import PyStr StringFacts Analysis AnalysisFacts Discovery DiscoveryFacts.
Import Copy Readings.

Lemma foldr_add_app {B : Type} (g : B -> Z) (l1 l2 : list B) :
  foldr (fun x acc => g x + acc) 0 (l1 ++ l2)
  = foldr (fun x acc => g x + acc) 0 l1 + foldr (fun x acc => g x + acc) 0 l2.
Proof. induction l1 as [ | x l1 IH]; cbn; [ reflexivity | rewrite IH; lia ]. Qed.

Section WithEnv.
Variable env : source_env.

(** ** Membership in the selected files *)

Lemma files_of_selection_in (sel : list (string * string))
    (f : bool * string * string) :
  In f (files_of_selection env sel)
  <-> exists item t file,
        In item sel /\ env_isdir env item.1 = true
        /\ In t (env_walk env item.1) /\ In file t.2
        /\ f = (is_exocad_origin item.2 item.1, path_join t.1.1 file, file).
Proof.
  unfold files_of_selection. rewrite in_concat. split.
  - intros [fs [Hfs Hin]]. apply in_map_iff in Hfs.
    destruct Hfs as [item [<- Hitem]]. unfold files_of_folder in Hin.
    destruct (env_isdir env item.1) eqn:Hd; [ | contradiction ].
    apply in_concat in Hin. destruct Hin as [gs [Hgs Hin]].
    apply in_map_iff in Hgs. destruct Hgs as [t [<- Ht]].
    unfold step_files in Hin. apply in_map_iff in Hin.
    destruct Hin as [file [<- Hfile]].
    exists item, t, file. repeat split; assumption.
  - intros [item [t [file [Hitem [Hd [Ht [Hfile ->]]]]]]].
    exists (files_of_folder env item). split; [ now apply in_map | ].
    unfold files_of_folder. rewrite Hd. apply in_concat.
    exists (step_files (is_exocad_origin item.2 item.1) t).
    split; [ now apply in_map | ].
    unfold step_files. apply in_map_iff. now exists file.
Qed.

(** ** A flag raised file by file *)

Section Flag.
Variable proj : analysis -> bool.
Variable g : bool * string * string -> bool.
Hypothesis proj_file :
  forall exo root a file,
    proj (folder_file_body env exo root a file)
    = proj a || g (exo, path_join root file, file).
Hypothesis proj_add_empty : forall p a, proj (add_empty p a) = proj a.

Lemma flag_walk_fold (exo : bool) (ts : list walk_triple) (a : analysis) :
  proj (foldl (fun a (t : walk_triple) =>
                 foldl (folder_file_body env exo t.1.1) a t.2) a ts)
  = proj a || existsb g (concat (map (step_files exo) ts)).
Proof.
  revert a. induction ts as [ | t ts IH]; intros a; cbn [foldl map concat].
  - cbn. now rewrite orb_false_r.
  - rewrite IH, existsb_app, orb_assoc. f_equal.
    rewrite (foldl_raises _ proj
               (fun file => g (exo, path_join t.1.1 file, file))).
    + f_equal. unfold step_files.
      induction (t.2) as [ | x l IHl]; cbn; [ reflexivity | ].
      now rewrite IHl.
    + intros. apply proj_file.
Qed.

Lemma flag_folder_body (a : analysis) (item : string * string) :
  proj (folder_body env a item)
  = proj a || existsb g (files_of_folder env item).
Proof.
  destruct item as [p l]. unfold folder_body.
  destruct (env_isdir env p) eqn:Hd; cbn [negb].
  - rewrite (files_of_folder_dir env p l Hd), <- flag_walk_fold.
    rewrite <- (walk_fold_fst env _ _ (a, 0)).
    destruct (_ && true); [ apply proj_add_empty | reflexivity ].
  - rewrite (files_of_folder_nodir env p l Hd), proj_add_empty. cbn.
    now rewrite orb_false_r.
Qed.

Lemma flag_selection_fold (sel : list (string * string)) (a : analysis) :
  proj (foldl (folder_body env) a sel)
  = proj a || existsb g (files_of_selection env sel).
Proof.
  revert a. unfold files_of_selection.
  induction sel as [ | item sel IH]; intros a; cbn [foldl map concat].
  - cbn. now rewrite orb_false_r.
  - rewrite IH, flag_folder_body, existsb_app, orb_assoc. reflexivity.
Qed.

End Flag.

Lemma folder_file_body_tissue (exo : bool) (root : string)
    (a : analysis) (file : string) :
  tissue_files_present (folder_file_body env exo root a file)
  = tissue_files_present a
    || visible_tissue env (exo, path_join root file, file).
Proof.
  unfold folder_file_body, visible_tissue, stat_ok, isStlFile,
    isAllowedForOrigin.
  cbn [fst snd].
  change (existsb (fun k => contains (lower file) k) EXOCAD_ALLOWED_KEYWORDS)
    with (contains_any (lower file) EXOCAD_ALLOWED_KEYWORDS).
  destruct (env_getsize env (path_join root file)) as [sz | ];
    destruct (endswith (lower file) ".stl");
    destruct (contains_any (lower file) EXOCAD_ALLOWED_KEYWORDS);
    destruct (contains_any (lower file) MODEL_DISPLAY_SIZE_KEYWORDS);
    (destruct exo;
     [ destruct (is_tissue_name true (lower file))
     | destruct (is_tissue_name false (lower file)) ]);
    analysis_simpl; destruct (tissue_files_present a); reflexivity.
Qed.

Lemma tissue_flag_of_selection (sel : list (string * string)) :
  tissue_files_present (get_recursive_folder_details env sel).2
  = existsb (visible_tissue env) (files_of_selection env sel).
Proof.
  unfold get_recursive_folder_details. cbn [snd tissue_files_present].
  rewrite (flag_selection_fold tissue_files_present (visible_tissue env)).
  - reflexivity.
  - apply folder_file_body_tissue.
  - reflexivity.
Qed.

(** ** Display size against total size *)

(** X7.  Where no file size is negative, the display model size of
    both analyses lies between 0 and the total copy size. *)
Theorem display_size_within_total :
  (forall path sz, env_getsize env path = Some sz -> 0 <= sz) ->
  (forall sel,
      0 <= display_model_size_bytes (get_recursive_folder_details env sel).2
        <= total_copy_size_bytes (get_recursive_folder_details env sel).2)
  /\ (forall file_paths,
         0 <= display_model_size_bytes (get_file_details env file_paths).2
           <= total_copy_size_bytes (get_file_details env file_paths).2).
Proof.
  intros Hpos.
  set (P := fun a : analysis =>
              0 <= display_model_size_bytes a <= total_copy_size_bytes a).
  assert (Hfile : forall exo root a file,
             P a -> P (folder_file_body env exo root a file)).
  { intros exo root a file Ha. unfold P, folder_file_body in *.
    destruct (env_getsize env (path_join root file)) as [sz | ] eqn:Hs;
      [ | exact Ha ].
    specialize (Hpos _ _ Hs).
    destruct (endswith (lower file) ".stl");
      destruct (contains_any (lower file) EXOCAD_ALLOWED_KEYWORDS);
      destruct (contains_any (lower file) MODEL_DISPLAY_SIZE_KEYWORDS);
      (destruct exo;
       [ destruct (is_tissue_name true (lower file))
       | destruct (is_tissue_name false (lower file)) ]);
      analysis_simpl; lia. }
  split.
  - intros sel. unfold get_recursive_folder_details.
    cbn [snd display_model_size_bytes total_copy_size_bytes].
    apply (foldl_keeps P); [ | unfold P; cbn; lia ].
    intros a [p l] _ Ha. unfold folder_body.
    destruct (env_isdir env p); cbn [negb]; [ | exact Ha ].
    assert (Hw : P (foldl (walk_body env (is_exocad_origin l p)) (a, 0)
                          (env_walk env p)).1).
    { rewrite walk_fold_fst. cbn [fst].
      apply (foldl_keeps P); [ | exact Ha ].
      intros b t _ Hb. apply (foldl_keeps P); [ | exact Hb ].
      intros c file _ Hc. now apply Hfile. }
    destruct (_ && true); exact Hw.
  - intros file_paths. unfold get_file_details. cbn [snd].
    apply (foldl_keeps P); [ | unfold P; cbn; lia ].
    intros a p _ Ha. unfold P, file_body in *.
    destruct (env_getsize env p) as [sz | ] eqn:Hs; [ | exact Ha ].
    specialize (Hpos _ _ Hs).
    destruct (negb (endswith (lower (basename p)) ".stl"));
      [ analysis_simpl; lia | ].
    destruct (contains_any _ MODEL_DISPLAY_SIZE_KEYWORDS);
      destruct (contains _ "tissue" || contains _ "gingiva");
      analysis_simpl; lia.
Qed.

(** ** The folders reported as empty *)

Lemma walk_fold_items_grow (exo : bool) (ts : list walk_triple)
    (st : analysis * Z) :
  st.2 <= (foldl (walk_body env exo) st ts).2
  /\ ((foldl (walk_body env exo) st ts).2 = st.2 -> lists_nothing ts).
Proof.
  revert st. induction ts as [ | [[root ds] fs] ts IH]; intros st;
    cbn [foldl].
  - split; [ lia | intros _ t [] ].
  - destruct (IH (walk_body env exo st (root, ds, fs))) as [Hle Hz].
    cbn [walk_body snd] in Hle, Hz. cbn [walk_body].
    split; [ lia | ].
    intros Heq t [<- | Ht].
    + cbn [fst snd].
      destruct ds; destruct fs; cbn [length] in *; try (split; reflexivity);
        lia.
    + apply Hz; [ lia | exact Ht ].
Qed.

Lemma folder_body_empty_in (a : analysis) (p l x : string) :
  In x (empty_folders_encountered (folder_body env a (p, l)))
  <-> In x (empty_folders_encountered a)
      \/ (x = p /\ (env_isdir env p = false
                    \/ lists_nothing (env_walk env p))).
Proof.
  unfold folder_body.
  destruct (env_isdir env p) eqn:Hd; cbn [negb].
  - set (st := foldl (walk_body env (is_exocad_origin l p)) (a, 0)
                     (env_walk env p)).
    assert (He : empty_folders_encountered st.1 = empty_folders_encountered a).
    { unfold st. now rewrite walk_fold_fst, walk_fold_empty. }
    destruct (walk_fold_items_grow (is_exocad_origin l p) (env_walk env p)
                (a, 0)) as [Hle Hz].
    fold st in Hle, Hz. cbn [snd] in Hle, Hz.
    destruct (st.2 =? 0) eqn:H0; cbn [andb].
    + apply Z.eqb_eq in H0. cbn [add_empty empty_folders_encountered].
      rewrite in_app_iff, He. cbn [In]. split.
      * intros [H | [<- | []]]; [ now left | right ].
        split; [ reflexivity | right; now apply Hz ].
      * intros [H | [-> _]]; [ now left | right; now left ].
    + apply Z.eqb_neq in H0. rewrite He. split; [ now left | ].
      intros [H | [_ [H | H]]]; [ exact H | discriminate | ].
      exfalso. apply H0. unfold st.
      now rewrite (walk_fold_items env _ _ (a, 0) H).
  - cbn [add_empty empty_folders_encountered]. rewrite in_app_iff. cbn [In].
    split.
    + intros [H | [<- | []]]; [ now left | right; split; [ reflexivity | now left ] ].
    + intros [H | [-> _]]; [ now left | right; now left ].
Qed.

(** X8.  The list of empty folders holds exactly the selected folder
    paths that are not a directory or whose walk lists nothing at all:
    no file and no subdirectory at any level.  A folder that holds
    only an empty subfolder is therefore not in the list. *)
Theorem empty_folders_are_exactly (sel : list (string * string))
    (folder_path : string) :
  In folder_path
     (empty_folders_encountered (get_recursive_folder_details env sel).2)
  <-> exists origin_label,
        In (folder_path, origin_label) sel
        /\ (env_isdir env folder_path = false
            \/ lists_nothing (env_walk env folder_path)).
Proof.
  unfold get_recursive_folder_details. cbn [snd empty_folders_encountered].
  rewrite <- list_elem_of_In, elem_of_remove_dups, list_elem_of_In.
  assert (H : forall a,
             In folder_path
                (empty_folders_encountered (foldl (folder_body env) a sel))
             <-> In folder_path (empty_folders_encountered a)
                 \/ exists origin_label,
                      In (folder_path, origin_label) sel
                      /\ (env_isdir env folder_path = false
                          \/ lists_nothing (env_walk env folder_path))).
  { induction sel as [ | [p l] sel IH]; intros a; cbn [foldl].
    - split; [ now left | intros [H | [l [[] _]]]; exact H ].
    - rewrite IH, folder_body_empty_in. split.
      + intros [[H | [-> H]] | [l' [Hin H]]].
        * now left.
        * right. exists l. split; [ now left | exact H ].
        * right. exists l'. split; [ now right | exact H ].
      + intros [H | [l' [[Heq | Hin] H]]].
        * left. now left.
        * injection Heq as -> ->. left. right. split; [ reflexivity | exact H ].
        * right. exists l'. split; assumption. }
  rewrite H. cbn [initial empty_folders_encountered In]. tauto.
Qed.

End WithEnv.
End AnalysisMore.

(* ===================================================================== *)
(** * The analysis against the copy plan *)
(* ===================================================================== *)

Module PlanFacts.
Import PyStr StringFacts Analysis AnalysisFacts Discovery DiscoveryFacts.
Import AnalysisMore Copy CopyFacts Readings.

Section WithEnv.
Variable env : source_env.
Variable cfg : settings.

Lemma planned_folder_copies_in (d : list (string * string)) (j : job) :
  In j (planned_folder_copies env cfg d)
  <-> exists item t file,
        In item d /\ In t (env_walk env item.1) /\ In file t.2
        /\ endswith (lower file) ".stl" = true
        /\ (is_exocad_origin item.2 item.1
            && negb (contains_any (lower file) EXOCAD_ALLOWED_KEYWORDS)) = false
        /\ j = {| job_dir :=
                    target_dir_for cfg
                      (is_tissue_name (is_exocad_origin item.2 item.1)
                         (lower file));
                  job_src := path_join t.1.1 file;
                  job_dst :=
                    path_join
                      (target_dir_for cfg
                         (is_tissue_name (is_exocad_origin item.2 item.1)
                            (lower file))) file |}.
Proof.
  unfold planned_folder_copies. rewrite in_concat. split.
  - intros [js [Hjs Hin]]. apply in_map_iff in Hjs.
    destruct Hjs as [item [<- Hitem]]. unfold planned_of_folder in Hin.
    apply in_concat in Hin. destruct Hin as [js [Hjs Hin]].
    apply in_map_iff in Hjs. destruct Hjs as [t [<- Ht]].
    unfold planned_of_step in Hin.
    apply in_concat in Hin. destruct Hin as [js [Hjs Hin]].
    apply in_map_iff in Hjs. destruct Hjs as [file [<- Hfile]].
    unfold planned_of_file in Hin.
    destruct (endswith (lower file) ".stl") eqn:Hs; cbn [andb] in Hin;
      [ | contradiction ].
    destruct (is_exocad_origin item.2 item.1
              && negb (contains_any (lower file) EXOCAD_ALLOWED_KEYWORDS))
      eqn:Hf; cbn [negb] in Hin; [ contradiction | ].
    destruct Hin as [<- | []].
    exists item, t, file. repeat split; assumption.
  - intros [item [t [file [Hitem [Ht [Hfile [Hs [Hf ->]]]]]]]].
    exists (planned_of_folder env cfg item). split; [ now apply in_map | ].
    unfold planned_of_folder. apply in_concat.
    exists (planned_of_step cfg (is_exocad_origin item.2 item.1) t).
    split; [ now apply in_map | ].
    unfold planned_of_step. apply in_concat.
    exists (planned_of_file cfg (is_exocad_origin item.2 item.1) t.1.1 file).
    split; [ now apply in_map | ].
    unfold planned_of_file. rewrite Hs, Hf. now left.
Qed.

Lemma allowed_as_planned (exo : bool) (file : string) :
  isAllowedForOrigin exo file
  = negb (exo && negb (contains_any (lower file) EXOCAD_ALLOWED_KEYWORDS)).
Proof.
  unfold isAllowedForOrigin.
  change (existsb (fun k => contains (lower file) k) EXOCAD_ALLOWED_KEYWORDS)
    with (contains_any (lower file) EXOCAD_ALLOWED_KEYWORDS).
  destruct exo; cbn; [ now rewrite negb_involutive | reflexivity ].
Qed.

(** X9.  For a selection of directories, the tissue flag of the
    analysis is set exactly when some file it could read is planned for
    the tissue stream; when every size can be read and the flag is
    clear, all planned copies go to the model stream. *)
Theorem tissue_flag_matches_plan (sel : list (string * string)) :
  (forall item, In item sel -> env_isdir env item.1 = true) ->
  (tissue_files_present (get_recursive_folder_details env sel).2 = true ->
   exists j, In j (planned_folder_copies env cfg sel)
             /\ is_Some (env_getsize env (job_src j))
             /\ job_dir j = target_dir_for cfg true)
  /\ ((forall f, In f (files_of_selection env sel) ->
                 is_Some (env_getsize env f.1.2)) ->
      tissue_files_present (get_recursive_folder_details env sel).2 = false ->
      forall j, In j (planned_folder_copies env cfg sel) ->
                job_dir j = target_dir_for cfg false).
Proof.
  intros Hdirs. rewrite tissue_flag_of_selection. split.
  - intros Hex. apply existsb_exists in Hex. destruct Hex as [f [Hin Hf]].
    apply files_of_selection_in in Hin.
    destruct Hin as [item [t [file [Hitem [_ [Ht [Hfile ->]]]]]]].
    unfold visible_tissue, stat_ok, isStlFile in Hf. cbn [fst snd] in Hf.
    rewrite allowed_as_planned in Hf.
    apply andb_true_iff in Hf. destruct Hf as [Hf Htis].
    apply andb_true_iff in Hf. destruct Hf as [Hf Hall].
    apply andb_true_iff in Hf. destruct Hf as [Hstat Hstl].
    apply negb_true_iff in Hall.
    eexists. split.
    + apply planned_folder_copies_in.
      exists item, t, file. repeat split; eassumption.
    + cbn [job_src job_dir]. rewrite Htis. split; [ | reflexivity ].
      destruct (env_getsize env (path_join t.1.1 file));
        [ eauto | discriminate ].
  - intros Hstat Hflag j Hj. apply planned_folder_copies_in in Hj.
    destruct Hj as [item [t [file [Hitem [Ht [Hfile [Hs [Hf ->]]]]]]]].
    cbn [job_dir].
    destruct (is_tissue_name (is_exocad_origin item.2 item.1) (lower file))
      eqn:Htis; [ | reflexivity ].
    exfalso.
    assert (Hin : In (is_exocad_origin item.2 item.1, path_join t.1.1 file, file)
                     (files_of_selection env sel)).
    { apply files_of_selection_in. exists item, t, file.
      repeat split; try assumption. now apply Hdirs. }
    assert (Hv : visible_tissue env
                   (is_exocad_origin item.2 item.1, path_join t.1.1 file, file)
                 = true).
    { unfold visible_tissue, stat_ok, isStlFile. cbn [fst snd].
      destruct (Hstat _ Hin) as [sz Hsz]. cbn [fst snd] in Hsz.
      rewrite Hsz, Hs, allowed_as_planned, Hf, Htis. reflexivity. }
    assert (Hex : existsb (visible_tissue env) (files_of_selection env sel)
                  = true)
      by (apply existsb_exists; eauto).
    congruence.
Qed.

(** ** Sizes *)

Lemma planned_size_app (l1 l2 : list job) :
  planned_size env (l1 ++ l2) = planned_size env l1 + planned_size env l2.
Proof. apply foldr_add_app. Qed.

Lemma share_planned (exo : bool) (root file : string) :
  share env (exo, path_join root file, file)
  = planned_size env (planned_of_file cfg exo root file).
Proof.
  unfold share, planned_of_file, isStlFile. cbn [fst snd].
  rewrite allowed_as_planned.
  destruct (endswith (lower file) ".stl" && _); cbn; lia.
Qed.

Lemma step_planned_size (exo : bool) (t : walk_triple) :
  sum_sizes env (step_files exo t)
  = planned_size env (planned_of_step cfg exo t).
Proof.
  rewrite sum_sizes_share. unfold step_files, planned_of_step.
  induction (t.2) as [ | file files IH]; cbn [map foldr concat];
    [ reflexivity | ].
  rewrite IH, planned_size_app, share_planned. reflexivity.
Qed.

Lemma folder_planned_size (item : string * string) :
  env_isdir env item.1 = true ->
  sum_sizes env (files_of_folder env item)
  = planned_size env (planned_of_folder env cfg item).
Proof.
  intros Hd. unfold files_of_folder, planned_of_folder. rewrite Hd.
  induction (env_walk env item.1) as [ | t ts IH]; cbn [map concat];
    [ reflexivity | ].
  rewrite sum_sizes_app, planned_size_app, IH, step_planned_size.
  reflexivity.
Qed.

(** X10.  For a selection of directories, the total copy size the
    analysis reports is the added size of the sources of the copies the
    copy pass plans (a source whose size cannot be read counting for
    nothing), and the number of planned copies is the expected total of
    the pre-scan. *)
Theorem analysis_total_is_planned_size (sel : list (string * string)) :
  (forall item, In item sel -> env_isdir env item.1 = true) ->
  total_copy_size_bytes (get_recursive_folder_details env sel).2
  = planned_size env (planned_folder_copies env cfg sel)
  /\ foldl (scan_folder_body env) 0 sel
     = Z.of_nat (length (planned_folder_copies env cfg sel)).
Proof.
  intros Hdirs. split.
  - unfold get_recursive_folder_details.
    cbn [snd total_copy_size_bytes].
    rewrite selection_fold_total. cbn [initial total_copy_size_bytes].
    unfold files_of_selection, planned_folder_copies.
    induction sel as [ | item sel IH]; cbn [map concat]; [ reflexivity | ].
    rewrite sum_sizes_app, planned_size_app.
    rewrite folder_planned_size by (apply Hdirs; now left).
    assert (Hrest : forall it, In it sel -> env_isdir env it.1 = true)
      by (intros it Hit; apply Hdirs; now right).
    specialize (IH Hrest). lia.
  - now rewrite (scan_pass_planned env cfg).
Qed.

End WithEnv.
End PlanFacts.

(* ===================================================================== *)
(** * Completed runs *)
(* ===================================================================== *)

Module CopyMore.
Import PyStr FolderName Copy CopyFacts Readings.

Lemma count_split (l : list attempt) :
  count_failed l + count_ok l = Z.of_nat (length l).
Proof.
  unfold count_failed, count_ok, failed.
  induction l as [ | a l IH]; [ reflexivity | ].
  cbn [List.filter length]. destruct (at_ok a); cbn [negb length]; lia.
Qed.

Lemma count_failed_nonneg (l : list attempt) : 0 <= count_failed l.
Proof. unfold count_failed. lia. Qed.

Lemma count_ok_nonneg (l : list attempt) : 0 <= count_ok l.
Proof. unfold count_ok. lia. Qed.

Lemma final_message_by_counts (copied errors total : Z) :
  0 <= copied -> 0 <= errors -> 0 < total ->
  final_message copied errors total = status_of_counts copied errors.
Proof.
  intros Hc He Hpos. unfold final_message, status_of_counts.
  destruct (Z.ltb_spec 0 copied); destruct (Z.ltb_spec 0 errors);
    destruct (Z.eqb_spec errors 0); destruct (Z.eqb_spec copied 0);
    destruct (Z.ltb_spec 0 total); try reflexivity; lia.
Qed.

Lemma op_planned_more (jobs more : list job) (op : fs_op) :
  op_planned jobs op -> op_planned (jobs ++ more) op.
Proof.
  destruct op as [d | src dst]; cbn [op_planned].
  - intros [j [Hj Hd]]. exists j. split; [ apply in_or_app; now left | exact Hd ].
  - intros [j [Hj Hd]]. exists j. split; [ apply in_or_app; now left | exact Hd ].
Qed.

Section WithTarget.
Context {fs : Type} {target : CopyTarget fs}.
Variable env : source_env.
Variable cfg : settings.

Lemma tracks_start (s : fs) : tracks (start s) [].
Proof.
  split; [ split; [ | split ] | ]; cbn.
  - lia.
  - intros dir Hd. now apply elem_of_empty in Hd.
  - intros _ j [].
  - intros op [].
Qed.

Lemma try_copy_into_tracks (target_dir src dst : string) (p : progress fs)
    (jobs : list job) :
  tracks p jobs ->
  tracks (try_copy_into target_dir src dst p)
         (jobs ++ [{| job_dir := target_dir; job_src := src;
                      job_dst := dst |}]).
Proof.
  intros [[Hnn [Hsub Hall]] Htr].
  assert (Hlast : In {| job_dir := target_dir; job_src := src; job_dst := dst |}
                     (jobs ++ [{| job_dir := target_dir; job_src := src;
                                  job_dst := dst |}]))
    by (apply in_or_app; right; now left).
  unfold try_copy_into.
  destruct (makedirs target_dir (p_fs p)).2.
  - split; [ split; [ | split ] | ];
      cbn [error_count final_destination_paths_used p_trace].
    + destruct (copy2 src dst _).2; lia.
    + intros dir Hd. apply elem_of_union in Hd. destruct Hd as [Hd | Hd].
      * apply elem_of_singleton in Hd. subst dir. eexists. split;
          [ exact Hlast | reflexivity ].
      * destruct (Hsub dir Hd) as [j [Hj Hjd]]. exists j.
        split; [ apply in_or_app; now left | exact Hjd ].
    + intros Hz j Hj.
      assert (He : error_count p = 0) by (destruct (copy2 src dst _).2; lia).
      apply elem_of_union. apply in_app_or in Hj. destruct Hj as [Hj | Hj].
      * right. now apply Hall.
      * left. destruct Hj as [<- | []]. now apply elem_of_singleton.
    + intros op Hop. apply in_app_or in Hop. destruct Hop as [Hop | Hop].
      * apply op_planned_more. now apply Htr.
      * destruct Hop as [<- | [<- | []]]; cbn [op_planned]; eexists;
          (split; [ exact Hlast | ]); cbn; auto.
  - split; [ split; [ | split ] | ];
      cbn [error_count final_destination_paths_used p_trace].
    + lia.
    + intros dir Hd. destruct (Hsub dir Hd) as [j [Hj Hjd]]. exists j.
      split; [ apply in_or_app; now left | exact Hjd ].
    + intros Hz. lia.
    + intros op Hop. apply in_app_or in Hop. destruct Hop as [Hop | Hop].
      * apply op_planned_more. now apply Htr.
      * destruct Hop as [<- | []]; cbn [op_planned]; eexists;
          (split; [ exact Hlast | ]); cbn; auto.
Qed.

Lemma copy_file_body_tracks (exo : bool) (root : string) (p : progress fs)
    (file : string) (jobs : list job) :
  tracks p jobs ->
  tracks (copy_file_body cfg exo root p file)
         (jobs ++ planned_of_file cfg exo root file).
Proof.
  intros H. unfold copy_file_body, planned_of_file.
  destruct (endswith (lower file) ".stl"); cbn [andb];
    [ | now rewrite app_nil_r ].
  destruct (negb (exo && negb (contains_any (lower file)
                                  EXOCAD_ALLOWED_KEYWORDS)));
    cbn [negb]; [ | now rewrite app_nil_r ].
  now apply try_copy_into_tracks.
Qed.

Lemma copy_step_tracks (exo : bool) (t : walk_triple) (p : progress fs)
    (jobs : list job) :
  tracks p jobs ->
  tracks (foldl (copy_file_body cfg exo t.1.1) p t.2)
         (jobs ++ planned_of_step cfg exo t).
Proof.
  unfold planned_of_step. revert p jobs.
  induction (t.2) as [ | file files IH]; intros p jobs H;
    cbn [foldl map concat].
  - now rewrite app_nil_r.
  - rewrite app_assoc. apply IH. now apply copy_file_body_tracks.
Qed.

Lemma copy_folder_body_tracks (p : progress fs) (item : string * string)
    (jobs : list job) :
  tracks p jobs ->
  tracks (copy_folder_body env cfg p item)
         (jobs ++ planned_of_folder env cfg item).
Proof.
  destruct item as [folder_path origin_label].
  unfold copy_folder_body, planned_of_folder. cbn [fst snd].
  revert p jobs.
  induction (env_walk env folder_path) as [ | t ts IH]; intros p jobs H;
    cbn [foldl map concat].
  - now rewrite app_nil_r.
  - rewrite app_assoc. apply IH. now apply copy_step_tracks.
Qed.

Lemma copy_pass_tracks (d : list (string * string)) (p : progress fs)
    (jobs : list job) :
  tracks p jobs ->
  tracks (foldl (copy_folder_body env cfg) p d)
         (jobs ++ planned_folder_copies env cfg d).
Proof.
  unfold planned_folder_copies. revert p jobs.
  induction d as [ | item d IH]; intros p jobs H; cbn [foldl map concat].
  - now rewrite app_nil_r.
  - rewrite app_assoc. apply IH. now apply copy_folder_body_tracks.
Qed.

(** The file-mode loop leaves the set of used directories alone and
    only issues planned [copy2] calls. *)
Lemma copy_listed_used (target_dir : string) (l : list string)
    (p : progress fs) :
  final_destination_paths_used (foldl (copy_listed_body target_dir) p l)
  = final_destination_paths_used p.
Proof.
  revert p. induction l as [ | src l IH]; intros p; [ reflexivity | ].
  cbn [foldl]. now rewrite IH.
Qed.

Lemma copy_listed_trace (target_dir : string) (l : list string)
    (p : progress fs) :
  p_trace (foldl (copy_listed_body target_dir) p l)
  = p_trace p
    ++ map (fun src => OpCopy2 src (path_join target_dir (basename src))) l.
Proof.
  revert p. induction l as [ | src l IH]; intros p; cbn [foldl map].
  - now rewrite app_nil_r.
  - rewrite IH. unfold copy_listed_body. cbn [p_trace].
    now rewrite <- app_assoc.
Qed.

End WithTarget.

Section Runs.
Context {fs : Type} {target : CopyTarget fs}.
Variable env env_copy : source_env.
Variable cfg : settings.

(** What a completed run leaves behind, in either mode. *)
Lemma completed_run (its : items) (open_destination : bool) (s : fs)
    (total : Z) (status : final_status) (opened : list string)
    (p : progress fs) :
  copy_items env env_copy cfg its open_destination s
  = (Completed total status opened, p) ->
  status = final_message (current_copied_count p) (error_count p) total
  /\ opened = opened_folders open_destination (current_copied_count p)
                (error_count p) (final_destination_paths_used p)
  /\ counted p
  /\ length (p_attempts p) = length (planned_copies env_copy cfg its)
  /\ total = Z.of_nat (length (planned_copies env cfg its))
  /\ total <> 0
  /\ used_tracks p (planned_copies env_copy cfg its)
  /\ (forall l, its = FileItems l ->
                planned_copies env_copy cfg its = planned_copies env cfg its).
Proof.
  intros Hrun.
  assert (Hfin : forall t q,
             finish open_destination t q = (Completed total status opened, p) ->
             q = p /\ t = total
             /\ status = final_message (current_copied_count p)
                                       (error_count p) t
             /\ opened = opened_folders open_destination
                           (current_copied_count p) (error_count p)
                           (final_destination_paths_used p)).
  { unfold finish. intros t q Hq. inversion Hq; subst. repeat split. }
  destruct its as [d | l].
  - destruct d as [ | item d]; [ discriminate | ].
    cbn [copy_items planned_copies] in *. unfold copy_folders in Hrun.
    repeat match type of Hrun with
           | (if ?b then _ else _) = _ =>
               let E := fresh "E" in
               destruct b eqn:E; [ discriminate | ]
           end.
    apply Hfin in Hrun. destruct Hrun as [<- [<- [-> ->]]].
    pose proof (copy_pass_keys env_copy cfg (item :: d) (start s)) as Hk.
    pose proof (copy_pass_counted env_copy cfg (item :: d) (start s)
                  (counted_start s)) as Hc.
    pose proof (copy_pass_tracks env_copy cfg (item :: d) (start s) []
                  (tracks_start s)) as [Hu _].
    rewrite app_nil_l in Hu.
    apply (f_equal (@length _)) in Hk.
    rewrite length_app, !length_map in Hk.
    cbn [start p_attempts length] in Hk.
    match goal with
    | H : (_ =? 0) = false |- _ => apply Z.eqb_neq in H; rename H into Hnz
    end.
    rewrite (scan_pass_planned env cfg) in Hnz |- *.
    repeat split; try assumption; try apply Hc; try apply Hu.
    intros l Hl. discriminate.
  - destruct l as [ | src l]; [ discriminate | ].
    cbn [copy_items planned_copies] in *. unfold copy_files in Hrun.
    repeat match type of Hrun with
           | (if ?b then _ else _) = _ =>
               let E := fresh "E" in
               destruct b eqn:E; [ discriminate | ]
           end.
    apply Hfin in Hrun. destruct Hrun as [<- [<- [-> ->]]].
    fold (file_mode_target_dir cfg) in *.
    match goal with
    | H : negb (makedirs _ _).2 = false |- _ =>
        apply negb_false_iff in H; rewrite H in *
    end.
    match goal with
    | |- context [foldl (copy_listed_body ?t) ?p0 ?l0] =>
        pose proof (copy_listed_keys t l0 p0) as Hk;
        assert (H0 : counted p0) by (split; reflexivity);
        pose proof (copy_listed_counted t l0 p0 H0) as Hc;
        pose proof (copy_listed_used t l0 p0) as Hu
    end.
    apply (f_equal (@length _)) in Hk.
    rewrite length_app, !length_map in Hk.
    cbn [p_attempts length] in Hk. cbn [final_destination_paths_used] in Hu.
    repeat split; try assumption; try apply Hc.
    + now rewrite length_map.
    + now rewrite length_map.
    + cbn [length]. lia.
    + destruct Hc as [-> _]. apply count_failed_nonneg.
    + rewrite Hu. intros dir Hd. apply elem_of_singleton in Hd. subst dir.
      eexists. split; [ now left | reflexivity ].
    + rewrite Hu. intros _ j Hj. apply in_map_iff in Hj.
      destruct Hj as [x [<- _]]. now apply elem_of_singleton.
Qed.

(** X11.  A run of [copy_items] that reaches its final message
    expected at least one copy (the pre-scan counted one).  Its copied
    and error counters are not negative and add up to the number of
    copies the copy pass attempts, and the final message is by cases
    of the two counters: the success message when no attempt failed,
    the failure message when none succeeded, the success message with
    the error note otherwise, and the warning about an attempted copy
    that transferred nothing exactly when the copy pass attempts no
    copy at all.  When the copy pass walks what the pre-scan walked, as
    it always does in file mode, the counters add up to the expected
    total and that warning is not shown. *)
Theorem completed_run_accounts_for_every_copy
    (its : items) (open_destination : bool) (s : fs)
    (total : Z) (status : final_status) (opened : list string)
    (p : progress fs) :
  copy_items env env_copy cfg its open_destination s
  = (Completed total status opened, p) ->
  0 < total
  /\ total = Z.of_nat (length (planned_copies env cfg its))
  /\ 0 <= current_copied_count p
  /\ 0 <= error_count p
  /\ current_copied_count p + error_count p
     = Z.of_nat (length (planned_copies env_copy cfg its))
  /\ status = status_of_counts (current_copied_count p) (error_count p)
  /\ (status = NothingTransferred
      <-> planned_copies env_copy cfg its = [])
  /\ (planned_copies env_copy cfg its = planned_copies env cfg its ->
      current_copied_count p + error_count p = total
      /\ planned_copies env_copy cfg its <> [])
  /\ (forall l, its = FileItems l ->
                current_copied_count p + error_count p = total).
Proof.
  intros Hrun. apply completed_run in Hrun.
  destruct Hrun as [-> [_ [[He Hc] [Hlen [Htot [Hnz [_ Hfile]]]]]]].
  pose proof (count_split (p_attempts p)) as Hsplit.
  pose proof (count_failed_nonneg (p_attempts p)).
  pose proof (count_ok_nonneg (p_attempts p)).
  rewrite Hlen in Hsplit.
  assert (Hpos : 0 < total) by lia.
  assert (Hstatus : final_message (current_copied_count p) (error_count p)
                      total
                    = status_of_counts (current_copied_count p)
                        (error_count p))
    by (apply final_message_by_counts; lia).
  split; [ exact Hpos | ]. split; [ exact Htot | ].
  split; [ lia | ]. split; [ lia | ]. split; [ lia | ].
  split; [ exact Hstatus | ]. split; [ | split ].
  - rewrite Hstatus. unfold status_of_counts.
    destruct (planned_copies env_copy cfg its) as [ | j js] eqn:Hp;
      cbn [length] in Hsplit.
    + assert (error_count p = 0) by lia.
      assert (current_copied_count p = 0) by lia.
      destruct (Z.eqb_spec (error_count p) 0); [ | lia ].
      destruct (Z.eqb_spec (current_copied_count p) 0); [ | lia ].
      split; reflexivity.
    + split; [ | discriminate ].
      destruct (Z.eqb_spec (error_count p) 0);
        destruct (Z.eqb_spec (current_copied_count p) 0);
        try discriminate. lia.
  - intros Hsame. rewrite Hsame in Hsplit |- *. split; [ lia | ].
    intros Hnil. rewrite Hnil in Htot. cbn in Htot. lia.
  - intros l Hl. rewrite (Hfile l Hl) in Hsplit. lia.
Qed.

(** X12.  After a completed run, destination folders are opened
    exactly when opening was asked for, at least one file was copied
    and no attempt failed; the folders opened are then the target
    directories of the copies the copy pass attempted, each of them
    once. *)
Theorem opened_folders_are_the_targets
    (its : items) (open_destination : bool) (s : fs)
    (total : Z) (status : final_status) (opened : list string)
    (p : progress fs) :
  copy_items env env_copy cfg its open_destination s
  = (Completed total status opened, p) ->
  (opened <> []
   <-> open_destination = true
       /\ 0 < current_copied_count p
       /\ error_count p = 0)
  /\ NoDup opened
  /\ (forall dir, In dir opened
                  <-> opened <> []
                      /\ exists j, In j (planned_copies env_copy cfg its)
                                   /\ job_dir j = dir).
Proof.
  intros Hrun. apply completed_run in Hrun.
  destruct Hrun
    as [_ [-> [[He Hc] [Hlen [Htot [Hnz [[Hnn [Hsub Hall]] _]]]]]]].
  pose proof (count_split (p_attempts p)) as Hsplit.
  pose proof (count_ok_nonneg (p_attempts p)).
  rewrite Hlen, <- He, <- Hc in Hsplit.
  unfold opened_folders.
  destruct open_destination; cbn [andb].
  - destruct (Z.ltb_spec 0 (current_copied_count p)) as [Hpos | Hpos];
      cbn [andb].
    + destruct (Z.eqb_spec (error_count p) 0) as [Hz | Hz].
      * assert (Hsome : exists j, In j (planned_copies env_copy cfg its)).
        { destruct (planned_copies env_copy cfg its) as [ | j js];
            [ cbn in Hsplit; lia | exists j; now left ]. }
        assert (Hne : elements (final_destination_paths_used p) <> []).
        { destruct Hsome as [j Hj]. specialize (Hall Hz j Hj).
          apply elem_of_elements in Hall.
          intros Hnil. rewrite Hnil in Hall. now apply elem_of_nil in Hall. }
        split; [ tauto | ]. split.
        -- apply NoDup_elements.
        -- intros dir. rewrite <- list_elem_of_In, elem_of_elements. split.
           ++ intros Hd. split; [ exact Hne | now apply Hsub ].
           ++ intros [_ [j [Hj <-]]]. now apply Hall.
      * split; [ | split ].
        -- split; [ congruence | intros [_ [_ ?]]; contradiction ].
        -- constructor.
        -- intros dir. split; [ intros [] | intros [Hn _]; congruence ].
    + split; [ | split ].
      * split; [ congruence | intros [_ [? _]]; lia ].
      * constructor.
      * intros dir. split; [ intros [] | intros [Hn _]; congruence ].
  - split; [ | split ].
    + split; [ congruence | intros [? _]; discriminate ].
    + constructor.
    + intros dir. split; [ intros [] | intros [Hn _]; congruence ].
Qed.

(** X13.  However a call of [copy_items] ends, every call it made that
    can change the destination belongs to a copy planned on the tree
    the copy pass walks: a directory it created is the target
    directory of one, and a file it copied went from the source of one
    to its destination path. *)
Theorem destination_calls_are_planned
    (its : items) (open_destination : bool) (s : fs) (op : fs_op) :
  In op (p_trace (copy_items env env_copy cfg its open_destination s).2) ->
  op_planned (planned_copies env_copy cfg its) op.
Proof.
  destruct its as [d | l].
  - destruct d as [ | item d]; [ intros [] | ].
    cbn [copy_items planned_copies]. unfold copy_folders.
    repeat match goal with
           | |- In _ (p_trace (if ?b then _ else _).2) -> _ =>
               destruct b; [ intros [] | ]
           end.
    unfold finish. cbn [snd].
    pose proof (copy_pass_tracks env_copy cfg (item :: d) (start s) []
                  (tracks_start s)) as [_ Htr].
    rewrite app_nil_l in Htr. apply Htr.
  - destruct l as [ | src l]; [ intros [] | ].
    cbn [copy_items planned_copies]. unfold copy_files.
    fold (file_mode_target_dir cfg).
    assert (Hmk : op_planned
                    (map (planned_of_listed (file_mode_target_dir cfg))
                         (src :: l))
                    (OpMakedirs (file_mode_target_dir cfg))).
    { cbn [op_planned]. eexists. split; [ now left | reflexivity ]. }
    repeat match goal with
           | |- In _ (p_trace (if ?b then _ else _).2) -> _ =>
               destruct b; [ solve [ intros []
                                   | intros [<- | []]; exact Hmk ] | ]
           end.
    unfold finish. cbn [snd]. rewrite copy_listed_trace. cbn [p_trace].
    intros [<- | Hop]; [ exact Hmk | ].
    apply in_map_iff in Hop. destruct Hop as [x [<- Hx]].
    cbn [op_planned]. exists (planned_of_listed (file_mode_target_dir cfg) x).
    split; [ now apply in_map | split; reflexivity ].
Qed.

End Runs.
End CopyMore.

(* ===================================================================== *)
(** * The copy button against [copy_items] *)
(* ===================================================================== *)

Module GateFacts.
Import PyStr FolderName Copy Gate.

Lemma subfolder_check_agrees (copy_mode new_folder_name : string) :
  String.eqb copy_mode SUBFOLDER_MODE
  && negb (new_folder_name_valid copy_mode new_folder_name)
  = String.eqb copy_mode SUBFOLDER_MODE
    && negb (is_valid_foldername (strip new_folder_name)).
Proof.
  unfold new_folder_name_valid.
  destruct (String.eqb copy_mode SUBFOLDER_MODE); [ | reflexivity ].
  cbn [andb].
  destruct (String.eqb_spec (strip new_folder_name) EmptyString) as [-> | _].
  - reflexivity.
  - now destruct (is_valid_foldername (strip new_folder_name)).
Qed.

Lemma subfolder_check_off (copy_mode new_folder_name : string) :
  String.eqb copy_mode SUBFOLDER_MODE = false ->
  new_folder_name_valid copy_mode new_folder_name = true.
Proof. intros H. unfold new_folder_name_valid. now rewrite H. Qed.

Section WithTarget.
Context {fs : Type} {target : CopyTarget fs}.
Variable env env_copy : source_env.
Variable cfg : settings.

(** The configuration checks of [copy_items] as one boolean. *)
Lemma folder_checks_decide (d : list (string * string)) (s : fs) :
  d <> [] ->
  (detects_config_error cfg (FolderItems d) s
   <-> negb (isdir s MODEL_BASE_PATH)
       || (tissue_files_found_in_selection cfg
           && negb (isdir s TISSUE_BASE_PATH))
       || (String.eqb (model_copy_mode cfg) SUBFOLDER_MODE
           && negb (is_valid_foldername (strip (model_new_folder_name cfg))))
       || (tissue_files_found_in_selection cfg
           && (String.eqb (tissue_copy_mode cfg) SUBFOLDER_MODE
               && negb (is_valid_foldername
                          (strip (tissue_new_folder_name cfg)))))
       = true).
Proof.
  intros Hd. cbn [detects_config_error].
  rewrite !orb_true_iff, !andb_true_iff, !negb_true_iff, !String.eqb_eq.
  tauto.
Qed.

Lemma file_checks_decide (l : list string) (s : fs) :
  l <> [] ->
  (detects_config_error cfg (FileItems l) s
   <-> negb (isdir s INHOUSE_PRINTING_PATH)
       || (String.eqb (model_copy_mode cfg) SUBFOLDER_MODE
           && negb (is_valid_foldername (strip (model_new_folder_name cfg))))
       = true).
Proof.
  intros Hd. cbn [detects_config_error].
  rewrite !orb_true_iff, !andb_true_iff, !negb_true_iff, !String.eqb_eq.
  tauto.
Qed.

Lemma folder_button_as_checks (d : list (string * string)) (total : Z)
    (s : fs) :
  folder_button_disabled cfg d total s
  = negb (isdir s MODEL_BASE_PATH)
    || (tissue_files_found_in_selection cfg
        && negb (isdir s TISSUE_BASE_PATH))
    || (String.eqb (model_copy_mode cfg) SUBFOLDER_MODE
        && negb (is_valid_foldername (strip (model_new_folder_name cfg))))
    || (tissue_files_found_in_selection cfg
        && (String.eqb (tissue_copy_mode cfg) SUBFOLDER_MODE
            && negb (is_valid_foldername
                       (strip (tissue_new_folder_name cfg)))))
    || match d with [] => true | _ :: _ => false end
    || (SIZE_LIMIT_BYTES <? total).
Proof.
  unfold folder_button_disabled. cbv zeta.
  rewrite <- (subfolder_check_agrees (model_copy_mode cfg)
                (model_new_folder_name cfg)).
  rewrite <- (subfolder_check_agrees (tissue_copy_mode cfg)
                (tissue_new_folder_name cfg)).
  destruct (tissue_files_found_in_selection cfg);
    destruct (isdir s MODEL_BASE_PATH);
    destruct (isdir s TISSUE_BASE_PATH);
    destruct (String.eqb (model_copy_mode cfg) SUBFOLDER_MODE
              && negb (new_folder_name_valid (model_copy_mode cfg)
                         (model_new_folder_name cfg)));
    destruct (String.eqb (tissue_copy_mode cfg) SUBFOLDER_MODE
              && negb (new_folder_name_valid (tissue_copy_mode cfg)
                         (tissue_new_folder_name cfg))) eqn:Et;
    cbn [negb andb orb];
    rewrite ?Et; cbn [negb andb orb];
    destruct d; destruct (SIZE_LIMIT_BYTES <? total); reflexivity.
Qed.

Lemma file_button_as_checks (l : list string) (total : Z) (s : fs) :
  file_button_disabled cfg l total s
  = negb (isdir s INHOUSE_PRINTING_PATH)
    || (String.eqb (model_copy_mode cfg) SUBFOLDER_MODE
        && negb (is_valid_foldername (strip (model_new_folder_name cfg))))
    || match l with [] => true | _ :: _ => false end
    || (SIZE_LIMIT_BYTES <? total).
Proof.
  unfold file_button_disabled. cbv zeta.
  change (String.eqb INHOUSE_PRINTING_PATH EmptyString) with false.
  cbv iota.
  rewrite <- (subfolder_check_agrees (model_copy_mode cfg)
                (model_new_folder_name cfg)).
  destruct (isdir s INHOUSE_PRINTING_PATH);
    destruct (String.eqb (model_copy_mode cfg) SUBFOLDER_MODE
              && negb (new_folder_name_valid (model_copy_mode cfg)
                         (model_new_folder_name cfg)));
    cbn [negb andb orb];
    destruct l; destruct (SIZE_LIMIT_BYTES <? total); reflexivity.
Qed.

Lemma folder_button_enabled (d : list (string * string)) (total : Z) (s : fs) :
  folder_button_disabled cfg d total s = false
  <-> d <> []
      /\ ~ detects_config_error cfg (FolderItems d) s
      /\ total <= SIZE_LIMIT_BYTES.
Proof.
  rewrite folder_button_as_checks.
  destruct d as [ | item d].
  - rewrite orb_true_r. cbn [orb].
    split; [ discriminate | intros [Hd _]; now contradiction Hd ].
  - rewrite (folder_checks_decide (item :: d)) by discriminate.
    rewrite orb_false_r.
    destruct (negb (isdir s MODEL_BASE_PATH) || _ || _ || _);
      cbn [orb].
    + split; [ discriminate | intros [_ [Hno _]]; now contradiction Hno ].
    + destruct (Z.ltb_spec SIZE_LIMIT_BYTES total).
      * split; [ discriminate | intros [_ [_ Hle]]; lia ].
      * split; [ intros _ | reflexivity ].
        split; [ discriminate | ]. split; [ discriminate | lia ].
Qed.

Lemma file_button_enabled (l : list string) (total : Z) (s : fs) :
  file_button_disabled cfg l total s = false
  <-> l <> []
      /\ ~ detects_config_error cfg (FileItems l) s
      /\ total <= SIZE_LIMIT_BYTES.
Proof.
  rewrite file_button_as_checks.
  destruct l as [ | src l].
  - rewrite orb_true_r. cbn [orb].
    split; [ discriminate | intros [Hd _]; now contradiction Hd ].
  - rewrite (file_checks_decide (src :: l)) by discriminate.
    rewrite orb_false_r.
    destruct (negb (isdir s INHOUSE_PRINTING_PATH) || _); cbn [orb].
    + split; [ discriminate | intros [_ [Hno _]]; now contradiction Hno ].
    + destruct (Z.ltb_spec SIZE_LIMIT_BYTES total).
      * split; [ discriminate | intros [_ [_ Hle]]; lia ].
      * split; [ intros _ | reflexivity ].
        split; [ discriminate | ]. split; [ discriminate | lia ].
Qed.

Lemma no_config_error_passes (its : items) (open_destination : bool)
    (s : fs) :
  some_selected its ->
  ~ detects_config_error cfg its s ->
  passed_checks (copy_items env env_copy cfg its open_destination s).1 = true.
Proof.
  intros Hsel Hno. destruct its as [d | l].
  - destruct d as [ | item d]; [ now contradiction Hsel | ].
    cbn [copy_items detects_config_error] in *. unfold copy_folders.
    destruct (isdir s MODEL_BASE_PATH) eqn:Hm; cbn [negb];
      [ | exfalso; apply Hno; split; [ discriminate | tauto ] ].
    destruct (tissue_files_found_in_selection cfg) eqn:Ht;
      destruct (isdir s TISSUE_BASE_PATH) eqn:Hb; cbn [negb andb];
      try (exfalso; apply Hno; split; [ discriminate | tauto ]);
      (destruct (String.eqb_spec (model_copy_mode cfg) SUBFOLDER_MODE)
         as [Hmm | Hmm];
       destruct (is_valid_foldername (strip (model_new_folder_name cfg)))
         eqn:Hv; cbn [negb andb];
       try (exfalso; apply Hno; split; [ discriminate | tauto ]));
      try (destruct (String.eqb_spec (tissue_copy_mode cfg) SUBFOLDER_MODE)
             as [Htm | Htm];
           destruct (is_valid_foldername (strip (tissue_new_folder_name cfg)))
             eqn:Hw; cbn [negb andb];
           try (exfalso; apply Hno; split; [ discriminate | tauto ]));
      match goal with
      | |- context [if ?b then (NoStlFound, _) else _] =>
          destruct b; reflexivity
      end.
  - destruct l as [ | src l]; [ now contradiction Hsel | ].
    cbn [copy_items detects_config_error] in *. unfold copy_files.
    change (String.eqb INHOUSE_PRINTING_PATH EmptyString) with false.
    cbn iota.
    destruct (isdir s INHOUSE_PRINTING_PATH) eqn:Hm; cbn [negb];
      [ | exfalso; apply Hno; split; [ discriminate | tauto ] ].
    destruct (String.eqb_spec (model_copy_mode cfg) SUBFOLDER_MODE)
      as [Hmm | Hmm];
      destruct (is_valid_foldername (strip (model_new_folder_name cfg)))
        eqn:Hv; cbn [negb andb];
      try (exfalso; apply Hno; split; [ discriminate | tauto ]);
      cbn [length Z.of_nat Z.eqb];
      match goal with
      | |- context [if negb ?b then (DestinationNotCreated, _) else _] =>
          destruct b; reflexivity
      end.
Qed.

(** X14.  The copy button is enabled exactly when something is
    selected, [copy_items] would find no configuration error in the
    same session state and destination, and the analysed size is within
    the limit of 620 MB; a press of the enabled button therefore never
    ends in a configuration error or in the nothing-selected warning. *)
Theorem copy_button_guards_copy_items (its : items) (total : Z) (s : fs) :
  (button_disabled cfg its total s = false
   <-> some_selected its
       /\ ~ detects_config_error cfg its s
       /\ total <= SIZE_LIMIT_BYTES)
  /\ (button_disabled cfg its total s = false ->
      forall open_destination,
        passed_checks (copy_items env env_copy cfg its open_destination s).1 = true).
Proof.
  assert (Hiff : button_disabled cfg its total s = false
                 <-> some_selected its
                     /\ ~ detects_config_error cfg its s
                     /\ total <= SIZE_LIMIT_BYTES).
  { destruct its as [d | l]; cbn [button_disabled some_selected].
    - apply folder_button_enabled.
    - apply file_button_enabled. }
  split; [ exact Hiff | ].
  intros Hen open_destination. apply Hiff in Hen.
  destruct Hen as [Hsel [Hno _]]. now apply no_config_error_passes.
Qed.

End WithTarget.
End GateFacts.

(* ===================================================================== *)
(** * Session state, search mode and search terms *)
(* ===================================================================== *)

Module SessionFacts.
Import PyStr StringFacts Discovery DiscoveryFacts FlowFacts Session.

(** ** Reset and initialisation *)

Lemma dict_get_key (d : list (string * value)) (key : string) (v : value) :
  dict_get d key = Some v -> existsb (String.eqb key) (map fst d) = true.
Proof.
  induction d as [ | [k w] d IH]; [ discriminate | ].
  cbn [dict_get map fst existsb].
  destruct (String.eqb_spec k key) as [-> | Hne].
  - intros _. now rewrite String.eqb_refl.
  - intros H. rewrite (IH H). apply orb_true_r.
Qed.

Lemma list_remove_keeps (x key : string) (l l' : list string) :
  list_remove x l = Some l' -> key <> x ->
  existsb (String.eqb key) l = true -> existsb (String.eqb key) l' = true.
Proof.
  revert l'. induction l as [ | y l IH]; intros l'; [ discriminate | ].
  cbn [list_remove existsb].
  destruct (String.eqb_spec y x) as [-> | Hne].
  - intros [= <-] Hk H. apply orb_true_iff in H. destruct H as [H | H];
      [ apply String.eqb_eq in H; contradiction | exact H ].
  - destruct (list_remove x l) as [r' | ]; [ | discriminate ].
    intros [= <-] Hk H. cbn [existsb]. apply orb_true_iff in H.
    apply orb_true_iff. destruct H as [H | H]; [ now left | right ].
    now apply IH.
Qed.

Lemma reset_fold_lookup (keys : list string) (st : gmap string value)
    (key : string) :
  foldl reset_key st keys !! key
  = match dict_get default_state key with
    | Some v => if existsb (String.eqb key) keys then Some v else st !! key
    | None => st !! key
    end.
Proof.
  revert st. induction keys as [ | k keys IH]; intros st; cbn [foldl existsb].
  - now destruct (dict_get default_state key).
  - rewrite IH. unfold reset_key.
    destruct (String.eqb_spec key k) as [-> | Hne]; cbn [orb].
    + destruct (dict_get default_state k) as [v | ]; [ | reflexivity ].
      rewrite lookup_insert_eq. now destruct (existsb (String.eqb k) keys).
    + destruct (dict_get default_state key) as [v | ];
        destruct (dict_get default_state k) as [w | ]; try reflexivity;
        rewrite lookup_insert_ne by congruence; reflexivity.
Qed.

Lemma init_fold_lookup (d : list (string * value)) (st : gmap string value)
    (key : string) :
  foldl init_key st d !! key
  = match st !! key with
    | Some v => Some v
    | None => dict_get d key
    end.
Proof.
  revert st. induction d as [ | [k w] d IH]; intros st;
    cbn [foldl dict_get].
  - now destruct (st !! key).
  - rewrite IH. unfold init_key. cbn [fst snd].
    destruct (String.eqb_spec k key) as [-> | Hne].
    + destruct (st !! key) as [v | ] eqn:Hk; [ now rewrite Hk | ].
      now rewrite lookup_insert_eq.
    + destruct (st !! k) as [v | ]; [ reflexivity | ].
      now rewrite lookup_insert_ne by congruence.
Qed.

Lemma reset_lookup (session_state : gmap string value) :
  exists after,
    reset_app_state session_state = Some after
    /\ forall key,
         after !! key
         = if String.eqb key "app_just_reset" then Some (VBool true)
           else match dict_get default_state key with
                | Some v => Some v
                | None => session_state !! key
                end.
Proof.
  unfold reset_app_state.
  destruct (list_remove "app_just_reset" (map fst default_state))
    as [keys | ] eqn:Hrm; [ | vm_compute in Hrm; discriminate ].
  eexists. split; [ reflexivity | ]. intros key.
  destruct (String.eqb_spec key "app_just_reset") as [-> | Hne].
  - apply lookup_insert_eq.
  - rewrite lookup_insert_ne by congruence.
    rewrite reset_fold_lookup.
    destruct (dict_get default_state key) as [v | ] eqn:Hget;
      [ | reflexivity ].
    now rewrite (list_remove_keeps _ key _ _ Hrm Hne (dict_get_key _ _ _ Hget)).
Qed.

(** X15.  [reset_app_state] always completes; afterwards the reset
    flag is [True], every other key of [default_state] holds its
    default value, and every key outside [default_state] (the widget
    keys) holds what it held before. *)
Theorem reset_restores_defaults (session_state : gmap string value) :
  exists after,
    reset_app_state session_state = Some after
    /\ after !! "app_just_reset" = Some (VBool true)
    /\ (forall key v, dict_get default_state key = Some v ->
                      key <> "app_just_reset" -> after !! key = Some v)
    /\ (forall key, dict_get default_state key = None ->
                    after !! key = session_state !! key).
Proof.
  destruct (reset_lookup session_state) as [after [Hr Hl]].
  exists after. split; [ exact Hr | ]. split; [ | split ].
  - now rewrite Hl.
  - intros key v Hget Hne. rewrite Hl, Hget.
    now destruct (String.eqb_spec key "app_just_reset").
  - intros key Hget. rewrite Hl, Hget.
    destruct (String.eqb_spec key "app_just_reset") as [-> | Hne];
      [ vm_compute in Hget; discriminate | reflexivity ].
Qed.

(** X16.  The initialisation loop keeps every value the session state
    already holds and gives each missing key of [default_state] its
    default; running it again changes nothing, and it changes nothing
    after a reset. *)
Theorem initialize_fills_missing_keys (session_state : gmap string value) :
  (forall key, initialize session_state !! key
               = match session_state !! key with
                 | Some v => Some v
                 | None => dict_get default_state key
                 end)
  /\ initialize (initialize session_state) = initialize session_state
  /\ (forall after, reset_app_state session_state = Some after ->
                    initialize after = after).
Proof.
  assert (Hl : forall st key,
             initialize st !! key
             = match st !! key with
               | Some v => Some v
               | None => dict_get default_state key
               end)
    by (intros st key; apply init_fold_lookup).
  split; [ apply Hl | ]. split.
  - apply map_eq. intros key. rewrite !Hl.
    destruct (session_state !! key); [ reflexivity | ].
    now destruct (dict_get default_state key).
  - intros after Hreset.
    destruct (reset_lookup session_state) as [after' [Hr Hafter]].
    rewrite Hreset in Hr. injection Hr as <-.
    apply map_eq. intros key. rewrite Hl.
    destruct (after !! key) as [v | ] eqn:Hk; [ reflexivity | ].
    rewrite Hafter in Hk.
    destruct (String.eqb key "app_just_reset"); [ discriminate | ].
    now destruct (dict_get default_state key).
Qed.

(** ** Search mode *)

Lemma origin_label_inhouse (root_dir : string) :
  origin_label_of root_dir = "InHouse Printing" ->
  root_dir = INHOUSE_PRINTING_PATH.
Proof.
  unfold origin_label_of, PREDEFINED_PATHS. cbn [List.find snd fst].
  destruct (String.eqb_spec PATH_MODEL_MATERIAL root_dir); [ discriminate | ].
  destruct (String.eqb_spec EXOCAD_SOURCE_PATH root_dir); [ discriminate | ].
  destruct (String.eqb_spec INHOUSE_PRINTING_PATH root_dir);
    [ now intros _ | discriminate ].
Qed.

Lemma existsb_eqb_in (x : string) (l : list string) :
  existsb (String.eqb x) l = true <-> In x l.
Proof.
  rewrite existsb_exists. split.
  - intros [y [Hy Heq]]. apply String.eqb_eq in Heq. now subst.
  - intros H. exists x. split; [ exact H | apply String.eqb_refl ].
Qed.

(** X17.  The file mode is chosen exactly when InHouse Printing is
    the only location ticked, and a selection is mixed exactly when it
    has InHouse Printing and is not that one location; so when the
    folder search runs, InHouse Printing is not among its roots and no
    folder it finds carries that label. *)
Theorem file_mode_only_for_inhouse_alone (env : scan_env)
    (selected_search_paths search_terms : list string) :
  ((determine_search_mode selected_search_paths).1 = "file"
   <-> selected_search_paths = [INHOUSE_PRINTING_PATH])
  /\ ((determine_search_mode selected_search_paths).2 = true
      <-> In INHOUSE_PRINTING_PATH selected_search_paths
          /\ selected_search_paths <> [INHOUSE_PRINTING_PATH])
  /\ (determine_search_mode selected_search_paths = ("folder", false) ->
      forall folder_path folder_name origin_label,
        find_folders env selected_search_paths search_terms !! folder_path
        = Some (folder_name, origin_label) ->
        origin_label <> "InHouse Printing").
Proof.
  unfold determine_search_mode.
  destruct (existsb (String.eqb INHOUSE_PRINTING_PATH) selected_search_paths)
    eqn:Hin.
  - apply existsb_eqb_in in Hin.
    destruct selected_search_paths as [ | x [ | y l]]; cbn [length Nat.eqb fst snd].
    + destruct Hin.
    + destruct Hin as [-> | []].
      split; [ tauto | ]. split; [ | discriminate ].
      split; [ discriminate | intros [_ H]; now contradiction H ].
    + split; [ split; discriminate | ].
      split; [ | discriminate ].
      split; [ intros _; split; [ exact Hin | discriminate ] | reflexivity ].
  - cbn [fst snd].
    assert (Hnot : ~ In INHOUSE_PRINTING_PATH selected_search_paths).
    { intros H. apply existsb_eqb_in in H. congruence. }
    split; [ split; [ discriminate | intros ->; exfalso; apply Hnot; now left ] | ].
    split; [ split; [ discriminate | intros [H _]; contradiction ] | ].
    intros _ folder_path folder_name origin_label Hl Hlabel.
    apply find_folders_found_by in Hl.
    destruct Hl as [root_dir [search_term [Hroot [_ [Ho _]]]]].
    rewrite Hlabel in Ho. symmetry in Ho. apply origin_label_inhouse in Ho.
    subst root_dir. contradiction.
Qed.

(** ** Search terms *)

Lemma rstrip_cons (c : ascii) (r : string) :
  rstrip (String c r)
  = match rstrip r with
    | EmptyString => if isspace c then EmptyString else String c EmptyString
    | String a b => String c (String a b)
    end.
Proof. reflexivity. Qed.

Lemma rstrip_idem (s : string) : rstrip (rstrip s) = rstrip s.
Proof.
  induction s as [ | c s IH]; [ reflexivity | ].
  rewrite (rstrip_cons c s).
  destruct (rstrip s) as [ | d r] eqn:Hr.
  - destruct (isspace c) eqn:Hc; [ reflexivity | ].
    rewrite rstrip_cons. cbn [rstrip]. now rewrite Hc.
  - rewrite rstrip_cons, IH. reflexivity.
Qed.

Lemma lstrip_head (s : string) :
  lstrip s = EmptyString
  \/ exists c r, lstrip s = String c r /\ isspace c = false.
Proof.
  induction s as [ | c s IH]; [ now left | ].
  cbn [lstrip]. destruct (isspace c) eqn:Hc; [ exact IH | ].
  right. now exists c, s.
Qed.

Lemma rstrip_head (c : ascii) (r : string) :
  isspace c = false -> exists r', rstrip (String c r) = String c r'.
Proof.
  intros Hc. rewrite rstrip_cons, Hc.
  destruct (rstrip r); eauto.
Qed.

Lemma strip_idem (s : string) : strip (strip s) = strip s.
Proof.
  unfold strip. destruct (lstrip_head s) as [-> | [c [r [-> Hc]]]];
    [ reflexivity | ].
  destruct (rstrip_head c r Hc) as [r' Hr]. rewrite Hr.
  cbn [lstrip]. rewrite Hc, <- Hr. apply rstrip_idem.
Qed.

Lemma lstrip_chars (s : string) (c : ascii) :
  In c (list_ascii_of_string (lstrip s)) -> In c (list_ascii_of_string s).
Proof.
  induction s as [ | x s IH]; [ intros [] | ].
  cbn [lstrip]. destruct (isspace x); [ | trivial ].
  intros H. right. now apply IH.
Qed.

Lemma rstrip_chars (s : string) (c : ascii) :
  In c (list_ascii_of_string (rstrip s)) -> In c (list_ascii_of_string s).
Proof.
  induction s as [ | x s IH]; [ intros [] | ].
  cbn [rstrip]. destruct (rstrip s) as [ | d r].
  - destruct (isspace x); [ intros [] | ].
    intros [<- | []]. now left.
  - intros [<- | H]; [ now left | right; now apply IH ].
Qed.

Lemma strip_chars (s : string) (c : ascii) :
  In c (list_ascii_of_string (strip s)) -> In c (list_ascii_of_string s).
Proof. intros H. now apply lstrip_chars, rstrip_chars. Qed.

Lemma split_lines_no_newline (s line : string) :
  In line (split_lines s) ->
  ~ In "010"%char (list_ascii_of_string line).
Proof.
  revert line. induction s as [ | c s IH]; intros line.
  - intros [<- | []] [].
  - cbn [split_lines]. destruct (Ascii.eqb_spec c "010"%char) as [-> | Hne].
    + intros [<- | H]; [ intros [] | now apply IH ].
    + destruct (split_lines s) as [ | l ls].
      * intros [<- | []] [H | []]. congruence.
      * intros [<- | H].
        -- intros [Hc | Hl]; [ congruence | ].
           apply (IH l); [ now left | exact Hl ].
        -- apply IH. now right.
Qed.

(** X18.  Every search term taken from the text area is non-empty, has
    no white space at either end and no line break inside; a text of
    white space only gives no term at all. *)
Theorem parsed_terms_are_clean (text : string) :
  (forall term, In term (parse_search_terms text) ->
                term <> EmptyString
                /\ strip term = term
                /\ ~ In "010"%char (list_ascii_of_string term))
  /\ (strip text = EmptyString -> parse_search_terms text = []).
Proof.
  unfold parse_search_terms. split.
  - intros term Hin. apply in_map_iff in Hin.
    destruct Hin as [line [<- Hline]].
    apply filter_In in Hline. destruct Hline as [Hline Hne].
    apply negb_true_iff in Hne.
    split; [ | split ].
    + intros Heq. rewrite Heq in Hne. discriminate.
    + apply strip_idem.
    + intros Hc. apply strip_chars in Hc.
      exact (split_lines_no_newline _ _ Hline Hc).
  - intros ->. reflexivity.
Qed.

(** ** Terms without a match *)

Lemma insert_sorted_in (x y : string) (l : list string) :
  In y (insert_sorted x l) <-> y = x \/ In y l.
Proof.
  induction l as [ | z l IH]; cbn [insert_sorted].
  - split; [ intros [<- | []]; now left | intros [-> | []]; now left ].
  - destruct (String.leb x z).
    + split; [ intros [<- | H]; [ now left | now right ]
             | intros [-> | H]; [ now left | now right ] ].
    + cbn [In]. rewrite IH. tauto.
Qed.

Lemma sorted_in (y : string) (l : list string) :
  In y (sorted l) <-> In y l.
Proof.
  unfold sorted. induction l as [ | x l IH]; cbn [foldr]; [ tauto | ].
  rewrite insert_sorted_in, IH. cbn [In]. split; intros [H | H]; auto.
Qed.

Lemma insert_sorted_nodup (x : string) (l : list string) :
  ~ In x l -> NoDup l -> NoDup (insert_sorted x l).
Proof.
  induction l as [ | z l IH]; intros Hx Hl; cbn [insert_sorted].
  - apply NoDup_singleton.
  - destruct (String.leb x z).
    + apply NoDup_cons. split; [ now rewrite list_elem_of_In | exact Hl ].
    + apply NoDup_cons in Hl. destruct Hl as [Hz Hl].
      rewrite list_elem_of_In in Hz.
      apply NoDup_cons. split.
      * rewrite list_elem_of_In, insert_sorted_in.
        intros [-> | H]; [ | contradiction ].
        apply Hx. now left.
      * apply IH; [ | exact Hl ]. intros H. apply Hx. now right.
Qed.

Lemma sorted_nodup (l : list string) : NoDup l -> NoDup (sorted l).
Proof.
  unfold sorted. induction l as [ | x l IH]; intros Hl; cbn [foldr];
    [ apply NoDup_nil_2 | ].
  apply NoDup_cons in Hl. destruct Hl as [Hx Hl].
  rewrite list_elem_of_In in Hx.
  apply insert_sorted_nodup; [ | now apply IH ].
  fold (sorted l). now rewrite sorted_in.
Qed.

Lemma insert_sorted_ascending (x : string) (l : list string) :
  ascending l = true -> ascending (insert_sorted x l) = true.
Proof.
  induction l as [ | z l IH]; intros Hl; [ reflexivity | ].
  cbn [insert_sorted]. destruct (String.leb x z) eqn:Hxz.
  - cbn [ascending]. cbn [ascending] in Hl. now rewrite Hxz, Hl.
  - assert (Hzx : String.leb z x = true)
      by (destruct (String.leb_total x z); congruence).
    assert (Hrest : ascending l = true).
    { cbn [ascending] in Hl. destruct l as [ | y l]; [ reflexivity | ].
      now apply andb_true_iff in Hl. }
    specialize (IH Hrest).
    destruct l as [ | y l].
    + cbn [insert_sorted ascending]. now rewrite Hzx.
    + cbn [ascending] in Hl. apply andb_true_iff in Hl.
      destruct Hl as [Hzy _].
      cbn [insert_sorted] in IH |- *.
      destruct (String.leb x y).
      * change (String.leb z x && ascending (x :: y :: l) = true).
        now rewrite Hzx, IH.
      * change (String.leb z y && ascending (y :: insert_sorted x l) = true).
        now rewrite Hzy, IH.
Qed.

Lemma sorted_ascending (l : list string) : ascending (sorted l) = true.
Proof.
  unfold sorted. induction l as [ | x l IH]; [ reflexivity | ].
  cbn [foldr]. now apply insert_sorted_ascending.
Qed.

Section WithScan.
Variable env : scan_env.

Lemma add_found_keeps (label : string) (m : gmap string (string * string))
    (f : string * string) (path : string) :
  is_Some (m !! path) -> is_Some (add_found label m f !! path).
Proof.
  intros H. unfold add_found. destruct (m !! f.2) eqn:Hf; [ exact H | ].
  destruct (decide (f.2 = path)) as [<- | Hne].
  - rewrite lookup_insert_eq. eauto.
  - now rewrite lookup_insert_ne.
Qed.

Lemma add_found_fold (label : string) (fs : list (string * string))
    (m : gmap string (string * string)) (path : string) :
  is_Some (m !! path) \/ (exists name, In (name, path) fs) ->
  is_Some (foldl (add_found label) m fs !! path).
Proof.
  revert m. induction fs as [ | f fs IH]; intros m; cbn [foldl].
  - intros [H | [name []]]. exact H.
  - intros [H | [name [Hf | Hin]]]; apply IH.
    + left. now apply add_found_keeps.
    + left. subst f. unfold add_found. cbn [fst snd].
      destruct (m !! path) eqn:Hp; [ rewrite Hp; eauto | ].
      rewrite lookup_insert_eq. eauto.
    + right. eauto.
Qed.

Lemma find_in_root_fold (terms : list string) (root_dir : string)
    (m : gmap string (string * string)) (path : string) :
  is_Some (m !! path)
  \/ (exists term name, In term terms
        /\ In (name, path) (search_top_level_folders env root_dir term)) ->
  is_Some (foldl (fun acc search_term =>
                    foldl (add_found (origin_label_of root_dir)) acc
                      (search_top_level_folders env root_dir search_term))
                 m terms !! path).
Proof.
  revert m. induction terms as [ | t terms IH]; intros m; cbn [foldl].
  - intros [H | [term [name [[] _]]]]. exact H.
  - intros [H | [term [name [[<- | Hin] Hf]]]]; apply IH.
    + left. apply add_found_fold. now left.
    + left. apply add_found_fold. right. eauto.
    + right. eauto.
Qed.

Lemma find_folders_fold (sel terms : list string) (root_dir term : string)
    (name path : string) (m : gmap string (string * string)) :
  In term terms ->
  In (name, path) (search_top_level_folders env root_dir term) ->
  is_Some (m !! path) \/ In root_dir sel ->
  is_Some (foldl (find_in_root env terms) m sel !! path).
Proof.
  intros Hterm Hf. revert m.
  induction sel as [ | r sel IH]; intros m; cbn [foldl].
  - intros [H | []]. exact H.
  - intros [H | [Hr | Hin]]; apply IH.
    + left. apply find_in_root_fold. now left.
    + left. subst r. apply find_in_root_fold. right. eauto.
    + now right.
Qed.

Lemma find_folders_has (sel terms : list string) (root_dir term : string)
    (name path : string) :
  In root_dir sel -> In term terms ->
  In (name, path) (search_top_level_folders env root_dir term) ->
  is_Some (find_folders env sel terms !! path).
Proof.
  intros Hroot Hterm Hf. unfold find_folders.
  apply (find_folders_fold sel terms root_dir term name path);
    [ exact Hterm | exact Hf | now right ].
Qed.

(** X19.  With entry names as a directory listing gives them (no path
    separator), the terms reported as not found are exactly the entered
    terms for which the folder search returns nothing in every selected
    root; each is reported once, in ascending order. *)
Theorem not_found_terms_are_the_unmatched
    (selected_search_paths search_terms : list string) :
  (forall root_dir e, In e (listed (scan_listing env root_dir)) ->
                      plain_name (entry_name e)) ->
  (forall term,
      In term (not_found_terms search_terms
                 (find_folders env selected_search_paths search_terms))
      <-> In term search_terms
          /\ forall root_dir, In root_dir selected_search_paths ->
               search_top_level_folders env root_dir term = [])
  /\ NoDup (not_found_terms search_terms
              (find_folders env selected_search_paths search_terms))
  /\ ascending (not_found_terms search_terms
                  (find_folders env selected_search_paths search_terms))
     = true.
Proof.
  intros Hplain.
  set (found := find_folders env selected_search_paths search_terms).
  set (names := map (fun entry : string * (string * string) => lower entry.2.1)
                    (map_to_list found)).
  assert (Hnf : not_found_terms search_terms found
                = sorted (remove_dups
                            (List.filter
                               (fun term => negb (term_found names term))
                               search_terms))).
  { unfold not_found_terms. destruct search_terms; reflexivity. }
  rewrite Hnf. split; [ | split ].
  - intros term.
    rewrite sorted_in, <- list_elem_of_In, elem_of_remove_dups,
      list_elem_of_In, filter_In, negb_true_iff.
    split; intros [Hterm Hfound]; (split; [ exact Hterm | ]).
    + intros root_dir Hroot.
      destruct (search_top_level_folders env root_dir term)
        as [ | [name path] rest] eqn:Hs; [ reflexivity | exfalso ].
      assert (Hf : In (name, path)
                      (search_top_level_folders env root_dir term))
        by (rewrite Hs; now left).
      destruct (find_folders_has selected_search_paths search_terms
                  root_dir term name path Hroot Hterm Hf)
        as [[name' label'] Hl].
      pose proof (find_folders_found_by env _ _ _ _ _ Hl)
        as [root' [term' [_ [_ [_ Hf']]]]].
      apply search_top_level_folders_in in Hf.
      destruct Hf as [_ [_ [e [He [_ [Hc Heq]]]]]].
      apply search_top_level_folders_in in Hf'.
      destruct Hf' as [_ [_ [e' [He' [_ [_ Heq']]]]]].
      injection Heq as Hn Hp. injection Heq' as Hn' Hp'.
      assert (Hsame : entry_name e = entry_name e').
      { rewrite <- (basename_path_join root_dir (entry_name e))
          by exact (Hplain _ _ He).
        rewrite <- (basename_path_join root' (entry_name e'))
          by exact (Hplain _ _ He').
        congruence. }
      assert (Hex : term_found names term = true).
      { unfold term_found. apply existsb_exists.
        exists (lower name'). split.
        - unfold names. apply in_map_iff. exists (path, (name', label')).
          split; [ reflexivity | ].
          apply list_elem_of_In, elem_of_map_to_list. exact Hl.
        - subst name'. now rewrite <- Hsame. }
      congruence.
    + destruct (term_found names term) eqn:Hex; [ exfalso | reflexivity ].
      unfold term_found in Hex. apply existsb_exists in Hex.
      destruct Hex as [name_lower [Hin Hc]].
      unfold names in Hin. apply in_map_iff in Hin.
      destruct Hin as [[path [name label]] [<- Hin]]. cbn [fst snd] in Hc.
      apply list_elem_of_In, elem_of_map_to_list in Hin.
      pose proof (find_folders_found_by env _ _ _ _ _ Hin)
        as [root' [term' [Hroot' [_ [_ Hf']]]]].
      apply search_top_level_folders_in in Hf'.
      destruct Hf' as [Hd [Hr [e' [He' [Hdir [_ Heq']]]]]].
      injection Heq' as Hn' Hp'.
      assert (Hf : In (name, path)
                      (search_top_level_folders env root' term)).
      { apply search_top_level_folders_in.
        split; [ exact Hd | ]. split; [ exact Hr | ].
        exists e'. repeat split; try assumption.
        - now rewrite <- Hn'.
        - now rewrite Hn', Hp'. }
      rewrite (Hfound root' Hroot') in Hf. destruct Hf.
  - apply sorted_nodup, NoDup_remove_dups.
  - apply sorted_ascending.
Qed.

End WithScan.
End SessionFacts.

(* ===================================================================== *)
(** * Where the copies land *)
(* ===================================================================== *)

Module LandingFacts.
Import PyStr StringFacts FolderName Analysis Discovery Copy PlanFacts.

Lemma sep_is_special (c : ascii) : is_sep c = true -> pattern_char c = true.
Proof.
  unfold is_sep. intros H. apply orb_true_iff in H.
  destruct H as [H | H]; apply Ascii.eqb_eq in H; subst c; reflexivity.
Qed.

Lemma no_special_no_sep (l : list ascii) :
  existsb pattern_char l = false -> existsb is_sep l = false.
Proof.
  induction l as [ | c l IH]; [ reflexivity | ].
  cbn [existsb]. intros H. apply orb_false_iff in H. destruct H as [Hc Hl].
  rewrite (IH Hl), orb_false_r.
  destruct (is_sep c) eqn:Hs; [ | reflexivity ].
  apply sep_is_special in Hs. congruence.
Qed.

Lemma basename_no_sep (p : string) :
  existsb is_sep (list_ascii_of_string (basename p)) = false.
Proof.
  induction p as [ | c r IH]; [ reflexivity | ].
  cbn [basename].
  destruct (existsb is_sep (list_ascii_of_string r)) eqn:Hr; [ exact IH | ].
  destruct (is_sep c) eqn:Hc; [ exact Hr | ].
  cbn [list_ascii_of_string existsb]. now rewrite Hc, Hr.
Qed.

(** X20.  A name [is_valid_foldername] accepts is a single path
    component: it is not empty, has no path separator and is neither
    [.] nor [..]; joined to a base directory it names an entry
    directly below that directory. *)
Theorem valid_foldername_is_one_component (foldername : string) :
  is_valid_foldername foldername = true ->
  foldername <> EmptyString
  /\ plain_name foldername
  /\ foldername <> "."
  /\ foldername <> ".."
  /\ forall base,
       basename (path_join base foldername) = foldername
       /\ startswith (path_join base foldername) base = true.
Proof.
  intros Hv.
  assert (Hplain : plain_name foldername).
  { unfold plain_name. apply no_special_no_sep.
    unfold is_valid_foldername, re_search in Hv.
    destruct (String.eqb foldername EmptyString); [ discriminate | ].
    destruct (existsb pattern_char (list_ascii_of_string foldername));
      [ discriminate | reflexivity ]. }
  split; [ intros ->; discriminate | ].
  split; [ exact Hplain | ].
  split; [ intros ->; vm_compute in Hv; discriminate | ].
  split; [ intros ->; vm_compute in Hv; discriminate | ].
  intros base. split.
  - now apply basename_path_join.
  - apply path_join_startswith.
Qed.

(** X21.  With file names as a directory walk gives them (no path
    separator), every planned copy, in folder mode and in file mode
    alike, goes into its target directory under the base name of its
    source: the folders between the selected folder and the file are
    not kept. *)
Theorem copies_land_flat (env : source_env) (cfg : settings) (its : items)
    (j : job) :
  (forall path t file, In t (env_walk env path) -> In file t.2 ->
                       plain_name file) ->
  In j (planned_copies env cfg its) ->
  job_dst j = path_join (job_dir j) (basename (job_src j))
  /\ basename (job_dst j) = basename (job_src j).
Proof.
  intros Hplain Hj. destruct its as [d | l]; cbn [planned_copies] in Hj.
  - apply planned_folder_copies_in in Hj.
    destruct Hj as [item [t [file [_ [Ht [Hfile [_ [_ ->]]]]]]]].
    cbn [job_dst job_dir job_src].
    pose proof (Hplain _ _ _ Ht Hfile) as Hp. unfold plain_name in Hp.
    rewrite !basename_path_join by exact Hp. split; reflexivity.
  - apply in_map_iff in Hj. destruct Hj as [src [<- _]].
    unfold planned_of_listed. cbn [job_dst job_dir job_src].
    split; [ reflexivity | ].
    apply basename_path_join, basename_no_sep.
Qed.

End LandingFacts.

(* ===================================================================== *)
(** * What a run leaves on the destination *)
(* ===================================================================== *)

Module StoreMore.
Import PyStr Copy Store StoreFacts.

Section WithWorld.
Variable w : world.
Variable env env_copy : source_env.
Variable cfg : settings.

Lemma made_dirs_elem (jobs : list job) (dir : string) :
  dir ∈ made_dirs w jobs -> exists j, In j jobs /\ job_dir j = dir.
Proof.
  unfold made_dirs. rewrite elem_of_list_to_set, list_elem_of_In, in_map_iff.
  intros [j [Hd Hj]]. apply filter_In in Hj. exists j. tauto.
Qed.

(** X22.  On a destination of directories and named files, where
    [makedirs] adds a directory and a [copy2] that succeeds leaves the
    source file under the destination name, a call of [copy_items]
    removes nothing: every directory and every file that was there is
    still there, a directory that is new is the target directory of a
    planned copy, and a file that is new or changed is the destination
    of a planned copy and is the file of its source. *)
Theorem run_only_adds_planned_copies (its : items) (d : disk) :
  (forall dir, dir ∈ dirs d -> dir ∈ dirs (run w env env_copy cfg its d))
  /\ (forall path, is_Some (files d !! path) ->
                   is_Some (files (run w env env_copy cfg its d) !! path))
  /\ (forall dir, dir ∈ dirs (run w env env_copy cfg its d) ->
                  dir ∈ dirs d
                  \/ exists j, In j (planned_copies env_copy cfg its)
                               /\ job_dir j = dir)
  /\ (forall path content,
         files (run w env env_copy cfg its d) !! path = Some content ->
         files d !! path = Some content
         \/ exists j, In j (planned_copies env_copy cfg its)
                      /\ job_dst j = path
                      /\ readable w (job_src j) = Some content).
Proof.
  destruct (reaches_copy_loop w env env_copy cfg its d) eqn:Hr;
    [ | rewrite (run_unreached w env env_copy cfg its d Hr);
        repeat split; auto ].
  destruct (run_reached w env env_copy cfg its d Hr) as [Hf Hd].
  split; [ | split; [ | split ] ].
  - intros dir H. rewrite Hd. apply elem_of_union. now right.
  - intros path H. rewrite Hf. now apply settle_some.
  - intros dir H. rewrite Hd in H. apply elem_of_union in H.
    destruct H as [H | H]; [ right | now left ].
    now apply made_dirs_elem.
  - intros path content H. rewrite Hf in H. apply settle_origin in H.
    destruct H as [H | H]; [ now left | right ].
    apply arrivals_in in H. destruct H as [j [Hj [_ [Hp Hread]]]].
    exists j. repeat split; assumption.
Qed.

End WithWorld.
End StoreMore.

(* ===================================================================== *)
(** * Further scenarios *)
(* ===================================================================== *)

Module MoreScenarios.
Import PyStr FolderName Analysis Discovery Copy Store Readings Gate Session.
Import Samples MoreSamples.

Ltac in_listed H :=
  repeat (destruct H as [<- | H]); try contradiction.

Lemma found_folders_are_under_their_root_witness :
  (exists root_dir search_term,
      In root_dir [EXOCAD_SOURCE_PATH]
      /\ In search_term ["smith"]
      /\ "Exocad" = origin_label_of root_dir
      /\ path_join EXOCAD_SOURCE_PATH "2025-12345 Smith"
         = path_join root_dir "2025-12345 Smith"
      /\ contains (lower "2025-12345 Smith") (lower search_term) = true)
  /\ (is_exocad_origin "Exocad"
        (path_join EXOCAD_SOURCE_PATH "2025-12345 Smith") = true
      <-> "Exocad" = "Exocad").
Proof.
  apply (FlowFacts.found_folders_are_under_their_root roots_env
           [EXOCAD_SOURCE_PATH] ["smith"]
           (path_join EXOCAD_SOURCE_PATH "2025-12345 Smith")
           "2025-12345 Smith" "Exocad").
  vm_compute. reflexivity.
Defined.

Lemma queue_tree_plain (path : string) (t : walk_triple) (file : string) :
  In t (env_walk queue_tree path) -> In file t.2 -> plain_name file.
Proof.
  cbn [env_walk queue_tree]. intros Ht Hf.
  destruct (String.eqb path INHOUSE_PRINTING_PATH); [ | destruct Ht ].
  in_listed Ht; cbn [snd] in Hf; in_listed Hf; reflexivity.
Qed.

Lemma searched_files_are_all_stl_witness :
  (forall path,
      In path (search_files_recursively queue_tree INHOUSE_PRINTING_PATH
                 ["smith"]) ->
      endswith (lower (basename path)) ".stl" = true)
  /\ non_stl_found
       (get_file_details queue_tree
          (search_files_recursively queue_tree INHOUSE_PRINTING_PATH
             ["smith"])).2 = false.
Proof.
  apply (FlowFacts.searched_files_are_all_stl queue_tree
           INHOUSE_PRINTING_PATH ["smith"]).
  intros t file. apply queue_tree_plain.
Defined.

Lemma exocad_env_sizes (path : string) (sz : Z) :
  env_getsize exocad_env path = Some sz -> 0 <= sz.
Proof.
  cbn [env_getsize exocad_env].
  repeat match goal with
         | |- (if ?b then _ else _) = _ -> _ =>
             destruct b; [ intros [= <-]; lia | ]
         end.
  discriminate.
Qed.

Lemma display_size_within_total_witness :
  (forall sel,
      0 <= display_model_size_bytes
             (get_recursive_folder_details exocad_env sel).2
        <= total_copy_size_bytes
             (get_recursive_folder_details exocad_env sel).2)
  /\ (forall file_paths,
         0 <= display_model_size_bytes
                (get_file_details exocad_env file_paths).2
           <= total_copy_size_bytes
                (get_file_details exocad_env file_paths).2).
Proof.
  apply (AnalysisMore.display_size_within_total exocad_env).
  exact exocad_env_sizes.
Defined.

Lemma exocad_selection_dirs (item : string * string) :
  In item exocad_selection -> env_isdir exocad_env item.1 = true.
Proof. intros [<- | []]. reflexivity. Qed.

Lemma tissue_flag_matches_plan_witness :
  (tissue_files_present
     (get_recursive_folder_details exocad_env exocad_selection).2 = true ->
   exists j, In j (planned_folder_copies exocad_env direct_cfg
                     exocad_selection)
             /\ is_Some (env_getsize exocad_env (job_src j))
             /\ job_dir j = target_dir_for direct_cfg true)
  /\ ((forall f, In f (files_of_selection exocad_env exocad_selection) ->
                 is_Some (env_getsize exocad_env f.1.2)) ->
      tissue_files_present
        (get_recursive_folder_details exocad_env exocad_selection).2 = false ->
      forall j, In j (planned_folder_copies exocad_env direct_cfg
                        exocad_selection) ->
                job_dir j = target_dir_for direct_cfg false).
Proof.
  apply (PlanFacts.tissue_flag_matches_plan exocad_env direct_cfg
           exocad_selection).
  exact exocad_selection_dirs.
Defined.

Lemma analysis_total_is_planned_size_witness :
  total_copy_size_bytes
    (get_recursive_folder_details exocad_env exocad_selection).2
  = planned_size exocad_env
      (planned_folder_copies exocad_env direct_cfg exocad_selection)
  /\ foldl (scan_folder_body exocad_env) 0 exocad_selection
     = Z.of_nat (length (planned_folder_copies exocad_env direct_cfg
                           exocad_selection)).
Proof.
  apply (PlanFacts.analysis_total_is_planned_size exocad_env direct_cfg
           exocad_selection).
  exact exocad_selection_dirs.
Defined.

Lemma completed_run_accounts_for_every_copy_witness :
  let its := FolderItems exocad_selection in
  let r := copy_items (target := disk_target flaky_world) exocad_env
             exocad_env direct_cfg its false empty_disk in
  0 < 2
  /\ 2 = Z.of_nat (length (planned_copies exocad_env direct_cfg its))
  /\ 0 <= current_copied_count r.2
  /\ 0 <= error_count r.2
  /\ current_copied_count r.2 + error_count r.2
     = Z.of_nat (length (planned_copies exocad_env direct_cfg its))
  /\ CopiedWithErrors 1 1
     = status_of_counts (current_copied_count r.2) (error_count r.2)
  /\ (CopiedWithErrors 1 1 = NothingTransferred
      <-> planned_copies exocad_env direct_cfg its = [])
  /\ (planned_copies exocad_env direct_cfg its
      = planned_copies exocad_env direct_cfg its ->
      current_copied_count r.2 + error_count r.2 = 2
      /\ planned_copies exocad_env direct_cfg its <> [])
  /\ (forall l, its = FileItems l ->
                current_copied_count r.2 + error_count r.2 = 2).
Proof.
  cbn zeta.
  apply (CopyMore.completed_run_accounts_for_every_copy
           (target := disk_target flaky_world) exocad_env exocad_env
           direct_cfg (FolderItems exocad_selection) false empty_disk 2
           (CopiedWithErrors 1 1) []).
  vm_compute. reflexivity.
Defined.

(** When the tree is gone by the time of the copy pass, nothing is
    attempted and the warning is shown. *)
Example vanished_tree_transfers_nothing :
  (copy_items (target := disk_target open_world) exocad_env locked_env
     direct_cfg (FolderItems exocad_selection) true empty_disk).1
  = Completed 2 NothingTransferred [].
Proof. vm_compute. reflexivity. Qed.

Lemma opened_folders_are_the_targets_witness :
  let its := FolderItems exocad_selection in
  let r := copy_items (target := disk_target open_world) exocad_env
             exocad_env direct_cfg its true empty_disk in
  let opened := match r.1 with
                | Completed _ _ opened => opened
                | _ => []
                end in
  (opened <> []
   <-> true = true /\ 0 < current_copied_count r.2 /\ error_count r.2 = 0)
  /\ NoDup opened
  /\ (forall dir, In dir opened
                  <-> opened <> []
                      /\ exists j, In j (planned_copies exocad_env direct_cfg
                                           its)
                                   /\ job_dir j = dir).
Proof.
  cbn zeta.
  apply (CopyMore.opened_folders_are_the_targets
           (target := disk_target open_world) exocad_env exocad_env
           direct_cfg (FolderItems exocad_selection) true empty_disk 2
           (CopiedOk 2)).
  vm_compute. reflexivity.
Defined.

Lemma destination_calls_are_planned_witness :
  op_planned (planned_copies exocad_env direct_cfg
                (FolderItems exocad_selection))
             (OpMakedirs TISSUE_BASE_PATH).
Proof.
  apply (CopyMore.destination_calls_are_planned
           (target := disk_target flaky_world) exocad_env exocad_env
           direct_cfg (FolderItems exocad_selection) false empty_disk
           (OpMakedirs TISSUE_BASE_PATH)).
  vm_compute. auto 10.
Defined.

Lemma roots_env_plain (root_dir : string) (e : dir_entry) :
  In e (listed (scan_listing roots_env root_dir)) -> plain_name (entry_name e).
Proof.
  cbn [scan_listing roots_env]. intros He.
  destruct (String.eqb root_dir EXOCAD_SOURCE_PATH); cbn [listed] in He;
    in_listed He; reflexivity.
Qed.

Lemma not_found_terms_are_the_unmatched_witness :
  (forall term,
      In term (not_found_terms ["smith"; "jones"]
                 (find_folders roots_env [EXOCAD_SOURCE_PATH]
                    ["smith"; "jones"]))
      <-> In term ["smith"; "jones"]
          /\ forall root_dir, In root_dir [EXOCAD_SOURCE_PATH] ->
               search_top_level_folders roots_env root_dir term = [])
  /\ NoDup (not_found_terms ["smith"; "jones"]
              (find_folders roots_env [EXOCAD_SOURCE_PATH]
                 ["smith"; "jones"]))
  /\ ascending (not_found_terms ["smith"; "jones"]
                  (find_folders roots_env [EXOCAD_SOURCE_PATH]
                     ["smith"; "jones"]))
     = true.
Proof.
  apply (SessionFacts.not_found_terms_are_the_unmatched roots_env
           [EXOCAD_SOURCE_PATH] ["smith"; "jones"]).
  exact roots_env_plain.
Defined.

Lemma valid_foldername_is_one_component_witness :
  "batch 7" <> EmptyString
  /\ plain_name "batch 7"
  /\ "batch 7" <> "."
  /\ "batch 7" <> ".."
  /\ forall base,
       basename (path_join base "batch 7") = "batch 7"
       /\ startswith (path_join base "batch 7") base = true.
Proof.
  apply (LandingFacts.valid_foldername_is_one_component "batch 7").
  vm_compute. reflexivity.
Defined.

Lemma exocad_env_plain (path : string) (t : walk_triple) (file : string) :
  In t (env_walk exocad_env path) -> In file t.2 -> plain_name file.
Proof.
  cbn [env_walk exocad_env]. intros Ht Hf.
  destruct (String.eqb path exocad_case); [ | destruct Ht ].
  in_listed Ht; cbn [snd] in Hf; in_listed Hf; reflexivity.
Qed.

Lemma copies_land_flat_witness :
  let j := {| job_dir := TISSUE_BASE_PATH;
              job_src := path_join (path_join exocad_case "scans")
                           "Gingiva_Mask.STL";
              job_dst := path_join TISSUE_BASE_PATH "Gingiva_Mask.STL" |} in
  job_dst j = path_join (job_dir j) (basename (job_src j))
  /\ basename (job_dst j) = basename (job_src j).
Proof.
  cbn zeta.
  apply (LandingFacts.copies_land_flat exocad_env direct_cfg
           (FolderItems exocad_selection)).
  - exact exocad_env_plain.
  - vm_compute. auto 10.
Defined.

End MoreScenarios.
